(** * Stock availability and registration in the storefront

    A shallow embedding of the storefront's inventory-check route
    ([/api/inventory/check], in its weight-aware and its quantity-only
    version), of the cart hook that calls it before adding to the cart
    ([useCart], [addToCartWithToast]), of the stock re-validation of the
    checkout page, and of the registration route, followed by the
    properties the specification states about them.

    Conventions of the embedding:
    - a JavaScript number is a rational ([Q]): the finite values a JSON
      body and a decimal column carry; the rounding of double arithmetic
      and NaN are outside the model;
    - a field that may be [undefined] or [null] is an [option]; both are
      falsy and both differ from [0], and this is all the code asks of them;
    - a table read either returns its rows or throws ([Thrown]);
    - [fetch('/api/inventory/check')] is the call of the route on the body
      the client builds; a failure of the network is outside the model;
    - a decimal column, which the driver hands over as a string and the code
      reads with [parseFloat], is the number it denotes;
    - a template string with a number in it is kept as a constructor of
      [Msg] holding that number. *)

From Stdlib Require Import QArith Lqa Lia Bool List Ascii String.
Import ListNotations.

Local Open Scope string_scope.
Local Open Scope Q_scope.

(** ** JavaScript values and operators *)

Module Js.

(** Truthiness of a number: every number but [0]. *)
Definition truthy_num (n : Q) : bool := negb (Qeq_bool n 0).

(** Truthiness of a string: every string but the empty one. *)
Definition truthy_str (s : string) : bool :=
  match s with EmptyString => false | String _ _ => true end.

(** [!v] for an optional number. *)
Definition not_num (v : option Q) : bool :=
  match v with Some n => negb (truthy_num n) | None => true end.

(** [v !== 0] for an optional number. *)
Definition strict_neq_zero (v : option Q) : bool :=
  match v with Some n => negb (Qeq_bool n 0) | None => true end.

(** [v || d] for an optional number and a number. *)
Definition or_num (v : option Q) (d : Q) : Q :=
  match v with
  | Some n => if truthy_num n then n else d
  | None => d
  end.

(** [v || d] for an optional string and a string. *)
Definition or_str (v : option string) (d : string) : string :=
  match v with
  | Some s => if truthy_str s then s else d
  | None => d
  end.

(** The string of a truthy optional string, [None] when it is falsy. *)
Definition truthy_string (v : option string) : option string :=
  match v with
  | Some s => if truthy_str s then Some s else None
  | None => None
  end.

(** [a >= b] and [a > b] on numbers. *)
Definition ge (a b : Q) : bool := Qle_bool b a.
Definition gt (a b : Q) : bool := negb (Qle_bool a b).

(** [v] read as a condition, for an optional boolean. *)
Definition truthy_bool (v : option bool) : bool :=
  match v with Some b => b | None => false end.

End Js.

(** ** Exceptions *)

Inductive Thrown (A : Type) : Type :=
| Returned (a : A)
| Raised.

Arguments Returned {A} a.
Arguments Raised {A}.

Definition bind {A B : Type} (c : Thrown A) (k : A -> Thrown B) : Thrown B :=
match c with
| Returned a => k a
| Raised => Raised
end.

Notation "x <- c ;; k" := (bind c (fun x => k))
(at level 100, c at next level, right associativity).

(** [try { c } catch { h }] *)
Definition try_catch {A : Type} (c : Thrown A) (h : A) : A :=
match c with
| Returned a => a
| Raised => h
end.

(** ** The tables the routes read *)

Module Setting.
Record t := { key : string; value : string }.
End Setting.

Module ProductRow.
Record t := {
  id : string;
  name : string;
  stockManagementType : option string;
  productType : option string
}.
End ProductRow.

Module Inventory.
Record t := {
  productId : string;
  variantId : option string;
  availableQuantity : option Q;
  availableWeight : option Q
}.
End Inventory.

Module Db.
Record t := {
  settings : Thrown (list Setting.t);
  products : Thrown (list ProductRow.t);
  productInventory : Thrown (list Inventory.t)
}.

(** [select().from(table).where(p).limit(1)] *)
Definition select_limit1 {R : Type} (table : Thrown (list R)) (p : R -> bool)
  : Thrown (list R) :=
  rows <- table ;; Returned (firstn 1 (filter p rows)).

(** [query.table.findFirst({ where: p })] *)
Definition findFirst {R : Type} (table : Thrown (list R)) (p : R -> bool)
  : Thrown (option R) :=
  rows <- table ;; Returned (find p rows).

(** [eq(column, v)] on a nullable column. *)
Definition eq_nullable (column : option string) (v : string) : bool :=
  match column with Some c => String.eqb c v | None => false end.
End Db.

(** ** Requests and responses *)

Inductive Msg : Type :=
| Str (s : string)
| OnlyGramsAvailable (w : option Q)
| OnlyUnitsAvailable (n : option Q).

Module Body.
(** The JSON body of an inventory check. *)
Record t := {
  productId : option string;
  variantId : option string;
  requestedQuantity : option Q;
  requestedWeight : option Q
}.
End Body.

Module Json.
(** The JSON object of a response; an absent field is [None]. *)
Record t := {
  error : option string;
  success : option bool;
  available : option bool;
  stockManagementEnabled : option bool;
  isWeightBased : option bool;
  availableQuantity : option Q;
  availableWeight : option Q;
  requestedQuantity : option Q;
  requestedWeight : option Q;
  message : option Msg
}.

Definition of_error (e : string) : t :=
  {| error := Some e; success := None; available := None;
     stockManagementEnabled := None; isWeightBased := None;
     availableQuantity := None; availableWeight := None;
     requestedQuantity := None; requestedWeight := None;
     message := None |}.
End Json.

Module NextResponse.
Record t := { status : nat; body : Json.t }.

(** [NextResponse.json(obj)] and [NextResponse.json(obj, { status })] *)
Definition json (obj : Json.t) : t := {| status := 200; body := obj |}.
Definition json_status (obj : Json.t) (st : nat) : t :=
  {| status := st; body := obj |}.

(** [response.ok] *)
Definition ok (r : t) : bool :=
  Nat.leb 200 (status r) && Nat.leb (status r) 299.
End NextResponse.

Module NextRequest.
(** [await req.json()] returns the parsed body or throws. *)
Record t := { json : Thrown Body.t }.
End NextRequest.

(** The value the routes report when stock management is off. *)
Definition sentinel : Q := 999999.

(** ** The inventory-check route, weight-aware version *)

Module InventoryCheck.

Definition getStockManagementSetting (db : Db.t) : bool :=
  try_catch
    (setting <- Db.select_limit1 (Db.settings db)
                  (fun r => String.eqb (Setting.key r) "stock_management_enabled") ;;
     Returned match setting with
              | row :: _ => String.eqb (Setting.value row) "true"
              | [] => false
              end)
    false.

Definition isWeightBasedProduct (stockManagementType : string) : bool :=
  String.eqb stockManagementType "weight".

(** [isWeightBasedProduct(product.stockManagementType || 'quantity')] *)
Definition isWeightBased (product : ProductRow.t) : bool :=
  isWeightBasedProduct (Js.or_str (ProductRow.stockManagementType product) "quantity").

(** The inventory rows the route selects: by product, and by variant
    when a variant is given. *)
Definition whereConditions (productId : string) (variantId : option string)
  (r : Inventory.t) : bool :=
  match Js.truthy_string variantId with
  | Some v => String.eqb (Inventory.productId r) productId
              && Db.eq_nullable (Inventory.variantId r) v
  | None => String.eqb (Inventory.productId r) productId
  end.

Definition disabled_response (b : Body.t) : Json.t :=
  {| Json.error := None;
     Json.success := Some true;
     Json.available := Some true;
     Json.stockManagementEnabled := Some false;
     Json.isWeightBased := Some false;
     Json.availableQuantity := Some sentinel;
     Json.availableWeight := Some sentinel;
     Json.requestedQuantity := Some (Js.or_num (Body.requestedQuantity b) 0);
     Json.requestedWeight := Some (Js.or_num (Body.requestedWeight b) 0);
     Json.message := None |}.

Definition no_record_response (b : Body.t) (isWeightBased : bool) : Json.t :=
  {| Json.error := None;
     Json.success := Some false;
     Json.available := Some false;
     Json.stockManagementEnabled := Some true;
     Json.isWeightBased := Some isWeightBased;
     Json.availableQuantity := Some 0;
     Json.availableWeight := Some 0;
     Json.requestedQuantity := Some (Js.or_num (Body.requestedQuantity b) 0);
     Json.requestedWeight := Some (Js.or_num (Body.requestedWeight b) 0);
     Json.message := Some (Str "No inventory record found for this product") |}.

Definition weight_response (b : Body.t) (inv : Inventory.t) : Json.t :=
  let availableWeight := Js.or_num (Inventory.availableWeight inv) 0 in
  let isAvailable := Js.ge availableWeight (Js.or_num (Body.requestedWeight b) 0) in
  {| Json.error := None;
     Json.success := Some true;
     Json.available := Some isAvailable;
     Json.stockManagementEnabled := Some true;
     Json.isWeightBased := Some true;
     Json.availableQuantity := None;
     Json.availableWeight := Some availableWeight;
     Json.requestedQuantity := None;
     Json.requestedWeight := Some (Js.or_num (Body.requestedWeight b) 0);
     Json.message := Some (if isAvailable then Str "Stock available"
                           else OnlyGramsAvailable (Some availableWeight)) |}.

Definition quantity_response (b : Body.t) (inv : Inventory.t) : Json.t :=
  let availableQuantity := Js.or_num (Inventory.availableQuantity inv) 0 in
  let isAvailable := Js.ge availableQuantity (Js.or_num (Body.requestedQuantity b) 0) in
  {| Json.error := None;
     Json.success := Some true;
     Json.available := Some isAvailable;
     Json.stockManagementEnabled := Some true;
     Json.isWeightBased := Some false;
     Json.availableQuantity := Some availableQuantity;
     Json.availableWeight := None;
     Json.requestedQuantity := Some (Js.or_num (Body.requestedQuantity b) 0);
     Json.requestedWeight := None;
     Json.message := Some (if isAvailable then Str "Stock available"
                           else OnlyUnitsAvailable (Some availableQuantity)) |}.

(** The part of [POST] that runs once stock management is known to be on. *)
Definition check_enabled (db : Db.t) (b : Body.t) (productId : string)
  : Thrown NextResponse.t :=
  product <- Db.findFirst (Db.products db)
               (fun p => String.eqb (ProductRow.id p) productId) ;;
  match product with
  | None =>
      Returned (NextResponse.json_status (Json.of_error "Product not found") 404)
  | Some product =>
      let isWeightBased := isWeightBased product in
      if isWeightBased && Js.not_num (Body.requestedWeight b)
         && Js.strict_neq_zero (Body.requestedWeight b)
      then Returned (NextResponse.json_status
             (Json.of_error "Requested weight is required for weight-based products") 400)
      else if negb isWeightBased && Js.not_num (Body.requestedQuantity b)
              && Js.strict_neq_zero (Body.requestedQuantity b)
      then Returned (NextResponse.json_status
             (Json.of_error "Requested quantity is required for quantity-based products") 400)
      else
        inventory <- Db.select_limit1 (Db.productInventory db)
                       (whereConditions productId (Body.variantId b)) ;;
        match inventory with
        | [] => Returned (NextResponse.json (no_record_response b isWeightBased))
        | inv :: _ =>
            if isWeightBased
            then Returned (NextResponse.json (weight_response b inv))
            else Returned (NextResponse.json (quantity_response b inv))
        end
  end.

Definition POST (db : Db.t) (req : NextRequest.t) : NextResponse.t :=
  try_catch
    (b <- NextRequest.json req ;;
     match Js.truthy_string (Body.productId b) with
     | None =>
         Returned (NextResponse.json_status (Json.of_error "Product ID is required") 400)
     | Some productId =>
         let stockManagementEnabled := getStockManagementSetting db in
         if negb stockManagementEnabled
         then Returned (NextResponse.json (disabled_response b))
         else check_enabled db b productId
     end)
    (NextResponse.json_status (Json.of_error "Failed to check inventory") 500).

End InventoryCheck.

(** ** The inventory-check route, quantity-only version *)

Module InventoryCheckQuantity.

Definition getStockManagementSetting (db : Db.t) : bool :=
  try_catch
    (setting <- Db.select_limit1 (Db.settings db)
                  (fun r => String.eqb (Setting.key r) "stock_management_enabled") ;;
     Returned match setting with
              | row :: _ => String.eqb (Setting.value row) "true"
              | [] => false
              end)
    false.

Definition whereConditions (productId : string) (variantId : option string)
  (r : Inventory.t) : bool :=
  match Js.truthy_string variantId with
  | Some v => String.eqb (Inventory.productId r) productId
              && Db.eq_nullable (Inventory.variantId r) v
  | None => String.eqb (Inventory.productId r) productId
  end.

Definition disabled_response (requestedQuantity : Q) : Json.t :=
  {| Json.error := None;
     Json.success := Some true;
     Json.available := Some true;
     Json.stockManagementEnabled := Some false;
     Json.isWeightBased := None;
     Json.availableQuantity := Some sentinel;
     Json.availableWeight := None;
     Json.requestedQuantity := Some requestedQuantity;
     Json.requestedWeight := None;
     Json.message := None |}.

Definition no_record_response (requestedQuantity : Q) : Json.t :=
  {| Json.error := None;
     Json.success := Some false;
     Json.available := Some false;
     Json.stockManagementEnabled := Some true;
     Json.isWeightBased := None;
     Json.availableQuantity := Some 0;
     Json.availableWeight := None;
     Json.requestedQuantity := Some requestedQuantity;
     Json.requestedWeight := None;
     Json.message := Some (Str "No inventory record found for this product") |}.

Definition quantity_response (requestedQuantity : Q) (inv : Inventory.t) : Json.t :=
  let availableQuantity := Js.or_num (Inventory.availableQuantity inv) 0 in
  let isAvailable := Js.ge availableQuantity requestedQuantity in
  {| Json.error := None;
     Json.success := Some true;
     Json.available := Some isAvailable;
     Json.stockManagementEnabled := Some true;
     Json.isWeightBased := None;
     Json.availableQuantity := Some availableQuantity;
     Json.availableWeight := None;
     Json.requestedQuantity := Some requestedQuantity;
     Json.requestedWeight := None;
     Json.message := Some (if isAvailable then Str "Stock available"
                           else OnlyUnitsAvailable (Some availableQuantity)) |}.

Definition check_enabled (db : Db.t) (b : Body.t) (productId : string)
  (requestedQuantity : Q) : Thrown NextResponse.t :=
  product <- Db.findFirst (Db.products db)
               (fun p => String.eqb (ProductRow.id p) productId) ;;
  match product with
  | None =>
      Returned (NextResponse.json_status (Json.of_error "Product not found") 404)
  | Some _ =>
      inventory <- Db.select_limit1 (Db.productInventory db)
                     (whereConditions productId (Body.variantId b)) ;;
      match inventory with
      | [] => Returned (NextResponse.json (no_record_response requestedQuantity))
      | inv :: _ => Returned (NextResponse.json (quantity_response requestedQuantity inv))
      end
  end.

(** [!productId || !requestedQuantity]: the quantity must be a number other
    than [0]. *)
Definition POST (db : Db.t) (req : NextRequest.t) : NextResponse.t :=
  try_catch
    (b <- NextRequest.json req ;;
     match Js.truthy_string (Body.productId b), Body.requestedQuantity b with
     | Some productId, Some requestedQuantity =>
         if negb (Js.truthy_num requestedQuantity)
         then Returned (NextResponse.json_status
                (Json.of_error "Product ID and requested quantity are required") 400)
         else
           let stockManagementEnabled := getStockManagementSetting db in
           if negb stockManagementEnabled
           then Returned (NextResponse.json (disabled_response requestedQuantity))
           else check_enabled db b productId requestedQuantity
     | _, _ =>
         Returned (NextResponse.json_status
           (Json.of_error "Product ID and requested quantity are required") 400)
     end)
    (NextResponse.json_status (Json.of_error "Failed to check inventory") 500).

End InventoryCheckQuantity.

(** ** The cart hook *)

Module Product.
(** The product as the client holds it. *)
Record t := {
  id : string;
  name : string;
  variantId : option string;
  stockManagementType : option string
}.
End Product.

Module CartItem.
Record t := {
  product : Product.t;
  quantity : Q;
  numericValue : option Q
}.
End CartItem.

(** [a === s] for an optional string and a string literal, and [a === b] for
    two optional strings. *)
Definition strict_eq_str (a : option string) (s : string) : bool :=
  match a with Some x => String.eqb x s | None => false end.

Definition strict_eq_opt (a b : option string) : bool :=
  match a, b with
  | Some x, Some y => String.eqb x y
  | None, None => true
  | _, _ => false
  end.

(** [m || d] for an optional message. *)
Definition or_msg (m : option Msg) (d : Msg) : Msg :=
  match m with
  | Some (Str s) => if Js.truthy_str s then Str s else d
  | Some t => t
  | None => d
  end.

Inductive Description : Type :=
| Plain (s : string)
| Message (m : Msg)
| MoreGrams (canAdd available inCart : Q)
| MaximumWeight (inCart : Q)
| MoreUnits (canAdd available inCart : Q)
| MaximumQuantity (inCart : Q)
| AddedToCart (name : string).

Module Toast.
Record t := {
  title : string;
  description : Description;
  destructive : bool;
  duration : nat
}.
End Toast.

(** What a call of the hook does: the toast it shows and the call of
    [cart.addToCart], if it makes one. *)
Module Outcome.
Record t := {
  toast : Toast.t;
  addToCart : option (Product.t * Q * option Q)
}.
End Outcome.

Definition rejected (title : string) (d : Description) (duration : nat) : Outcome.t :=
  {| Outcome.toast := {| Toast.title := title; Toast.description := d;
                         Toast.destructive := true; Toast.duration := duration |};
     Outcome.addToCart := None |}.

Definition added (p : Product.t) (quantity : Q) (weightInGrams : option Q) : Outcome.t :=
  {| Outcome.toast := {| Toast.title := "Added to cart";
                         Toast.description := AddedToCart (Product.name p);
                         Toast.destructive := false; Toast.duration := 2000 |};
     Outcome.addToCart := Some (p, quantity, weightInGrams) |}.

(** [cart.state.items.find(item => item.product.id === product.id &&
    (!product.variantId || item.product.variantId === product.variantId))] *)
Definition existingItem (items : list CartItem.t) (product : Product.t)
  : option CartItem.t :=
  find (fun item =>
          String.eqb (Product.id (CartItem.product item)) (Product.id product)
          && (match Js.truthy_string (Product.variantId product) with
              | None => true
              | Some _ => strict_eq_opt (Product.variantId (CartItem.product item))
                                        (Product.variantId product)
              end))
       items.

(** [existingItem?.quantity || 0] and [existingItem?.numericValue || 0] *)
Definition currentQuantityInCart (items : list CartItem.t) (product : Product.t) : Q :=
  Js.or_num (option_map CartItem.quantity (existingItem items product)) 0.

Definition currentWeightInCart (items : list CartItem.t) (product : Product.t) : Q :=
  Js.or_num (match existingItem items product with
             | Some item => CartItem.numericValue item
             | None => None
             end) 0.

(** A parameter [quantity: number = 1]: an omitted argument is [None] and
    takes the default. *)
Definition quantity_of (quantity_arg : option Q) : Q :=
  match quantity_arg with Some q => q | None => 1 end.

Module UseCart.

(** The body the hook sends: [JSON.stringify] drops the [undefined] fields. *)
Definition request (product : Product.t) (quantity : Q) (weightInGrams : option Q)
  : Body.t :=
  let isWeightBased := strict_eq_str (Product.stockManagementType product) "weight" in
  {| Body.productId := Some (Product.id product);
     Body.variantId := Js.truthy_string (Product.variantId product);
     Body.requestedQuantity := if negb isWeightBased then Some quantity else None;
     Body.requestedWeight :=
       if isWeightBased then Some (Js.or_num weightInGrams quantity) else None |}.

(** The checks that follow an available answer. In a comparison with an
    absent [availableWeight] or [availableQuantity] the code compares with
    [undefined], which is false, and goes on to add. *)
Definition checkTotal (items : list CartItem.t) (product : Product.t)
  (quantity : Q) (weightInGrams : option Q) (result : Json.t) : Outcome.t :=
  let isWeightBased := strict_eq_str (Product.stockManagementType product) "weight" in
  let currentQuantityInCart := currentQuantityInCart items product in
  let currentWeightInCart := currentWeightInCart items product in
  if isWeightBased then
    let requestedWeight := Js.or_num weightInGrams quantity in
    let totalRequestedWeight :=
      currentQuantityInCart * currentWeightInCart + requestedWeight in
    match Json.availableWeight result with
    | Some availableWeight =>
        if Js.truthy_bool (Json.stockManagementEnabled result)
           && Js.gt totalRequestedWeight availableWeight
        then
          let canAdd := availableWeight - currentQuantityInCart * currentWeightInCart in
          if Js.gt canAdd 0
          then rejected "Limited stock"
                 (MoreGrams canAdd availableWeight
                    (currentQuantityInCart * currentWeightInCart)) 4000
          else rejected "Already at maximum"
                 (MaximumWeight (currentQuantityInCart * currentWeightInCart)) 3000
        else added product quantity weightInGrams
    | None => added product quantity weightInGrams
    end
  else
    let totalRequestedQuantity := currentQuantityInCart + quantity in
    match Json.availableQuantity result with
    | Some availableQuantity =>
        if Js.truthy_bool (Json.stockManagementEnabled result)
           && Js.gt totalRequestedQuantity availableQuantity
        then
          let canAdd := availableQuantity - currentQuantityInCart in
          if Js.gt canAdd 0
          then rejected "Limited stock"
                 (MoreUnits canAdd availableQuantity currentQuantityInCart) 4000
          else rejected "Already at maximum"
                 (MaximumQuantity currentQuantityInCart) 3000
        else added product quantity None
    | None => added product quantity None
    end.

(** [addToCartWithToast(product, quantity = 1, weightInGrams)] *)
Definition addToCartWithToast (db : Db.t) (items : list CartItem.t)
  (product : Product.t) (quantity_arg : option Q) (weightInGrams : option Q)
  : Outcome.t :=
  let quantity := quantity_of quantity_arg in
  let isWeightBased := strict_eq_str (Product.stockManagementType product) "weight" in
  let response :=
    InventoryCheck.POST db
      {| NextRequest.json := Returned (request product quantity weightInGrams) |} in
  let result := NextResponse.body response in
  if negb (NextResponse.ok response)
  then rejected "Error"
         (Plain (Js.or_str (Json.error result) "Failed to check inventory")) 3000
  else if negb (Js.truthy_bool (Json.available result))
  then
    let message :=
      if isWeightBased
      then or_msg (Json.message result) (OnlyGramsAvailable (Json.availableWeight result))
      else or_msg (Json.message result) (OnlyUnitsAvailable (Json.availableQuantity result)) in
    rejected "Insufficient stock" (Message message) 3000
  else checkTotal items product quantity weightInGrams result.

End UseCart.

(** The hook of the quantity-only version, which calls the quantity-only
    route. *)
Module UseCartQuantity.

Definition request (product : Product.t) (quantity : Q) : Body.t :=
  {| Body.productId := Some (Product.id product);
     Body.variantId := Js.truthy_string (Product.variantId product);
     Body.requestedQuantity := Some quantity;
     Body.requestedWeight := None |}.

Definition checkTotal (items : list CartItem.t) (product : Product.t)
  (quantity : Q) (result : Json.t) : Outcome.t :=
  let currentQuantityInCart := currentQuantityInCart items product in
  let totalRequestedQuantity := currentQuantityInCart + quantity in
  match Json.availableQuantity result with
  | Some availableQuantity =>
      if Js.truthy_bool (Json.stockManagementEnabled result)
         && Js.gt totalRequestedQuantity availableQuantity
      then
        let canAdd := availableQuantity - currentQuantityInCart in
        if Js.gt canAdd 0
        then rejected "Limited stock"
               (MoreUnits canAdd availableQuantity currentQuantityInCart) 4000
        else rejected "Already at maximum"
               (MaximumQuantity currentQuantityInCart) 3000
      else added product quantity None
  | None => added product quantity None
  end.

Definition addToCartWithToast (db : Db.t) (items : list CartItem.t)
  (product : Product.t) (quantity_arg : option Q) : Outcome.t :=
  let quantity := quantity_of quantity_arg in
  let response :=
    InventoryCheckQuantity.POST db
      {| NextRequest.json := Returned (request product quantity) |} in
  let result := NextResponse.body response in
  if negb (NextResponse.ok response)
  then rejected "Error"
         (Plain (Js.or_str (Json.error result) "Failed to check inventory")) 3000
  else if negb (Js.truthy_bool (Json.available result))
  then rejected "Insufficient stock"
         (Message (or_msg (Json.message result)
                     (OnlyUnitsAvailable (Json.availableQuantity result)))) 3000
  else checkTotal items product quantity result.

End UseCartQuantity.

(** ** The stock re-validation of the checkout page *)

Module Checkout.

Inductive StockError : Type :=
| InsufficientWeight (productName : string) (requestedWeight availableWeight : Q)
| InsufficientQuantity (productName : string) (quantity availableQuantity : Q).

(** One turn of the loop of [validateStock]: the error pushed for [item],
    if any. *)
Definition validateItem (db : Db.t) (item : CartItem.t) : option StockError :=
  let productName :=
    Js.or_str (Some (Product.name (CartItem.product item))) "Unknown Product" in
  let quantity := Js.or_num (Some (CartItem.quantity item)) 0 in
  let numericValue := CartItem.numericValue item in
  let isWeightBased :=
    strict_eq_str (Product.stockManagementType (CartItem.product item)) "weight" in
  let response :=
    InventoryCheck.POST db
      {| NextRequest.json := Returned
           {| Body.productId := Some (Product.id (CartItem.product item));
              Body.variantId := Js.truthy_string (Product.variantId (CartItem.product item));
              Body.requestedQuantity := if negb isWeightBased then Some quantity else None;
              Body.requestedWeight :=
                if isWeightBased then Some (Js.or_num numericValue quantity) else None |} |} in
  let result := NextResponse.body response in
  if negb (NextResponse.ok response) || negb (Js.truthy_bool (Json.available result))
  then
    if isWeightBased
    then Some (InsufficientWeight productName (Js.or_num numericValue quantity)
                 (Js.or_num (Json.availableWeight result) 0))
    else Some (InsufficientQuantity productName quantity
                 (Js.or_num (Json.availableQuantity result) 0))
  else None.

Definition validateStock (db : Db.t) (items : list CartItem.t) : list StockError :=
  flat_map (fun item => match validateItem db item with
                        | Some e => [e]
                        | None => []
                        end) items.

End Checkout.

(** ** The registration route *)

Module Register.

Module User.
Record t := {
  id : string;
  name : option string;
  note : option string;
  password : string;
  status : string;
  email : option string;
  phone : option string
}.
End User.

Module MagicLink.
Record t := { id : string; token : string; isEnabled : bool }.
End MagicLink.

Module Usage.
Record t := { id : string; userId : string; magicLinkId : string }.
End Usage.

Module Tables.
Record t := {
  user : Thrown (list User.t);
  globalMagicLink : Thrown (list MagicLink.t);
  magicLinkUsage : Thrown (list Usage.t)
}.
End Tables.

Module Form.
(** The JSON body of a registration. *)
Record t := {
  email : option string;
  password : option string;
  name : option string;
  note : option string;
  magicToken : option string
}.
End Form.

Module Reply.
Record t := {
  error : option string;
  success : option bool;
  message : option string;
  requiresApproval : option bool;
  autoApproved : option bool
}.
End Reply.

Record Response := { status : nat; body : Reply.t }.

Definition bad_request (e : string) : Response :=
  {| status := 400;
     body := {| Reply.error := Some e; Reply.success := None; Reply.message := None;
                Reply.requiresApproval := None; Reply.autoApproved := None |} |}.

(** [s.includes('@')] *)
Fixpoint includes_at (s : string) : bool :=
  match s with
  | EmptyString => false
  | String c rest => Ascii.eqb c "@"%char || includes_at rest
  end.

Definition is_digit (c : Ascii.ascii) : bool :=
  let n := Ascii.nat_of_ascii c in Nat.leb 48 n && Nat.leb n 57.

(** [s.replace(/[^0-9]/g, '')] *)
Fixpoint digits_only (s : string) : string :=
  match s with
  | EmptyString => EmptyString
  | String c rest => if is_digit c then String c (digits_only rest) else digits_only rest
  end.

(** [db.insert(table).values(row)] *)
Definition insert {R : Type} (table : Thrown (list R)) (row : R) : Thrown (list R) :=
  rows <- table ;; Returned (rows ++ [row])%list.

Section Route.

(** [bcrypt.hash(password, 10)] and the two identifiers [uuidv4()] hands
    out during a call. *)
Variable bcrypt_hash : string -> nat -> string.
Variable uuid_user uuid_usage : string.

(** The magic link the route accepts for a token: the first row with that
    token, when it is enabled. *)
Definition magicLinkData (db : Tables.t) (magicToken : option string)
  : Thrown (option MagicLink.t) :=
  match Js.truthy_string magicToken with
  | Some tok =>
      magicLink <- Db.select_limit1 (Tables.globalMagicLink db)
                     (fun r => String.eqb (MagicLink.token r) tok) ;;
      Returned match magicLink with
               | row :: _ => if MagicLink.isEnabled row then Some row else None
               | [] => None
               end
  | None => Returned None
  end.

Definition userData (f : Form.t) (email password : string) (isMagicLinkValid : bool)
  : User.t :=
  let isEmail := includes_at email in
  {| User.id := uuid_user;
     User.name := Js.truthy_string (Form.name f);
     User.note := Js.truthy_string (Form.note f);
     User.password := bcrypt_hash password 10;
     User.status := if isMagicLinkValid then "approved" else "pending";
     User.email := if isEmail then Some email
                   else Some (digits_only email ++ "@phone.placeholder");
     User.phone := if isEmail then None else Some email |}.

(** The handler has no [try]: an exception of a table access leaves it; the
    welcome e-mail changes neither the tables nor the response (its failure
    is swallowed) and is left out. The
    result is the response and the tables as the call leaves them. *)
Definition POST (db : Tables.t) (f : Form.t) : Thrown (Response * Tables.t) :=
  match Js.truthy_string (Form.email f), Js.truthy_string (Form.password f) with
  | Some email, Some password =>
      match Js.truthy_string (Form.name f) with
      | None => Returned (bad_request "Name is required.", db)
      | Some _ =>
          let isEmail := includes_at email in
          users <- Tables.user db ;;
          let existingUser :=
            if isEmail
            then hd_error (filter (fun u => Db.eq_nullable (User.email u) email) users)
            else hd_error (filter (fun u => Db.eq_nullable (User.phone u) email) users) in
          match existingUser with
          | Some _ =>
              Returned (bad_request
                "An account with this email or phone number already exists.", db)
          | None =>
              link <- magicLinkData db (Form.magicToken f) ;;
              let isMagicLinkValid :=
                match link with Some _ => true | None => false end in
              user' <- insert (Tables.user db) (userData f email password isMagicLinkValid) ;;
              usage' <- match link with
                        | Some l =>
                            insert (Tables.magicLinkUsage db)
                              {| Usage.id := uuid_usage; Usage.userId := uuid_user;
                                 Usage.magicLinkId := MagicLink.id l |}
                        | None => Returned nil
                        end ;;
              let db' := {| Tables.user := Returned user';
                            Tables.globalMagicLink := Tables.globalMagicLink db;
                            Tables.magicLinkUsage :=
                              match link with
                              | Some _ => Returned usage'
                              | None => Tables.magicLinkUsage db
                              end |} in
              if isMagicLinkValid
              then Returned
                     ({| status := 200;
                         body := {| Reply.error := None; Reply.success := Some true;
                                    Reply.message := Some "Account created and automatically approved via magic link! You can now login.";
                                    Reply.requiresApproval := Some false;
                                    Reply.autoApproved := Some true |} |}, db')
              else Returned
                     ({| status := 200;
                         body := {| Reply.error := None; Reply.success := Some true;
                                    Reply.message := Some "Account created successfully! Your account is pending approval. You will be able to login once an admin approves your account.";
                                    Reply.requiresApproval := Some true;
                                    Reply.autoApproved := None |} |}, db')
          end
      end
  | _, _ => Returned (bad_request "Email or phone number and password are required.", db)
  end.

End Route.

End Register.

(** ** The weight-label route and its provider *)

Module WeightLabel.

Module Data.
(** The JSON object of the route's answer. *)
Record t := {
  success : bool;
  error : option string;
  weightLabel : string
}.
End Data.

Record Response := { status : nat; body : Data.t }.

Definition GET (db : Db.t) : Response :=
  try_catch
    (weightLabelSetting <- Db.select_limit1 (Db.settings db)
                             (fun r => String.eqb (Setting.key r) "weight_label") ;;
     Returned
       {| status := 200;
          body := {| Data.success := true;
                     Data.error := None;
                     Data.weightLabel := match weightLabelSetting with
                                         | row :: _ => Setting.value row
                                         | [] => "g"
                                         end |} |})
    {| status := 500;
       body := {| Data.success := false;
                  Data.error := Some "Failed to fetch weight label setting";
                  Data.weightLabel := "g" |} |}.

Module State.
(** The two state cells of [WeightLabelProvider]. *)
Record t := { weightLabel : string; loading : bool }.
End State.

(** [useState<WeightUnit>('g')] and [useState(true)] *)
Definition initial : State.t :=
  {| State.weightLabel := "g"; State.loading := true |}.

(** [fetchWeightLabel]: [fetch] is the answer of the request, or an
    exception of the request or of [response.json()]. *)
Definition fetchWeightLabel (fetch : Thrown Response) (st : State.t) : State.t :=
  let loading := {| State.weightLabel := State.weightLabel st; State.loading := true |} in
  let tried :=
    try_catch
      (response <- fetch ;;
       let data := body response in
       Returned (if Data.success data && Js.truthy_str (Data.weightLabel data)
                 then {| State.weightLabel := Data.weightLabel data;
                         State.loading := State.loading loading |}
                 else loading))
      loading in
  {| State.weightLabel := State.weightLabel tried; State.loading := false |}.

(** The provider once its effect has run against the route. *)
Definition mounted (db : Db.t) : State.t :=
  fetchWeightLabel (Returned (GET db)) initial.

(** [useWeightLabel]: the context, or an exception outside a provider. *)
Definition useWeightLabel (context : option State.t) : Thrown State.t :=
  match context with
  | None => Raised
  | Some c => Returned c
  end.

End WeightLabel.

(** ** The other functions of the cart hook *)

Module CartState.
(** [cart.state] *)
Record t := { items : list CartItem.t; total : Q; itemCount : Q }.
End CartState.

Module CartTools.

(** The calls the hook makes on the cart context. *)
Inductive CartCall : Type :=
| RemoveFromCart (productId : string)
| UpdateQuantity (productId : string) (quantity : Q)
| ClearCart.

Inductive NoticeText : Type :=
| RemovedNamed (productName : string)
| RemovedItem
| IncreasedTo (quantity : Q)
| DecreasedTo (quantity : Q)
| RemovedItems (itemCount : Q) (plural : bool).

Module Notice.
Record t := { title : string; text : NoticeText; duration : nat }.
End Notice.

Module Summary.
Record t := { subtotal : Q; deliveryFee : Q; tax : Q; total : Q; itemCount : Q }.
End Summary.

(** [cart.state.items.find(item => item.product.id === productId)] *)
Definition findItem (items : list CartItem.t) (productId : string) : option CartItem.t :=
  find (fun item => String.eqb (Product.id (CartItem.product item)) productId) items.

Definition removed_notice (productName : option string) : Notice.t :=
  {| Notice.title := "Removed from cart";
     Notice.text := match Js.truthy_string productName with
                    | Some n => RemovedNamed n
                    | None => RemovedItem
                    end;
     Notice.duration := 2000 |}.

Definition removeFromCartWithToast (productId : string) (productName : option string)
  : CartCall * Notice.t :=
  (RemoveFromCart productId, removed_notice productName).

Definition updateQuantityWithToast (items : list CartItem.t) (productId : string)
  (quantity : Q) (productName : option string) : CartCall * option Notice.t :=
  let oldQuantity :=
    Js.or_num (option_map CartItem.quantity (findItem items productId)) 0 in
  (UpdateQuantity productId quantity,
   if Qeq_bool quantity 0
   then Some (removed_notice productName)
   else if Js.gt quantity oldQuantity
   then Some {| Notice.title := "Quantity updated";
                Notice.text := IncreasedTo quantity;
                Notice.duration := 1500 |}
   else if Js.gt oldQuantity quantity
   then Some {| Notice.title := "Quantity updated";
                Notice.text := DecreasedTo quantity;
                Notice.duration := 1500 |}
   else None).

Definition clearCartWithToast (state : CartState.t) : CartCall * Notice.t :=
  let itemCount := CartState.itemCount state in
  (ClearCart,
   {| Notice.title := "Cart cleared";
      Notice.text := RemovedItems itemCount (negb (Qeq_bool itemCount 1));
      Notice.duration := 2000 |}).

Definition isInCart (items : list CartItem.t) (productId : string) : bool :=
  existsb (fun item => String.eqb (Product.id (CartItem.product item)) productId) items.

Definition getItemQuantity (items : list CartItem.t) (productId : string) : Q :=
  Js.or_num (option_map CartItem.quantity (findItem items productId)) 0.

(** [item.product.price] is a field the record [Product.t] does not carry;
    it is taken as a function of the product. *)
Definition getItemSubtotal (price : Product.t -> Q) (items : list CartItem.t)
  (productId : string) : Q :=
  match findItem items productId with
  | Some item => price (CartItem.product item) * CartItem.quantity item
  | None => 0
  end.

Definition getCartSummary (state : CartState.t) : Summary.t :=
  let subtotal := CartState.total state in
  let deliveryFee := if Js.gt subtotal 0 then 5.99 else 0 in
  let tax := subtotal * 0.08 in
  let total := subtotal + deliveryFee + tax in
  {| Summary.subtotal := subtotal;
     Summary.deliveryFee := deliveryFee;
     Summary.tax := tax;
     Summary.total := total;
     Summary.itemCount := CartState.itemCount state |}.

End CartTools.

(** ** The checkout page: state, stock effect and submission *)

Module CheckoutPage.

Inductive OrderType : Type := Delivery | Pickup | ShippingOrder.

Module CustomerInfo.
Record t := { name : string; email : string; phone : string }.
End CustomerInfo.

Module Address.
Record t := {
  street : string;
  city : string;
  state : string;
  zipCode : string;
  latitude : option Q;
  longitude : option Q;
  instructions : option string
}.
End Address.

Module CheckoutData.
Record t := {
  paymentMethod : string;
  orderType : OrderType;
  customerInfo : CustomerInfo.t;
  deliveryAddress : option Address.t;
  pickupLocationId : option string;
  orderNotes : string;
  pointsToRedeem : option Q;
  pointsDiscountAmount : option Q;
  useAllPoints : option bool
}.
End CheckoutData.

Module OrderSettings.
Record t := { minimumOrderValue : Q; deliveryFee : Q; shippingFee : Q }.
End OrderSettings.

Module FormData.
(** The entries appended to the form; an entry that is not appended is
    [None]. Numbers are kept as numbers instead of their decimal strings. *)
Record t := {
  items : list CartItem.t;
  total : Q;
  subtotal : Q;
  deliveryFee : Q;
  shippingFee : Q;
  paymentMethod : string;
  orderType : OrderType;
  customerInfo : CustomerInfo.t;
  deliveryAddress : option Address.t;
  pickupLocationId : option string;
  orderNotes : string;
  pointsToRedeem : Q;
  pointsDiscountAmount : Q
}.
End FormData.

Module CheckoutResult.
(** What [processCheckout] answers. *)
Record t := {
  success : bool;
  orderNumber : string;
  total : Q;
  pointsEarned : option Q
}.
End CheckoutResult.

Module OrderData.
(** The order saved under [lastOrder] for the thank-you page. *)
Record t := {
  orderId : string;
  total : Q;
  originalTotal : Q;
  pointsRedeemed : Q;
  pointsDiscount : Q;
  pointsEarned : Q;
  paymentMethod : string;
  orderNotes : string;
  customerInfo : CustomerInfo.t;
  deliveryAddress : option Address.t;
  items : list CartItem.t
}.
End OrderData.

Module State.
Record t := {
  isProcessing : bool;
  checkoutSuccess : bool;
  stockValidationErrors : list Checkout.StockError;
  isValidatingStock : bool
}.
End State.

(** The four [useState] cells as the page starts. *)
Definition initial : State.t :=
  {| State.isProcessing := false;
     State.checkoutSuccess := false;
     State.stockValidationErrors := [];
     State.isValidatingStock := true |}.

(** The effect that validates the stock: the state it leaves and whether it
    shows the toast of a failed validation. *)
Definition validateStockEffect (db : Db.t) (items : list CartItem.t) (st : State.t)
  : State.t * bool :=
  match items with
  | [] =>
      ({| State.isProcessing := State.isProcessing st;
          State.checkoutSuccess := State.checkoutSuccess st;
          State.stockValidationErrors := State.stockValidationErrors st;
          State.isValidatingStock := false |}, false)
  | _ :: _ =>
      let errors := Checkout.validateStock db items in
      ({| State.isProcessing := State.isProcessing st;
          State.checkoutSuccess := State.checkoutSuccess st;
          State.stockValidationErrors := errors;
          State.isValidatingStock := false |},
       Nat.ltb 0 (List.length errors))
  end.

Inductive Submission : Type :=
| CannotCompleteCheckout
| PleaseWait
| OrderPlaced (sent : FormData.t) (saved : OrderData.t)
| OrderFailed (sent : FormData.t) (message : string).

(** The form [handleCheckoutSubmit] builds. [subtotal] is [state.total];
    the tax is [subtotal * 0.00] and [total] is [subtotal + tax]. *)
Definition formData (orderSettings : OrderSettings.t) (items : list CartItem.t)
  (subtotal : Q) (data : CheckoutData.t) : FormData.t :=
  let tax := subtotal * 0.00 in
  let total := subtotal + tax in
  let deliveryFee :=
    match CheckoutData.orderType data with
    | Delivery => OrderSettings.deliveryFee orderSettings
    | _ => 0
    end in
  let shippingFee :=
    match CheckoutData.orderType data with
    | ShippingOrder => OrderSettings.shippingFee orderSettings
    | _ => 0
    end in
  let totalWithFees := total + deliveryFee + shippingFee in
  let finalTotal :=
    totalWithFees - Js.or_num (CheckoutData.pointsDiscountAmount data) 0 in
  {| FormData.items := items;
     FormData.total := finalTotal;
     FormData.subtotal := subtotal;
     FormData.deliveryFee := deliveryFee;
     FormData.shippingFee := shippingFee;
     FormData.paymentMethod := CheckoutData.paymentMethod data;
     FormData.orderType := CheckoutData.orderType data;
     FormData.customerInfo := CheckoutData.customerInfo data;
     FormData.deliveryAddress := CheckoutData.deliveryAddress data;
     FormData.pickupLocationId := Js.truthy_string (CheckoutData.pickupLocationId data);
     FormData.orderNotes := CheckoutData.orderNotes data;
     FormData.pointsToRedeem := Js.or_num (CheckoutData.pointsToRedeem data) 0;
     FormData.pointsDiscountAmount :=
       Js.or_num (CheckoutData.pointsDiscountAmount data) 0 |}.

(** [handleCheckoutSubmit]. [processCheckout] is the server action, which
    answers or throws with a message (a falsy message is [None]). *)
Definition handleCheckoutSubmit
  (processCheckout : FormData.t -> CheckoutResult.t + option string)
  (orderSettings : OrderSettings.t) (items : list CartItem.t) (subtotal : Q)
  (st : State.t) (data : CheckoutData.t) : Submission :=
  if Nat.ltb 0 (List.length (State.stockValidationErrors st))
  then CannotCompleteCheckout
  else if State.isValidatingStock st
  then PleaseWait
  else
    let form := formData orderSettings items subtotal data in
    let total := subtotal + subtotal * 0.00 in
    match processCheckout form with
    | inl result =>
        if CheckoutResult.success result
        then OrderPlaced form
               {| OrderData.orderId := CheckoutResult.orderNumber result;
                  OrderData.total := CheckoutResult.total result;
                  OrderData.originalTotal := total;
                  OrderData.pointsRedeemed :=
                    Js.or_num (CheckoutData.pointsToRedeem data) 0;
                  OrderData.pointsDiscount :=
                    Js.or_num (CheckoutData.pointsDiscountAmount data) 0;
                  OrderData.pointsEarned :=
                    Js.or_num (CheckoutResult.pointsEarned result) 0;
                  OrderData.paymentMethod := CheckoutData.paymentMethod data;
                  OrderData.orderNotes := CheckoutData.orderNotes data;
                  OrderData.customerInfo := CheckoutData.customerInfo data;
                  OrderData.deliveryAddress := CheckoutData.deliveryAddress data;
                  OrderData.items := items |}
        else OrderFailed form "Order processing failed"
    | inr message =>
        OrderFailed form (Js.or_str message "Something went wrong. Please try again.")
    end.

End CheckoutPage.

(** ** The register page *)

Module RegisterPage.

Module State.
Record t := {
  email : string;
  password : string;
  name : string;
  note : string;
  error : string;
  loading : bool;
  success : string;
  accountPending : bool;
  magicToken : option string
}.
End State.

Module SignIn.
(** The answer of [signIn('credentials', ...)]. *)
Record t := { ok : bool; error : option string }.
End SignIn.

(** [router.push(path)], if the handler calls it. *)
Definition Navigation : Type := option string.

Definition with_result (st : State.t) (error success : string) (accountPending : bool)
  : State.t :=
  {| State.email := State.email st;
     State.password := State.password st;
     State.name := State.name st;
     State.note := State.note st;
     State.error := error;
     State.loading := false;
     State.success := success;
     State.accountPending := accountPending;
     State.magicToken := State.magicToken st |}.

(** [res.ok] *)
Definition ok (r : Register.Response) : bool :=
  Nat.leb 200 (Register.status r) && Nat.leb (Register.status r) 299.

(** The body [handleRegister] posts. *)
Definition form (st : State.t) : Register.Form.t :=
  {| Register.Form.email := Some (State.email st);
     Register.Form.password := Some (State.password st);
     Register.Form.name := Some (State.name st);
     Register.Form.note := Some (State.note st);
     Register.Form.magicToken := State.magicToken st |}.

Section Handlers.

(** [fetch('/api/register', ...)] followed by [res.json()], and [signIn]:
    each answers or throws. *)
Variable register : Register.Form.t -> Thrown Register.Response.
Variable signIn : string -> string -> Thrown (option SignIn.t).

(** [handleRegister]: the state once the handler has finished (the message
    cells are cleared on entry, [loading] is reset at the end) and the
    navigation it asks for. *)
Definition handleRegister (st : State.t) : State.t * Navigation :=
  if negb (Js.truthy_str (State.name st)) || negb (Js.truthy_str (State.email st))
     || negb (Js.truthy_str (State.password st))
  then (with_result st "Please fill in all required fields" EmptyString
          (State.accountPending st), None)
  else
    match register (form st) with
    | Raised =>
        (with_result st "An error occurred. Please try again." EmptyString
           (State.accountPending st), None)
    | Returned res =>
        let data := Register.body res in
        if negb (ok res)
        then (with_result st (Js.or_str (Register.Reply.error data) "Registration failed")
                EmptyString (State.accountPending st), None)
        else if Js.truthy_bool (Register.Reply.requiresApproval data)
        then (with_result st EmptyString
                (Js.or_str (Register.Reply.message data)
                   "Account created successfully! Your account is pending approval.")
                true, None)
        else if Js.truthy_bool (Register.Reply.autoApproved data)
        then
          let success :=
            Js.or_str (Register.Reply.message data)
              "Account created and automatically approved!" in
          match signIn (State.email st) (State.password st) with
          | Raised =>
              (with_result st "An error occurred. Please try again." success
                 (State.accountPending st), None)
          | Returned login =>
              if match login with Some l => SignIn.ok l | None => false end
              then (with_result st EmptyString success (State.accountPending st),
                    Some "/dashboard")
              else (with_result st
                      "Account approved but login failed. Please try logging in manually."
                      success (State.accountPending st), None)
          end
        else (with_result st EmptyString EmptyString (State.accountPending st), None)
    end.

(** [handleLogin] *)
Definition handleLogin (st : State.t) : State.t * Navigation :=
  if negb (Js.truthy_str (State.email st)) || negb (Js.truthy_str (State.password st))
  then (with_result st "Please enter your email/phone and password" EmptyString
          (State.accountPending st), None)
  else
    match signIn (State.email st) (State.password st) with
    | Raised =>
        (with_result st "An error occurred during login." EmptyString
           (State.accountPending st), None)
    | Returned result =>
        if match result with
           | Some r => match Js.truthy_string (SignIn.error r) with
                       | Some _ => true
                       | None => false
                       end
           | None => false
           end
        then (with_result st "Invalid credentials or account not approved" EmptyString
                (State.accountPending st), None)
        else if match result with Some r => SignIn.ok r | None => false end
        then (with_result st EmptyString EmptyString (State.accountPending st),
              Some "/dashboard")
        else (with_result st EmptyString EmptyString (State.accountPending st), None)
    end.

End Handlers.

(** The page against the registration route: the request reaches
    [Register.POST], and an exception of the route reaches the page as a
    failed request. *)
Definition served (bcrypt_hash : string -> nat -> string) (uuid_user uuid_usage : string)
  (db : Register.Tables.t) (f : Register.Form.t) : Thrown Register.Response :=
  r <- Register.POST bcrypt_hash uuid_user uuid_usage db f ;; Returned (fst r).

End RegisterPage.

(** * The terms of the specification *)

(** ** The quantities the specification names, read off the code *)

(** The request field the route reads for a product's mode. *)
Definition requestedField (weight : bool) (b : Body.t) : option Q :=
  if weight then Body.requestedWeight b else Body.requestedQuantity b.

(** The available amount of an inventory row in a mode:
    [parseFloat(inv.availableWeight || '0')] or [inv.availableQuantity || 0]. *)
Definition availableAmount (weight : bool) (inv : Inventory.t) : Q :=
  if weight then Js.or_num (Inventory.availableWeight inv) 0
  else Js.or_num (Inventory.availableQuantity inv) 0.

(** The available amount a response reports for a mode. *)
Definition reportedAmount (weight : bool) (j : Json.t) : option Q :=
  if weight then Json.availableWeight j else Json.availableQuantity j.

(** What the cart already holds of a product: the count, or the count times
    the weight of a unit. *)
Definition existingCommitment (weight : bool) (items : list CartItem.t)
  (product : Product.t) : Q :=
  if weight
  then currentQuantityInCart items product * currentWeightInCart items product
  else currentQuantityInCart items product.

(** The amount the hook asks for. *)
Definition requestedAmount (weight : bool) (quantity : Q) (weightInGrams : option Q) : Q :=
  if weight then Js.or_num weightInGrams quantity else quantity.

(** The product lookup and the inventory lookup of the route. *)
Definition productLookup (db : Db.t) (productId : string) : Thrown (option ProductRow.t) :=
  Db.findFirst (Db.products db) (fun p => String.eqb (ProductRow.id p) productId).

Definition inventoryLookup (db : Db.t) (productId : string) (variantId : option string)
  : Thrown (list Inventory.t) :=
  Db.select_limit1 (Db.productInventory db)
    (InventoryCheck.whereConditions productId variantId).

Definition request_of (b : Body.t) : NextRequest.t :=
  {| NextRequest.json := Returned b |}.

(** The descriptions of the two toasts that refuse a total, per mode. *)
Definition limited (weight : bool) (canAdd available inCart : Q) : Description :=
  if weight then MoreGrams canAdd available inCart
  else MoreUnits canAdd available inCart.

Definition maximum (weight : bool) (inCart : Q) : Description :=
  if weight then MaximumWeight inCart else MaximumQuantity inCart.

Definition only_available (weight : bool) (available : Q) : Msg :=
  if weight then OnlyGramsAvailable (Some available)
  else OnlyUnitsAvailable (Some available).

(** The client's product and the row of the products table agree: the row is
    the one with the product's identifier, and both name the same mode. *)
Definition same_product (db : Db.t) (product : Product.t) (row : ProductRow.t) : Prop :=
  Js.truthy_str (Product.id product) = true
  /\ productLookup db (Product.id product) = Returned (Some row)
  /\ strict_eq_str (Product.stockManagementType product) "weight"
     = InventoryCheck.isWeightBased row.

(** The inventory rows the route finds for the client's product. *)
Definition recordsOf (db : Db.t) (product : Product.t) : Thrown (list Inventory.t) :=
  inventoryLookup db (Product.id product) (Js.truthy_string (Product.variantId product)).

(** The supplied token matches a row of the magic-link table whose
    [isEnabled] flag is set. *)
Definition token_accepted (db : Register.Tables.t) (magicToken : option string) : Prop :=
  exists tok rows row,
    Js.truthy_string magicToken = Some tok
    /\ Register.Tables.globalMagicLink db = Returned rows
    /\ In row rows
    /\ Register.MagicLink.token row = tok
    /\ Register.MagicLink.isEnabled row = true.

(** Tokens are unique in the magic-link table. *)
Definition unique_tokens (db : Register.Tables.t) : Prop :=
  forall rows, Register.Tables.globalMagicLink db = Returned rows ->
               NoDup (map Register.MagicLink.token rows).

(** ** A small shop to run the code on *)

Module Shop.

Definition enabled : list Setting.t :=
  [ {| Setting.key := "stock_management_enabled"; Setting.value := "true" |} ].

Definition apples : ProductRow.t :=
  {| ProductRow.id := "apples"; ProductRow.name := "Apples";
     ProductRow.stockManagementType := Some "quantity";
     ProductRow.productType := None |}.

Definition rice : ProductRow.t :=
  {| ProductRow.id := "rice"; ProductRow.name := "Rice";
     ProductRow.stockManagementType := Some "weight";
     ProductRow.productType := None |}.

Definition stock (productId : string) (quantity weight : Q) : Inventory.t :=
  {| Inventory.productId := productId; Inventory.variantId := None;
     Inventory.availableQuantity := Some quantity;
     Inventory.availableWeight := Some weight |}.

Definition db (settings : list Setting.t) (inventory : list Inventory.t) : Db.t :=
  {| Db.settings := Returned settings;
     Db.products := Returned [apples; rice];
     Db.productInventory := Returned inventory |}.

(** The same shop with the settings table out of reach. *)
Definition unreadable_settings (inventory : list Inventory.t) : Db.t :=
  {| Db.settings := Raised;
     Db.products := Returned [apples; rice];
     Db.productInventory := Returned inventory |}.

Definition quantity_request (productId : string) (n : Q) : Body.t :=
  {| Body.productId := Some productId; Body.variantId := None;
     Body.requestedQuantity := Some n; Body.requestedWeight := None |}.

Definition weight_request (productId : string) (grams : Q) : Body.t :=
  {| Body.productId := Some productId; Body.variantId := None;
     Body.requestedQuantity := None; Body.requestedWeight := Some grams |}.

(** The products as the client holds them, and a cart line. *)
Definition apples_client : Product.t :=
  {| Product.id := "apples"; Product.name := "Apples";
     Product.variantId := None; Product.stockManagementType := Some "quantity" |}.

Definition rice_client : Product.t :=
  {| Product.id := "rice"; Product.name := "Rice";
     Product.variantId := None; Product.stockManagementType := Some "weight" |}.

Definition line (p : Product.t) (quantity : Q) (numericValue : option Q) : CartItem.t :=
  {| CartItem.product := p; CartItem.quantity := quantity;
     CartItem.numericValue := numericValue |}.

End Shop.

(** ** Terms of the further properties *)

(** The fields the two versions of the route share. *)
Definition same_answer (r r' : NextResponse.t) : Prop :=
  NextResponse.status r = NextResponse.status r'
  /\ (NextResponse.status r <> 400%nat ->
      Json.error (NextResponse.body r) = Json.error (NextResponse.body r'))
  /\ Json.success (NextResponse.body r) = Json.success (NextResponse.body r')
  /\ Json.available (NextResponse.body r) = Json.available (NextResponse.body r')
  /\ Json.stockManagementEnabled (NextResponse.body r)
     = Json.stockManagementEnabled (NextResponse.body r')
  /\ Json.availableQuantity (NextResponse.body r)
     = Json.availableQuantity (NextResponse.body r')
  /\ Json.requestedQuantity (NextResponse.body r)
     = Json.requestedQuantity (NextResponse.body r')
  /\ Json.message (NextResponse.body r) = Json.message (NextResponse.body r').

(** No product with the identifier of the request is weight-based. *)
Definition quantity_based (db : Db.t) (b : Body.t) : Prop :=
  forall productId row,
    Js.truthy_string (Body.productId b) = Some productId ->
    productLookup db productId = Returned (Some row) ->
    InventoryCheck.isWeightBased row = false.

(** The amount the checkout page asks the route about for a cart line:
    [numericValue || quantity] for a weight-based line, [quantity] otherwise,
    where [quantity] is [item.quantity || 0]. *)
Definition lineAmount (weight : bool) (item : CartItem.t) : Q :=
  let quantity := Js.or_num (Some (CartItem.quantity item)) 0 in
  if weight then Js.or_num (CartItem.numericValue item) quantity else quantity.

(** The fee of an order type. *)
Definition feeOf (orderSettings : CheckoutPage.OrderSettings.t)
  (orderType : CheckoutPage.OrderType) : Q :=
  match orderType with
  | CheckoutPage.Delivery => CheckoutPage.OrderSettings.deliveryFee orderSettings
  | CheckoutPage.ShippingOrder => CheckoutPage.OrderSettings.shippingFee orderSettings
  | CheckoutPage.Pickup => 0
  end.

(** The user the registration route finds for an address: the first row
    whose e-mail column holds it when it contains an at sign, whose phone
    column holds it otherwise. *)
Definition existingUser (users : list Register.User.t) (email : string)
  : option Register.User.t :=
  if Register.includes_at email
  then hd_error (filter (fun u => Db.eq_nullable (Register.User.email u) email) users)
  else hd_error (filter (fun u => Db.eq_nullable (Register.User.phone u) email) users).

(** The two answers of a registration that creates a user. *)
Definition approved_response : Register.Response :=
  {| Register.status := 200;
     Register.body :=
       {| Register.Reply.error := None; Register.Reply.success := Some true;
          Register.Reply.message := Some "Account created and automatically approved via magic link! You can now login.";
          Register.Reply.requiresApproval := Some false;
          Register.Reply.autoApproved := Some true |} |}.

Definition pending_response : Register.Response :=
  {| Register.status := 200;
     Register.body :=
       {| Register.Reply.error := None; Register.Reply.success := Some true;
          Register.Reply.message := Some "Account created successfully! Your account is pending approval. You will be able to login once an admin approves your account.";
          Register.Reply.requiresApproval := Some true;
          Register.Reply.autoApproved := None |} |}.

(** The tables after a registration that creates the user [u], with the
    usage table [usage]. *)
Definition tables_with (db : Register.Tables.t) (users : list Register.User.t)
  (u : Register.User.t) (usage : Thrown (list Register.Usage.t)) : Register.Tables.t :=
  {| Register.Tables.user := Returned (users ++ [u])%list;
     Register.Tables.globalMagicLink := Register.Tables.globalMagicLink db;
     Register.Tables.magicLinkUsage := usage |}.

(** A small member list to run the registration on. *)
Module Club.

Definition hash (password : string) (rounds : nat) : string :=
  ("hashed:" ++ password)%string.

Definition link : Register.MagicLink.t :=
  {| Register.MagicLink.id := "link-1";
     Register.MagicLink.token := "welcome";
     Register.MagicLink.isEnabled := true |}.

Definition empty : Register.Tables.t :=
  {| Register.Tables.user := Returned [];
     Register.Tables.globalMagicLink := Returned [link];
     Register.Tables.magicLinkUsage := Returned [] |}.

Definition form (address : string) (magicToken : option string) : Register.Form.t :=
  {| Register.Form.email := Some address;
     Register.Form.password := Some "secret";
     Register.Form.name := Some "Ana";
     Register.Form.note := None;
     Register.Form.magicToken := magicToken |}.

(** The answer and the tables of a registration whose handler returns. *)
Definition answer (r : Thrown (Register.Response * Register.Tables.t))
  : Register.Response :=
  match r with
  | Returned (resp, _) => resp
  | Raised => Register.bad_request EmptyString
  end.

Definition tables (r : Thrown (Register.Response * Register.Tables.t))
  : Register.Tables.t :=
  match r with
  | Returned (_, db) => db
  | Raised => empty
  end.

(** Ana registers by e-mail, with and without the magic link. *)
Definition invited : Thrown (Register.Response * Register.Tables.t) :=
  Register.POST hash "u-1" "g-1" empty (form "ana@example.org" (Some "welcome")).

Definition uninvited : Thrown (Register.Response * Register.Tables.t) :=
  Register.POST hash "u-1" "g-1" empty (form "ana@example.org" None).

End Club.

(** * Properties *)

(** ** JavaScript operators *)

Lemma or_num_zero (q : Q) : Js.or_num (Some q) 0 == q.
Proof.
  unfold Js.or_num, Js.truthy_num.
  destruct (Qeq_bool q 0) eqn:E; simpl.
  - apply Qeq_bool_iff in E. symmetry. exact E.
  - reflexivity.
Qed.

Lemma ge_iff (a b : Q) : Js.ge a b = true <-> b <= a.
Proof. unfold Js.ge. apply Qle_bool_iff. Qed.

Lemma gt_iff (a b : Q) : Js.gt a b = true <-> b < a.
Proof.
  unfold Js.gt. rewrite negb_true_iff. split; intro H.
  - apply Qnot_le_lt. intro L. apply Qle_bool_iff in L. congruence.
  - destruct (Qle_bool a b) eqn:E; [|reflexivity].
    apply Qle_bool_iff in E. exfalso. apply (Qlt_not_le _ _ H E).
Qed.

Lemma gt_false_iff (a b : Q) : Js.gt a b = false <-> a <= b.
Proof.
  unfold Js.gt. rewrite negb_false_iff. apply Qle_bool_iff.
Qed.

Lemma ge_false_iff (a b : Q) : Js.ge a b = false <-> a < b.
Proof.
  split; intro H.
  - apply Qnot_le_lt. intro L. apply ge_iff in L. congruence.
  - destruct (Js.ge a b) eqn:E; [|reflexivity].
    apply ge_iff in E. exfalso. apply (Qlt_not_le _ _ H E).
Qed.

Lemma present_passes_validation (v : option Q) (q : Q) :
  v = Some q -> Js.not_num v && Js.strict_neq_zero v = false.
Proof.
  intros ->. unfold Js.not_num, Js.strict_neq_zero, Js.truthy_num.
  destruct (Qeq_bool q 0); reflexivity.
Qed.

Lemma absent_fails_validation (v : option Q) :
  Js.not_num v && Js.strict_neq_zero v = true <-> v = None.
Proof.
  split.
  - destruct v as [q|]; [|reflexivity].
    unfold Js.not_num, Js.strict_neq_zero, Js.truthy_num.
    destruct (Qeq_bool q 0); discriminate.
  - intros ->. reflexivity.
Qed.

(** ** The route, path by path *)

Section RoutePaths.

Variable db : Db.t.
Variable b : Body.t.

Lemma POST_unparsed :
  NextResponse.status
    (InventoryCheck.POST db {| NextRequest.json := Raised |}) = 500%nat.
Proof. reflexivity. Qed.

Lemma POST_no_product_id :
  Js.truthy_string (Body.productId b) = None ->
  InventoryCheck.POST db (request_of b)
  = NextResponse.json_status (Json.of_error "Product ID is required") 400.
Proof.
  intro H. unfold InventoryCheck.POST, request_of. simpl. rewrite H. reflexivity.
Qed.

Variable productId : string.
Hypothesis Hid : Js.truthy_string (Body.productId b) = Some productId.

Lemma POST_disabled :
  InventoryCheck.getStockManagementSetting db = false ->
  InventoryCheck.POST db (request_of b)
  = NextResponse.json (InventoryCheck.disabled_response b).
Proof.
  intro H. unfold InventoryCheck.POST, request_of. simpl. rewrite Hid, H. reflexivity.
Qed.

Hypothesis Hon : InventoryCheck.getStockManagementSetting db = true.

Lemma POST_enabled :
  InventoryCheck.POST db (request_of b)
  = try_catch (InventoryCheck.check_enabled db b productId)
      (NextResponse.json_status (Json.of_error "Failed to check inventory") 500).
Proof.
  unfold InventoryCheck.POST, request_of. simpl. rewrite Hid, Hon. reflexivity.
Qed.

Lemma POST_product_lookup_fails :
  productLookup db productId = Raised ->
  NextResponse.status (InventoryCheck.POST db (request_of b)) = 500%nat.
Proof.
  intro H. rewrite POST_enabled. unfold InventoryCheck.check_enabled.
  unfold productLookup in H. rewrite H. reflexivity.
Qed.

Lemma POST_unknown_product :
  productLookup db productId = Returned None ->
  InventoryCheck.POST db (request_of b)
  = NextResponse.json_status (Json.of_error "Product not found") 404.
Proof.
  intro H. rewrite POST_enabled. unfold InventoryCheck.check_enabled.
  unfold productLookup in H. rewrite H. reflexivity.
Qed.

Variable product : ProductRow.t.
Hypothesis Hproduct : productLookup db productId = Returned (Some product).

Lemma POST_amount_missing :
  requestedField (InventoryCheck.isWeightBased product) b = None ->
  NextResponse.status (InventoryCheck.POST db (request_of b)) = 400%nat.
Proof.
  intro H. rewrite POST_enabled. unfold InventoryCheck.check_enabled.
  unfold productLookup in Hproduct. rewrite Hproduct. simpl.
  unfold requestedField in H.
  destruct (InventoryCheck.isWeightBased product); simpl; rewrite H; reflexivity.
Qed.

Variable q : Q.
Hypothesis Hfield : requestedField (InventoryCheck.isWeightBased product) b = Some q.

Lemma check_enabled_validated :
  InventoryCheck.check_enabled db b productId
  = (inventory <- inventoryLookup db productId (Body.variantId b) ;;
     match inventory with
     | [] => Returned (NextResponse.json
               (InventoryCheck.no_record_response b (InventoryCheck.isWeightBased product)))
     | inv :: _ =>
         if InventoryCheck.isWeightBased product
         then Returned (NextResponse.json (InventoryCheck.weight_response b inv))
         else Returned (NextResponse.json (InventoryCheck.quantity_response b inv))
     end).
Proof.
  unfold InventoryCheck.check_enabled.
  unfold productLookup in Hproduct. rewrite Hproduct. simpl.
  unfold requestedField in Hfield.
  destruct (InventoryCheck.isWeightBased product); simpl;
    rewrite (present_passes_validation _ _ Hfield); reflexivity.
Qed.

Lemma POST_inventory_lookup_fails :
  inventoryLookup db productId (Body.variantId b) = Raised ->
  NextResponse.status (InventoryCheck.POST db (request_of b)) = 500%nat.
Proof.
  intro H. rewrite POST_enabled, check_enabled_validated, H. reflexivity.
Qed.

Lemma POST_no_record :
  inventoryLookup db productId (Body.variantId b) = Returned [] ->
  InventoryCheck.POST db (request_of b)
  = NextResponse.json
      (InventoryCheck.no_record_response b (InventoryCheck.isWeightBased product)).
Proof.
  intro H. rewrite POST_enabled, check_enabled_validated, H. reflexivity.
Qed.

Lemma POST_record (inv : Inventory.t) (rest : list Inventory.t) :
  inventoryLookup db productId (Body.variantId b) = Returned (inv :: rest) ->
  InventoryCheck.POST db (request_of b)
  = NextResponse.json
      (if InventoryCheck.isWeightBased product
       then InventoryCheck.weight_response b inv
       else InventoryCheck.quantity_response b inv).
Proof.
  intro H. rewrite POST_enabled, check_enabled_validated, H. simpl.
  destruct (InventoryCheck.isWeightBased product); reflexivity.
Qed.

End RoutePaths.

(** ** The hook, path by path *)

Section HookPaths.

Variable db : Db.t.
Variable items : list CartItem.t.
Variable product : Product.t.
Variable quantity_arg weightInGrams : option Q.

Let quantity := quantity_of quantity_arg.
Let req := UseCart.request product quantity weightInGrams.

Lemma request_product_id :
  Js.truthy_str (Product.id product) = true ->
  Js.truthy_string (Body.productId req) = Some (Product.id product).
Proof. intro H. unfold req. simpl. rewrite H. reflexivity. Qed.

Lemma request_field :
  requestedField (strict_eq_str (Product.stockManagementType product) "weight") req
  = Some (requestedAmount (strict_eq_str (Product.stockManagementType product) "weight")
            quantity weightInGrams).
Proof.
  unfold req, UseCart.request, requestedField, requestedAmount.
  destruct (strict_eq_str (Product.stockManagementType product) "weight"); reflexivity.
Qed.

Lemma hook_disabled :
  Js.truthy_str (Product.id product) = true ->
  InventoryCheck.getStockManagementSetting db = false ->
  UseCart.addToCartWithToast db items product quantity_arg weightInGrams
  = added product quantity
      (if strict_eq_str (Product.stockManagementType product) "weight"
       then weightInGrams else None).
Proof.
  intros Hid Hoff. unfold UseCart.addToCartWithToast.
  fold quantity. fold req. change {| NextRequest.json := Returned req |} with (request_of req).
  rewrite (POST_disabled db req _ (request_product_id Hid) Hoff).
  unfold UseCart.checkTotal. simpl.
  destruct (strict_eq_str (Product.stockManagementType product) "weight"); reflexivity.
Qed.

Variable row : ProductRow.t.
Hypothesis Hon : InventoryCheck.getStockManagementSetting db = true.
Hypothesis Hsame : same_product db product row.

Let weight := InventoryCheck.isWeightBased row.
Let requested := requestedAmount weight quantity weightInGrams.
Let existing := existingCommitment weight items product.

Lemma hook_field : requestedField weight req = Some requested.
Proof.
  destruct Hsame as (_ & _ & Hmode). unfold requested, weight.
  rewrite <- Hmode. apply request_field.
Qed.

Lemma hook_no_record :
  recordsOf db product = Returned [] ->
  UseCart.addToCartWithToast db items product quantity_arg weightInGrams
  = rejected "Insufficient stock"
      (Message (Str "No inventory record found for this product")) 3000.
Proof.
  intro Hinv. destruct Hsame as (Hid & Hrow & Hmode).
  unfold UseCart.addToCartWithToast.
  fold quantity. fold req. change {| NextRequest.json := Returned req |} with (request_of req).
  assert (Hinv' : inventoryLookup db (Product.id product) (Body.variantId req) = Returned []).
  { exact Hinv. }
  rewrite (POST_no_record db req _ (request_product_id Hid) Hon row Hrow _ hook_field Hinv').
  simpl. destruct (strict_eq_str (Product.stockManagementType product) "weight"); reflexivity.
Qed.

Lemma hook_record (inv : Inventory.t) (rest : list Inventory.t) :
  recordsOf db product = Returned (inv :: rest) ->
  let available := availableAmount weight inv in
  UseCart.addToCartWithToast db items product quantity_arg weightInGrams
  = if negb (Js.ge available (Js.or_num (Some requested) 0))
    then rejected "Insufficient stock" (Message (only_available weight available)) 3000
    else if Js.gt (existing + requested) available
    then if Js.gt (available - existing) 0
         then rejected "Limited stock"
                (limited weight (available - existing) available existing) 4000
         else rejected "Already at maximum" (maximum weight existing) 3000
    else added product quantity (if weight then weightInGrams else None).
Proof.
  intros Hinv available. destruct Hsame as (Hid & Hrow & Hmode).
  unfold UseCart.addToCartWithToast.
  fold quantity. fold req. change {| NextRequest.json := Returned req |} with (request_of req).
  assert (Hinv' : inventoryLookup db (Product.id product) (Body.variantId req)
                  = Returned (inv :: rest)).
  { exact Hinv. }
  rewrite (POST_record db req _ (request_product_id Hid) Hon row Hrow _ hook_field
             inv rest Hinv').
  unfold UseCart.checkTotal, available, existing, requested, existingCommitment,
    requestedAmount, availableAmount, only_available, limited, maximum,
    req, UseCart.request, weight.
  rewrite Hmode.
  destruct (InventoryCheck.isWeightBased row); simpl.
  - destruct (Js.ge _ _); simpl; [|reflexivity].
    destruct (Js.gt _ _); simpl; [|reflexivity].
    destruct (Js.gt _ _); reflexivity.
  - destruct (Js.ge _ _); simpl; [|reflexivity].
    destruct (Js.gt _ _); simpl; [|reflexivity].
    destruct (Js.gt _ _); reflexivity.
Qed.

End HookPaths.

(** The scenarios of the specification, run through the hook. *)

Example scenario_A :
  UseCart.addToCartWithToast (Shop.db Shop.enabled [Shop.stock "apples" 10 0])
    [Shop.line Shop.apples_client 3 None] Shop.apples_client (Some 5) None
  = added Shop.apples_client 5 None.
Proof. reflexivity. Qed.

Example scenario_B :
  UseCart.addToCartWithToast (Shop.db Shop.enabled [Shop.stock "apples" 10 0])
    [Shop.line Shop.apples_client 8 None] Shop.apples_client (Some 5) None
  = rejected "Limited stock" (MoreUnits (10 - 8) 10 8) 4000.
Proof. reflexivity. Qed.

Example scenario_C :
  UseCart.addToCartWithToast (Shop.db Shop.enabled [Shop.stock "apples" 5 0])
    [Shop.line Shop.apples_client 5 None] Shop.apples_client (Some 1) None
  = rejected "Already at maximum" (MaximumQuantity 5) 3000.
Proof. reflexivity. Qed.

Example scenario_D :
  UseCart.addToCartWithToast (Shop.db Shop.enabled [Shop.stock "rice" 0 1000])
    [Shop.line Shop.rice_client 2 (Some 200)] Shop.rice_client (Some 1) (Some 500)
  = added Shop.rice_client 1 (Some 500).
Proof. reflexivity. Qed.

(** Scenario B through the quantity-only hook and route. *)
Example scenario_B_quantity_only :
  UseCartQuantity.addToCartWithToast (Shop.db Shop.enabled [Shop.stock "apples" 10 0])
    [Shop.line Shop.apples_client 8 None] Shop.apples_client (Some 5)
  = rejected "Limited stock" (MoreUnits (10 - 8) 10 8) 4000.
Proof. reflexivity. Qed.

(** ** Stock management switched off *)

(** C1. When the stock-management setting reads as off, the route answers
    every request that names a product with [available = true] and the
    sentinel [999999] as available quantity and as available weight, whatever
    the mode, the requested amount and the inventory table hold; and the hook
    then adds to the cart whatever the cart already holds, so the total is
    sufficient too. *)
Theorem disabled_policy_bypasses_every_check
  (db : Db.t) (b : Body.t) (productId : string) :
  InventoryCheck.getStockManagementSetting db = false ->
  Js.truthy_string (Body.productId b) = Some productId ->
  let r := InventoryCheck.POST db (request_of b) in
  NextResponse.status r = 200%nat
  /\ Json.available (NextResponse.body r) = Some true
  /\ Json.stockManagementEnabled (NextResponse.body r) = Some false
  /\ Json.availableQuantity (NextResponse.body r) = Some sentinel
  /\ Json.availableWeight (NextResponse.body r) = Some sentinel
  /\ forall items product quantity_arg weightInGrams,
       Js.truthy_str (Product.id product) = true ->
       Outcome.addToCart
         (UseCart.addToCartWithToast db items product quantity_arg weightInGrams)
       = Some (product, quantity_of quantity_arg,
               if strict_eq_str (Product.stockManagementType product) "weight"
               then weightInGrams else None).
Proof.
  intros Hoff Hid r. subst r.
  rewrite (POST_disabled db b productId Hid Hoff).
  repeat split.
  intros items product quantity_arg weightInGrams Hpid.
  rewrite (hook_disabled db items product quantity_arg weightInGrams Hpid Hoff).
  reflexivity.
Qed.

Lemma disabled_policy_bypasses_every_check_witness :
  let db := Shop.db [] [] in
  let r := InventoryCheck.POST db (request_of (Shop.weight_request "ghost" 5000)) in
  Json.available (NextResponse.body r) = Some true
  /\ Json.availableWeight (NextResponse.body r) = Some 999999
  /\ Outcome.addToCart
       (UseCart.addToCartWithToast db [Shop.line Shop.apples_client 7 None]
          Shop.apples_client (Some 100) None)
     = Some (Shop.apples_client, 100, None).
Proof.
  intros db r.
  destruct (disabled_policy_bypasses_every_check db
              (Shop.weight_request "ghost" 5000) "ghost" eq_refl eq_refl)
    as (_ & Ha & _ & _ & Hw & Hhook).
  split; [exact Ha|]. split; [exact Hw|].
  exact (Hhook [Shop.line Shop.apples_client 7 None] Shop.apples_client
           (Some 100) None eq_refl).
Defined.

(** C9. When the settings table holds no [stock_management_enabled] row, or
    reading it throws, the setting reads as off, and the route answers every
    request that names a product with status 200, [available = true] and
    [999999] as available quantity and weight: no error is produced. *)
Theorem missing_setting_reads_as_disabled
  (db : Db.t) (b : Body.t) (productId : string) :
  (Db.settings db = Raised
   \/ exists rows, Db.settings db = Returned rows
        /\ forall r, In r rows -> Setting.key r <> "stock_management_enabled") ->
  Js.truthy_string (Body.productId b) = Some productId ->
  let r := InventoryCheck.POST db (request_of b) in
  InventoryCheck.getStockManagementSetting db = false
  /\ NextResponse.status r = 200%nat
  /\ Json.error (NextResponse.body r) = None
  /\ Json.available (NextResponse.body r) = Some true
  /\ Json.availableQuantity (NextResponse.body r) = Some 999999
  /\ Json.availableWeight (NextResponse.body r) = Some 999999.
Proof.
  intros Hsettings Hid r.
  assert (Hoff : InventoryCheck.getStockManagementSetting db = false).
  { unfold InventoryCheck.getStockManagementSetting, Db.select_limit1.
    destruct Hsettings as [-> | (rows & -> & Hrows)]; [reflexivity|].
    simpl.
    replace (filter (fun r0 => String.eqb (Setting.key r0) "stock_management_enabled") rows)
      with (@nil Setting.t); [reflexivity|].
    symmetry. induction rows as [|row rows IH]; [reflexivity|].
    simpl. destruct (String.eqb_spec (Setting.key row) "stock_management_enabled") as [E|_].
    - exfalso. apply (Hrows row); [left; reflexivity | exact E].
    - apply IH. intros r0 Hin. apply Hrows. right. exact Hin. }
  subst r. rewrite (POST_disabled db b productId Hid Hoff).
  repeat split. exact Hoff.
Qed.

Lemma missing_setting_reads_as_disabled_witness :
  let r := InventoryCheck.POST (Shop.unreadable_settings [Shop.stock "apples" 2 0])
             (request_of (Shop.quantity_request "apples" 50)) in
  NextResponse.status r = 200%nat
  /\ Json.available (NextResponse.body r) = Some true.
Proof.
  intro r.
  destruct (missing_setting_reads_as_disabled
              (Shop.unreadable_settings [Shop.stock "apples" 2 0])
              (Shop.quantity_request "apples" 50) "apples"
              (or_introl eq_refl) eq_refl)
    as (_ & Hs & _ & Ha & _).
  split; [exact Hs | exact Ha].
Defined.

(** ** Stock management switched on, inventory record present *)

Lemma route_record_fields (b : Body.t) (inv : Inventory.t) (weight : bool) (q : Q) :
  requestedField weight b = Some q ->
  let j := if weight then InventoryCheck.weight_response b inv
           else InventoryCheck.quantity_response b inv in
  reportedAmount weight j = Some (availableAmount weight inv)
  /\ Json.available j = Some (Js.ge (availableAmount weight inv) (Js.or_num (Some q) 0)).
Proof.
  unfold requestedField, reportedAmount, availableAmount.
  destruct weight; simpl; intros ->; split; reflexivity.
Qed.

Lemma ge_requested_iff (available q : Q) :
  Js.ge available (Js.or_num (Some q) 0) = true <-> q <= available.
Proof. rewrite ge_iff, or_num_zero. reflexivity. Qed.

Lemma ge_requested_false_iff (available q : Q) :
  Js.ge available (Js.or_num (Some q) 0) = false <-> available < q.
Proof. rewrite ge_false_iff, or_num_zero. reflexivity. Qed.

(** C2. With stock management on and an inventory record found, the route
    reports as available amount the record's quantity (quantity mode) or
    weight (weight mode), and [available] is true exactly when the requested
    amount is at most that amount; the cart plays no part in it. The bound
    is inclusive: a request equal to the available amount is available, and
    in the hook a total (already in the cart plus requested) equal to the
    available amount is added to the cart. *)
Theorem available_iff_request_within_stock
  (db : Db.t) (b : Body.t) (productId : string) (row : ProductRow.t) (q : Q)
  (inv : Inventory.t) (rest : list Inventory.t) :
  InventoryCheck.getStockManagementSetting db = true ->
  Js.truthy_string (Body.productId b) = Some productId ->
  productLookup db productId = Returned (Some row) ->
  requestedField (InventoryCheck.isWeightBased row) b = Some q ->
  inventoryLookup db productId (Body.variantId b) = Returned (inv :: rest) ->
  let weight := InventoryCheck.isWeightBased row in
  let available := availableAmount weight inv in
  let r := InventoryCheck.POST db (request_of b) in
  NextResponse.status r = 200%nat
  /\ reportedAmount weight (NextResponse.body r) = Some available
  /\ (Json.available (NextResponse.body r) = Some true <-> q <= available)
  /\ (Json.available (NextResponse.body r) = Some false <-> available < q)
  /\ (q == available -> Json.available (NextResponse.body r) = Some true)
  /\ forall items product quantity_arg weightInGrams,
       same_product db product row ->
       recordsOf db product = Returned (inv :: rest) ->
       let existing := existingCommitment weight items product in
       let requested := requestedAmount weight (quantity_of quantity_arg) weightInGrams in
       0 <= existing ->
       existing + requested == available ->
       UseCart.addToCartWithToast db items product quantity_arg weightInGrams
       = added product (quantity_of quantity_arg)
           (if weight then weightInGrams else None).
Proof.
  intros Hon Hid Hrow Hfield Hinv weight available r. subst r.
  rewrite (POST_record db b productId Hid Hon row Hrow q Hfield inv rest Hinv).
  destruct (route_record_fields b inv weight q Hfield) as (Hamount & Havail).
  cbn [NextResponse.json NextResponse.status NextResponse.body].
  fold weight. rewrite Hamount, Havail. fold available.
  split; [reflexivity|]. split; [reflexivity|].
  split; [|split; [|split]].
  - rewrite <- ge_requested_iff. split; [intro H; injection H; auto | intros ->; reflexivity].
  - rewrite <- ge_requested_false_iff.
    split; [intro H; injection H; auto | intros ->; reflexivity].
  - intro E. f_equal. apply ge_requested_iff. rewrite E. apply Qle_refl.
  - intros items product quantity_arg weightInGrams Hsame Hrec Hexisting Htotal.
    rewrite (hook_record db items product quantity_arg weightInGrams row Hon Hsame
               inv rest Hrec).
    fold weight. fold available.
    set (existing := existingCommitment weight items product) in *.
    set (requested := requestedAmount weight (quantity_of quantity_arg) weightInGrams) in *.
    assert (Hle : requested <= available).
    { rewrite <- Htotal. lra. }
    apply ge_requested_iff in Hle. rewrite Hle. simpl.
    assert (Hgt : Js.gt (existing + requested) available = false).
    { apply gt_false_iff. rewrite Htotal. apply Qle_refl. }
    rewrite Hgt. reflexivity.
Qed.

Lemma available_iff_request_within_stock_witness :
  let db := Shop.db Shop.enabled [Shop.stock "rice" 0 1000] in
  let r := InventoryCheck.POST db (request_of (Shop.weight_request "rice" 1000)) in
  Json.availableWeight (NextResponse.body r)
  = Some (availableAmount true (Shop.stock "rice" 0 1000))
  /\ Json.available (NextResponse.body r) = Some true
  /\ UseCart.addToCartWithToast db [Shop.line Shop.rice_client 2 (Some 200)]
       Shop.rice_client (Some 1) (Some 600)
     = added Shop.rice_client 1 (Some 600).
Proof.
  intros db r.
  destruct (available_iff_request_within_stock db (Shop.weight_request "rice" 1000)
              "rice" Shop.rice 1000 (Shop.stock "rice" 0 1000) []
              eq_refl eq_refl eq_refl eq_refl eq_refl)
    as (_ & Hamount & _ & _ & Heq & Hhook).
  split; [exact Hamount|]. split; [apply Heq; reflexivity|].
  apply (Hhook [Shop.line Shop.rice_client 2 (Some 200)] Shop.rice_client
           (Some 1) (Some 600)).
  - repeat split.
  - reflexivity.
  - vm_compute. discriminate.
  - reflexivity.
Defined.

(** C3, as stated, fails: with 5 units in stock, 5 already in the cart and
    6 requested, the total is not sufficient and the headroom is 0, yet the
    hook does not report that the cart is at its maximum: the request alone
    exceeds the stock, and the hook stops at the answer of the route. *)
Lemma exceeding_request_is_not_reported_at_maximum :
  let db := Shop.db Shop.enabled [Shop.stock "apples" 5 0] in
  let items := [Shop.line Shop.apples_client 5 None] in
  let available := availableAmount false (Shop.stock "apples" 5 0) in
  let existing := existingCommitment false items Shop.apples_client in
  let requested := requestedAmount false 6 None in
  let o := UseCart.addToCartWithToast db items Shop.apples_client (Some 6) None in
  ~ (available < existing + requested ->
     (0 < available - existing -> Toast.title (Outcome.toast o) = "Limited stock")
     /\ (available - existing <= 0 ->
         Toast.title (Outcome.toast o) = "Already at maximum")).
Proof.
  intros db items available existing requested o H.
  assert (Htotal : available < existing + requested) by reflexivity.
  destruct (H Htotal) as (_ & Hmax).
  assert (Hroom : available - existing <= 0) by (vm_compute; discriminate).
  specialize (Hmax Hroom). vm_compute in Hmax. discriminate Hmax.
Qed.

(** C3, amended. With stock management on and an inventory record found,
    when the total (already in the cart plus requested) exceeds the
    available amount: if the request alone exceeds the available amount the
    hook reports insufficient stock with the route's message, whatever the
    headroom; otherwise it computes the headroom as the available amount
    minus what the cart holds (the count, or the count times the weight of
    a unit), exactly, and reports limited stock with that headroom when it is
    positive and a cart at its maximum when it is zero or negative. *)
Theorem refusal_of_total_follows_headroom
  (db : Db.t) (items : list CartItem.t) (product : Product.t)
  (quantity_arg weightInGrams : option Q) (row : ProductRow.t)
  (inv : Inventory.t) (rest : list Inventory.t) :
  InventoryCheck.getStockManagementSetting db = true ->
  same_product db product row ->
  recordsOf db product = Returned (inv :: rest) ->
  let weight := InventoryCheck.isWeightBased row in
  let available := availableAmount weight inv in
  let existing := existingCommitment weight items product in
  let requested := requestedAmount weight (quantity_of quantity_arg) weightInGrams in
  let headroom := available - existing in
  let o := UseCart.addToCartWithToast db items product quantity_arg weightInGrams in
  available < existing + requested ->
  (available < requested ->
   o = rejected "Insufficient stock" (Message (only_available weight available)) 3000)
  /\ (requested <= available -> 0 < headroom ->
      o = rejected "Limited stock" (limited weight headroom available existing) 4000)
  /\ (requested <= available -> headroom <= 0 ->
      o = rejected "Already at maximum" (maximum weight existing) 3000).
Proof.
  intros Hon Hsame Hrec weight available existing requested headroom o Htotal.
  subst o.
  rewrite (hook_record db items product quantity_arg weightInGrams row Hon Hsame
             inv rest Hrec).
  fold weight. fold available. fold existing. fold requested. fold headroom.
  apply gt_iff in Htotal.
  split; [|split].
  - intro Hover. apply ge_requested_false_iff in Hover. rewrite Hover. reflexivity.
  - intros Hle Hroom. apply ge_requested_iff in Hle. rewrite Hle. simpl.
    rewrite Htotal. apply gt_iff in Hroom. rewrite Hroom. reflexivity.
  - intros Hle Hroom. apply ge_requested_iff in Hle. rewrite Hle. simpl.
    rewrite Htotal. apply gt_false_iff in Hroom. rewrite Hroom. reflexivity.
Qed.

Lemma refusal_of_total_follows_headroom_witness :
  UseCart.addToCartWithToast (Shop.db Shop.enabled [Shop.stock "rice" 0 1000])
    [Shop.line Shop.rice_client 2 (Some 300)] Shop.rice_client (Some 1) (Some 500)
  = rejected "Limited stock" (MoreGrams (1000 - 2 * 300) 1000 (2 * 300)) 4000.
Proof.
  apply (refusal_of_total_follows_headroom
           (Shop.db Shop.enabled [Shop.stock "rice" 0 1000])
           [Shop.line Shop.rice_client 2 (Some 300)] Shop.rice_client
           (Some 1) (Some 500) Shop.rice (Shop.stock "rice" 0 1000) []).
  - reflexivity.
  - repeat split.
  - reflexivity.
  - reflexivity.
  - vm_compute. discriminate.
  - reflexivity.
Defined.

(** ** Stock management switched on, no inventory record *)

(** C4. With stock management on and no inventory record for the product
    (and variant), the route answers [available = false] with available
    quantity and available weight both 0 and the message that no record was
    found, whatever amount is requested; the hook then refuses with that
    message and adds nothing, whatever the cart holds and whatever amount is
    asked for, so that no amount can be added. The quantity-only route
    answers the same way. *)
Theorem no_record_is_unavailable
  (db : Db.t) (b : Body.t) (productId : string) (row : ProductRow.t) (q : Q) :
  InventoryCheck.getStockManagementSetting db = true ->
  Js.truthy_string (Body.productId b) = Some productId ->
  productLookup db productId = Returned (Some row) ->
  requestedField (InventoryCheck.isWeightBased row) b = Some q ->
  inventoryLookup db productId (Body.variantId b) = Returned [] ->
  let r := InventoryCheck.POST db (request_of b) in
  NextResponse.status r = 200%nat
  /\ Json.available (NextResponse.body r) = Some false
  /\ Json.availableQuantity (NextResponse.body r) = Some 0
  /\ Json.availableWeight (NextResponse.body r) = Some 0
  /\ Json.message (NextResponse.body r)
     = Some (Str "No inventory record found for this product")
  /\ (forall items product quantity_arg weightInGrams,
        same_product db product row ->
        recordsOf db product = Returned [] ->
        let o := UseCart.addToCartWithToast db items product quantity_arg weightInGrams in
        Outcome.addToCart o = None
        /\ o = rejected "Insufficient stock"
                 (Message (Str "No inventory record found for this product")) 3000)
  /\ (Body.requestedQuantity b = Some q -> Js.truthy_num q = true ->
      let r' := InventoryCheckQuantity.POST db (request_of b) in
      Json.available (NextResponse.body r') = Some false
      /\ Json.availableQuantity (NextResponse.body r') = Some 0
      /\ Json.message (NextResponse.body r')
         = Some (Str "No inventory record found for this product")).
Proof.
  intros Hon Hid Hrow Hfield Hinv r. subst r.
  rewrite (POST_no_record db b productId Hid Hon row Hrow q Hfield Hinv).
  do 5 (split; [reflexivity|]).
  split.
  - intros items product quantity_arg weightInGrams Hsame Hrec o. subst o.
    rewrite (hook_no_record db items product quantity_arg weightInGrams row Hon Hsame Hrec).
    split; reflexivity.
  - intros Hq Htruthy r'. subst r'.
    unfold InventoryCheckQuantity.POST, request_of. simpl.
    rewrite Hid, Hq, Htruthy. simpl.
    change (InventoryCheckQuantity.getStockManagementSetting db)
      with (InventoryCheck.getStockManagementSetting db).
    rewrite Hon. simpl.
    unfold InventoryCheckQuantity.check_enabled.
    unfold productLookup in Hrow. rewrite Hrow. simpl.
    unfold inventoryLookup in Hinv.
    change (InventoryCheckQuantity.whereConditions productId (Body.variantId b))
      with (InventoryCheck.whereConditions productId (Body.variantId b)).
    rewrite Hinv. simpl. repeat split.
Qed.

Lemma no_record_is_unavailable_witness :
  let db := Shop.db Shop.enabled [Shop.stock "rice" 0 1000] in
  let r := InventoryCheck.POST db (request_of (Shop.quantity_request "apples" 3)) in
  Json.available (NextResponse.body r) = Some false
  /\ Json.availableQuantity (NextResponse.body r) = Some 0
  /\ Outcome.addToCart
       (UseCart.addToCartWithToast db [] Shop.apples_client (Some 1) None) = None.
Proof.
  intros db r.
  destruct (no_record_is_unavailable db (Shop.quantity_request "apples" 3)
              "apples" Shop.apples 3 eq_refl eq_refl eq_refl eq_refl eq_refl)
    as (_ & Ha & Hq & _ & _ & Hhook & _).
  split; [exact Ha|]. split; [exact Hq|].
  apply (Hhook [] Shop.apples_client (Some 1) None).
  - repeat split.
  - reflexivity.
Defined.

(** ** Input errors and status codes *)

Lemma find_none_of_all_false {A : Type} (f : A -> bool) (l : list A) :
  (forall x, In x l -> f x = false) -> find f l = None.
Proof.
  induction l as [|a l IH]; intro H; [reflexivity|].
  simpl. rewrite (H a (or_introl eq_refl)). apply IH.
  intros x Hx. apply H. right. exact Hx.
Qed.

Lemma unknown_product_lookup (db : Db.t) (rows : list ProductRow.t) (productId : string) :
  Db.products db = Returned rows ->
  (forall p, In p rows -> ProductRow.id p <> productId) ->
  productLookup db productId = Returned None.
Proof.
  intros Hrows Hnone. unfold productLookup, Db.findFirst. rewrite Hrows. simpl.
  f_equal. apply find_none_of_all_false. intros p Hp.
  apply String.eqb_neq. apply Hnone. exact Hp.
Qed.

(** The route answers 400 exactly when the product identifier is missing,
    or when, with stock management on and the product found, the amount
    field of the product's mode is missing. *)
Lemma POST_400_iff (db : Db.t) (b : Body.t) :
  NextResponse.status (InventoryCheck.POST db (request_of b)) = 400%nat
  <-> Js.truthy_string (Body.productId b) = None
      \/ exists productId row,
           Js.truthy_string (Body.productId b) = Some productId
           /\ InventoryCheck.getStockManagementSetting db = true
           /\ productLookup db productId = Returned (Some row)
           /\ requestedField (InventoryCheck.isWeightBased row) b = None.
Proof.
  destruct (Js.truthy_string (Body.productId b)) as [pid|] eqn:Hid.
  2:{ rewrite (POST_no_product_id db b Hid). split; [left|]; reflexivity. }
  destruct (InventoryCheck.getStockManagementSetting db) eqn:Hon.
  2:{ rewrite (POST_disabled db b pid Hid Hon). split; [discriminate|].
      intros [H | (p & r & _ & H & _)]; discriminate. }
  destruct (productLookup db pid) as [[row|]|] eqn:Hrow.
  - destruct (requestedField (InventoryCheck.isWeightBased row) b) as [q|] eqn:Hf.
    + split.
      * rewrite (POST_enabled db b pid Hid Hon),
          (check_enabled_validated db b pid row Hrow q Hf).
        destruct (inventoryLookup db pid (Body.variantId b)) as [[|inv rest]|];
          simpl; [| destruct (InventoryCheck.isWeightBased row) |]; discriminate.
      * intros [H | (p & r & Hp & _ & Hr & Hnone)]; [discriminate|].
        injection Hp as <-. rewrite Hrow in Hr. injection Hr as <-. congruence.
    + split; [|intros _; apply (POST_amount_missing db b pid Hid Hon row Hrow Hf)].
      intros _. right. exists pid, row. repeat split; assumption.
  - rewrite (POST_unknown_product db b pid Hid Hon Hrow). split; [discriminate|].
    intros [H | (p & r & Hp & _ & Hr & _)]; [discriminate|].
    injection Hp as <-. rewrite Hrow in Hr. discriminate.
  - rewrite (POST_product_lookup_fails db b pid Hid Hon Hrow). split; [discriminate|].
    intros [H | (p & r & Hp & _ & Hr & _)]; [discriminate|].
    injection Hp as <-. rewrite Hrow in Hr. discriminate.
Qed.

(** C5. For a weight-based product the hook sends as requested weight the
    weight it was given and, when none was given, the scalar quantity it was
    given (or its default). The route signals an input error (status 400)
    only when the product identifier is missing or the amount field of the
    product's mode is missing, in weight mode and in quantity mode alike, and
    it does signal one when the product identifier is missing. A request
    built by the hook for a product whose mode the client and the products
    table agree on always carries that field, so it never draws the amount
    error. *)
Theorem amount_fallback_and_input_errors (db : Db.t) :
  (forall product quantity_arg weightInGrams,
     strict_eq_str (Product.stockManagementType product) "weight" = true ->
     let req := UseCart.request product (quantity_of quantity_arg) weightInGrams in
     Body.requestedWeight req
     = Some (Js.or_num weightInGrams (quantity_of quantity_arg))
     /\ (weightInGrams = None ->
         Body.requestedWeight req = Some (quantity_of quantity_arg))
     /\ (forall w, weightInGrams = Some w -> ~ w == 0 ->
         Body.requestedWeight req = Some w))
  /\ (forall b,
        NextResponse.status (InventoryCheck.POST db (request_of b)) = 400%nat
        <-> Js.truthy_string (Body.productId b) = None
            \/ exists productId row,
                 Js.truthy_string (Body.productId b) = Some productId
                 /\ InventoryCheck.getStockManagementSetting db = true
                 /\ productLookup db productId = Returned (Some row)
                 /\ requestedField (InventoryCheck.isWeightBased row) b = None)
  /\ (forall b,
        Js.truthy_string (Body.productId b) = None ->
        InventoryCheck.POST db (request_of b)
        = NextResponse.json_status (Json.of_error "Product ID is required") 400)
  /\ (forall product quantity_arg weightInGrams row,
        same_product db product row ->
        let req := UseCart.request product (quantity_of quantity_arg) weightInGrams in
        requestedField (InventoryCheck.isWeightBased row) req
        = Some (requestedAmount (InventoryCheck.isWeightBased row)
                  (quantity_of quantity_arg) weightInGrams)
        /\ NextResponse.status (InventoryCheck.POST db (request_of req)) <> 400%nat).
Proof.
  split; [|split; [|split]].
  - intros product quantity_arg weightInGrams Hweight req. subst req.
    unfold UseCart.request. rewrite Hweight. simpl.
    split; [reflexivity|]. split.
    + intros ->. reflexivity.
    + intros w -> Hw. unfold Js.or_num, Js.truthy_num.
      destruct (Qeq_bool w 0) eqn:E; [|reflexivity].
      apply Qeq_bool_iff in E. contradiction.
  - intro b. apply POST_400_iff.
  - intros b H. apply POST_no_product_id. exact H.
  - intros product quantity_arg weightInGrams row Hsame req.
    assert (Hf : requestedField (InventoryCheck.isWeightBased row) req
                 = Some (requestedAmount (InventoryCheck.isWeightBased row)
                           (quantity_of quantity_arg) weightInGrams)).
    { apply (hook_field db product quantity_arg weightInGrams row Hsame). }
    split; [exact Hf|].
    intro H400. apply POST_400_iff in H400.
    destruct Hsame as (Hid & Hrow & _).
    destruct H400 as [Hnone | (p & r & Hp & _ & Hr & Hmiss)].
    + unfold req in Hnone. simpl in Hnone. rewrite Hid in Hnone. discriminate.
    + unfold req in Hp. simpl in Hp. rewrite Hid in Hp. injection Hp as <-.
      rewrite Hrow in Hr. injection Hr as <-. congruence.
Qed.

Lemma amount_fallback_and_input_errors_witness :
  let db := Shop.db Shop.enabled [Shop.stock "rice" 0 1000] in
  Body.requestedWeight (UseCart.request Shop.rice_client (quantity_of (Some 250)) None)
  = Some 250
  /\ NextResponse.status
       (InventoryCheck.POST db (request_of (Shop.quantity_request "rice" 2))) = 400%nat
  /\ NextResponse.status
       (InventoryCheck.POST db
          (request_of (UseCart.request Shop.rice_client (quantity_of None) None)))
     <> 400%nat.
Proof.
  intro db.
  destruct (amount_fallback_and_input_errors db) as (Hfall & H400 & _ & Hhook).
  split; [|split].
  - exact (proj1 (proj2 (Hfall Shop.rice_client (Some 250) None eq_refl)) eq_refl).
  - apply H400. right. exists "rice", Shop.rice. repeat split.
  - refine (proj2 (Hhook Shop.rice_client None None Shop.rice _)). repeat split.
Defined.

(** C6, as stated, fails: with stock management off, a request for a
    product that does not exist is answered with status 200, not 404. *)
Lemma unknown_product_is_not_404_when_disabled :
  let db := Shop.db [] [] in
  let r := InventoryCheck.POST db (request_of (Shop.quantity_request "ghost" 1)) in
  ~ (productLookup db "ghost" = Returned None -> NextResponse.status r = 404%nat).
Proof.
  intros db r H. specialize (H eq_refl). vm_compute in H. discriminate H.
Qed.

(** C6, amended. A request without a product identifier is answered with
    status 400, and a body that cannot be read with 500. For a request that
    names a product: with stock management off (also when the setting
    cannot be read) the answer is 200, whether or not the product exists;
    with stock management on, it is 404 when no product has that
    identifier, 400 when the product is found and the amount field of its
    mode is missing, and 500 when the product lookup or the inventory
    lookup throws. *)
Theorem status_codes_of_inventory_check (db : Db.t) (b : Body.t) :
  (Js.truthy_string (Body.productId b) = None ->
   NextResponse.status (InventoryCheck.POST db (request_of b)) = 400%nat)
  /\ NextResponse.status (InventoryCheck.POST db {| NextRequest.json := Raised |})
     = 500%nat
  /\ forall productId,
       Js.truthy_string (Body.productId b) = Some productId ->
       let r := InventoryCheck.POST db (request_of b) in
       (InventoryCheck.getStockManagementSetting db = false ->
        NextResponse.status r = 200%nat)
       /\ (InventoryCheck.getStockManagementSetting db = true ->
           (forall rows,
              Db.products db = Returned rows ->
              (forall p, In p rows -> ProductRow.id p <> productId) ->
              NextResponse.status r = 404%nat)
           /\ (Db.products db = Raised -> NextResponse.status r = 500%nat)
           /\ forall row,
                productLookup db productId = Returned (Some row) ->
                (requestedField (InventoryCheck.isWeightBased row) b = None ->
                 NextResponse.status r = 400%nat)
                /\ (forall q,
                      requestedField (InventoryCheck.isWeightBased row) b = Some q ->
                      Db.productInventory db = Raised ->
                      NextResponse.status r = 500%nat)).
Proof.
  split; [|split].
  - intro H. rewrite (POST_no_product_id db b H). reflexivity.
  - reflexivity.
  - intros productId Hid r. subst r. split.
    + intro Hoff. rewrite (POST_disabled db b productId Hid Hoff). reflexivity.
    + intro Hon. split; [|split].
      * intros rows Hrows Hnone.
        rewrite (POST_unknown_product db b productId Hid Hon
                   (unknown_product_lookup db rows productId Hrows Hnone)).
        reflexivity.
      * intro Hdown. apply (POST_product_lookup_fails db b productId Hid Hon).
        unfold productLookup, Db.findFirst. rewrite Hdown. reflexivity.
      * intros row Hrow. split.
        -- intro Hnone. apply (POST_amount_missing db b productId Hid Hon row Hrow Hnone).
        -- intros q Hq Hdown.
           apply (POST_inventory_lookup_fails db b productId Hid Hon row Hrow q Hq).
           unfold inventoryLookup, Db.select_limit1. rewrite Hdown. reflexivity.
Qed.

Lemma status_codes_of_inventory_check_witness :
  let db := Shop.db Shop.enabled [] in
  NextResponse.status
    (InventoryCheck.POST db (request_of (Shop.quantity_request "ghost" 1))) = 404%nat
  /\ NextResponse.status
       (InventoryCheck.POST db (request_of (Shop.quantity_request "rice" 1))) = 400%nat.
Proof.
  intro db. split.
  - destruct (status_codes_of_inventory_check db (Shop.quantity_request "ghost" 1))
      as (_ & _ & H).
    destruct (H "ghost" eq_refl) as (_ & Hon).
    destruct (Hon eq_refl) as (H404 & _).
    apply (H404 [Shop.apples; Shop.rice] eq_refl).
    intros p [<- | [<- | []]]; discriminate.
  - destruct (status_codes_of_inventory_check db (Shop.quantity_request "rice" 1))
      as (_ & _ & H).
    destruct (H "rice" eq_refl) as (_ & Hon).
    destruct (Hon eq_refl) as (_ & _ & Hrow).
    destruct (Hrow Shop.rice eq_refl) as (H400 & _).
    apply H400. reflexivity.
Defined.

(** ** Zero and negative amounts *)

(** C7, as stated, fails: with stock management on and no inventory record,
    a request for a quantity of 0 is accepted as input but answered with
    [available = false]. *)
Lemma zero_request_without_record_is_unavailable :
  let db := Shop.db Shop.enabled [] in
  let r := InventoryCheck.POST db (request_of (Shop.quantity_request "apples" 0)) in
  NextResponse.status r = 200%nat
  /\ ~ (Json.available (NextResponse.body r) = Some true).
Proof.
  intros db r. split; [reflexivity|]. vm_compute. discriminate.
Qed.

(** C7, amended. A request whose amount for the product's mode is 0 is
    accepted as valid input by the weight-aware route (status 200, no input
    error). It is answered with [available = true] when stock management is
    off, and when it is on and an inventory record is found whose available
    amount is not negative; when stock management is on and no inventory
    record is found it is answered with [available = false]. *)
Theorem zero_request_is_accepted
  (db : Db.t) (b : Body.t) (productId : string) (q : Q) :
  Js.truthy_string (Body.productId b) = Some productId ->
  q == 0 ->
  let r := InventoryCheck.POST db (request_of b) in
  (InventoryCheck.getStockManagementSetting db = false ->
   NextResponse.status r = 200%nat
   /\ Json.available (NextResponse.body r) = Some true)
  /\ forall row,
       InventoryCheck.getStockManagementSetting db = true ->
       productLookup db productId = Returned (Some row) ->
       requestedField (InventoryCheck.isWeightBased row) b = Some q ->
       (forall inv rest,
          inventoryLookup db productId (Body.variantId b) = Returned (inv :: rest) ->
          0 <= availableAmount (InventoryCheck.isWeightBased row) inv ->
          NextResponse.status r = 200%nat
          /\ Json.available (NextResponse.body r) = Some true)
       /\ (inventoryLookup db productId (Body.variantId b) = Returned [] ->
           NextResponse.status r = 200%nat
           /\ Json.available (NextResponse.body r) = Some false).
Proof.
  intros Hid Hzero r. subst r. split.
  - intro Hoff. rewrite (POST_disabled db b productId Hid Hoff). split; reflexivity.
  - intros row Hon Hrow Hfield. split.
    + intros inv rest Hinv Hnonneg.
      rewrite (POST_record db b productId Hid Hon row Hrow q Hfield inv rest Hinv).
      destruct (route_record_fields b inv (InventoryCheck.isWeightBased row) q Hfield)
        as (_ & Havail).
      cbn [NextResponse.json NextResponse.status NextResponse.body].
      rewrite Havail. split; [reflexivity|].
      f_equal. apply ge_requested_iff. rewrite Hzero. exact Hnonneg.
    + intro Hinv.
      rewrite (POST_no_record db b productId Hid Hon row Hrow q Hfield Hinv).
      split; reflexivity.
Qed.

Lemma zero_request_is_accepted_witness :
  let db := Shop.db Shop.enabled [Shop.stock "rice" 0 0] in
  let r := InventoryCheck.POST db (request_of (Shop.weight_request "rice" 0)) in
  NextResponse.status r = 200%nat
  /\ Json.available (NextResponse.body r) = Some true.
Proof.
  intros db r.
  destruct (zero_request_is_accepted db (Shop.weight_request "rice" 0) "rice" 0
              eq_refl (Qeq_refl 0)) as (_ & H).
  destruct (H Shop.rice eq_refl eq_refl eq_refl) as (Hrecord & _).
  apply (Hrecord (Shop.stock "rice" 0 0) [] eq_refl).
  vm_compute. discriminate.
Defined.

(** C8, as stated, fails: a request for a quantity of -1 does not draw an
    input error; the route evaluates it and answers that it is available. *)
Lemma negative_request_is_not_rejected :
  let db := Shop.db Shop.enabled [Shop.stock "apples" 5 0] in
  let r := InventoryCheck.POST db (request_of (Shop.quantity_request "apples" (-1))) in
  ~ (NextResponse.status r = 400%nat)
  /\ Json.error (NextResponse.body r) = None
  /\ Json.available (NextResponse.body r) = Some true.
Proof.
  intros db r. split; [|split]; [|reflexivity|reflexivity].
  vm_compute. discriminate.
Qed.

(** C8, amended. The route has no check on the sign of the requested
    amount: with stock management on, the product found and an inventory
    record found, a negative requested amount is answered like any other,
    with status 200, no error, and [available] true exactly when the amount
    is at most the available amount, hence true whenever the available
    amount is not negative. *)
Theorem negative_request_is_evaluated
  (db : Db.t) (b : Body.t) (productId : string) (row : ProductRow.t) (q : Q)
  (inv : Inventory.t) (rest : list Inventory.t) :
  InventoryCheck.getStockManagementSetting db = true ->
  Js.truthy_string (Body.productId b) = Some productId ->
  productLookup db productId = Returned (Some row) ->
  requestedField (InventoryCheck.isWeightBased row) b = Some q ->
  q < 0 ->
  inventoryLookup db productId (Body.variantId b) = Returned (inv :: rest) ->
  let available := availableAmount (InventoryCheck.isWeightBased row) inv in
  let r := InventoryCheck.POST db (request_of b) in
  NextResponse.status r = 200%nat
  /\ Json.error (NextResponse.body r) = None
  /\ (Json.available (NextResponse.body r) = Some true <-> q <= available)
  /\ (0 <= available -> Json.available (NextResponse.body r) = Some true).
Proof.
  intros Hon Hid Hrow Hfield Hneg Hinv available r. subst r.
  rewrite (POST_record db b productId Hid Hon row Hrow q Hfield inv rest Hinv).
  destruct (route_record_fields b inv (InventoryCheck.isWeightBased row) q Hfield)
    as (_ & Havail).
  cbn [NextResponse.json NextResponse.status NextResponse.body].
  rewrite Havail. fold available.
  split; [reflexivity|]. split.
  - destruct (InventoryCheck.isWeightBased row); reflexivity.
  - split.
    + rewrite <- ge_requested_iff.
      split; [intro H; injection H; auto | intros ->; reflexivity].
    + intro Hnonneg. f_equal. apply ge_requested_iff. lra.
Qed.

Lemma negative_request_is_evaluated_witness :
  let db := Shop.db Shop.enabled [Shop.stock "rice" 0 1000] in
  let r := InventoryCheck.POST db (request_of (Shop.weight_request "rice" (-250))) in
  NextResponse.status r = 200%nat
  /\ Json.available (NextResponse.body r) = Some true.
Proof.
  intros db r.
  destruct (negative_request_is_evaluated db (Shop.weight_request "rice" (-250))
              "rice" Shop.rice (-250) (Shop.stock "rice" 0 1000) []
              eq_refl eq_refl eq_refl eq_refl eq_refl eq_refl)
    as (Hs & _ & _ & Ha).
  split; [exact Hs|]. apply Ha. vm_compute. discriminate.
Defined.

(** ** Registration *)

Lemma filter_unique_token (rows : list Register.MagicLink.t) (row : Register.MagicLink.t) :
  NoDup (map Register.MagicLink.token rows) ->
  In row rows ->
  filter (fun r => String.eqb (Register.MagicLink.token r) (Register.MagicLink.token row)) rows
  = [row].
Proof.
  induction rows as [|a rows IH]; intros Hnd Hin; [destruct Hin|].
  simpl in Hnd. inversion Hnd as [|t ts Hnotin Hnd']; subst.
  simpl. destruct Hin as [-> | Hin].
  - rewrite String.eqb_refl. f_equal.
    clear IH Hnd. induction rows as [|c rows IH]; [reflexivity|].
    simpl. destruct (String.eqb_spec (Register.MagicLink.token c)
                       (Register.MagicLink.token row)) as [E|_].
    + exfalso. apply Hnotin. left. exact E.
    + apply IH.
      * intro H. apply Hnotin. right. exact H.
      * inversion Hnd' ; assumption.
  - destruct (String.eqb_spec (Register.MagicLink.token a)
                (Register.MagicLink.token row)) as [E|_].
    + exfalso. apply Hnotin. rewrite E. apply in_map. exact Hin.
    + apply IH; assumption.
Qed.

Lemma magicLinkData_accepts (db : Register.Tables.t) (magicToken : option string)
  (link : option Register.MagicLink.t) :
  unique_tokens db ->
  Register.magicLinkData db magicToken = Returned link ->
  (link <> None <-> token_accepted db magicToken).
Proof.
  intros Huniq. unfold Register.magicLinkData, token_accepted.
  destruct (Js.truthy_string magicToken) as [tok|].
  2:{ intro H. injection H as <-. split; [congruence|].
      intros (t & rows & row & H & _). discriminate. }
  unfold Db.select_limit1.
  destruct (Register.Tables.globalMagicLink db) as [rows|] eqn:Hrows; [|discriminate].
  simpl. intro H. injection H as <-.
  split.
  - destruct (filter _ rows) as [|row rest] eqn:Hf; [congruence|].
    simpl. destruct (Register.MagicLink.isEnabled row) eqn:He; [|congruence].
    intros _.
    assert (Hin : In row (filter (fun r => String.eqb (Register.MagicLink.token r) tok) rows)).
    { rewrite Hf. left. reflexivity. }
    apply filter_In in Hin. destruct Hin as (Hin & Htok).
    apply String.eqb_eq in Htok.
    exists tok, rows, row. repeat split; assumption.
  - intros (t & rows' & row & Ht & Hr & Hin & Htok & He).
    injection Ht as <-. injection Hr as <-. subst tok.
    rewrite (filter_unique_token rows row (Huniq rows Hrows) Hin).
    simpl. rewrite He. discriminate.
Qed.

(** C10. When the registration route creates a user (it answers with
    status 200), the row it appends to the user table has status
    ["approved"] exactly when the supplied token matches a row of the
    magic-link table whose [isEnabled] flag is set, and ["pending"]
    otherwise; [requiresApproval] is true in the answer exactly in the
    pending case. Tokens are taken to be unique in the magic-link table: the
    route looks at the first row with the token only. *)
Theorem registration_status_follows_magic_link
  (bcrypt_hash : string -> nat -> string) (uuid_user uuid_usage : string)
  (db db' : Register.Tables.t) (f : Register.Form.t) (resp : Register.Response) :
  unique_tokens db ->
  Register.POST bcrypt_hash uuid_user uuid_usage db f = Returned (resp, db') ->
  Register.status resp = 200%nat ->
  exists users u,
    Register.Tables.user db = Returned users
    /\ Register.Tables.user db' = Returned (users ++ [u])%list
    /\ (Register.User.status u = "approved" <-> token_accepted db (Register.Form.magicToken f))
    /\ (Register.User.status u = "pending" <-> ~ token_accepted db (Register.Form.magicToken f))
    /\ (Register.Reply.requiresApproval (Register.body resp) = Some true
        <-> Register.User.status u = "pending")
    /\ (Register.Reply.requiresApproval (Register.body resp) = Some false
        <-> Register.User.status u = "approved").
Proof.
  intros Huniq Hpost Hok. unfold Register.POST in Hpost.
  destruct (Js.truthy_string (Register.Form.email f)) as [email|];
    [|injection Hpost as <- _; discriminate].
  destruct (Js.truthy_string (Register.Form.password f)) as [password|];
    [|injection Hpost as <- _; discriminate].
  destruct (Js.truthy_string (Register.Form.name f)) as [name|];
    [|injection Hpost as <- _; discriminate].
  destruct (Register.Tables.user db) as [users|] eqn:Husers; [|discriminate].
  simpl in Hpost.
  destruct (if Register.includes_at email then _ else _) as [existing|];
    [injection Hpost as <- _; discriminate|].
  destruct (Register.magicLinkData db (Register.Form.magicToken f)) as [link|] eqn:Hlink;
    [|discriminate].
  pose proof (magicLinkData_accepts db _ link Huniq Hlink) as Hacc.
  simpl in Hpost. unfold Register.insert in Hpost. simpl in Hpost.
  destruct link as [l|].
  - destruct (Register.Tables.magicLinkUsage db) as [usages|]; [|discriminate].
    simpl in Hpost. injection Hpost as <- <-.
    assert (Hyes : token_accepted db (Register.Form.magicToken f))
      by (apply Hacc; discriminate).
    eexists users, _. split; [reflexivity|]. split; [reflexivity|]. simpl.
    repeat split; intros; try assumption; try reflexivity; try discriminate.
    contradiction.
  - simpl in Hpost. injection Hpost as <- <-.
    assert (Hno : ~ token_accepted db (Register.Form.magicToken f))
      by (intro H; apply Hacc in H; congruence).
    eexists users, _. split; [reflexivity|]. split; [reflexivity|]. simpl.
    repeat split; intros; try assumption; try reflexivity; try discriminate.
    contradiction.
Qed.

Lemma registration_status_follows_magic_link_witness :
  let link := {| Register.MagicLink.id := "link-1";
                 Register.MagicLink.token := "welcome";
                 Register.MagicLink.isEnabled := true |} in
  let db := {| Register.Tables.user := Returned [];
               Register.Tables.globalMagicLink := Returned [link];
               Register.Tables.magicLinkUsage := Returned [] |} in
  let f := {| Register.Form.email := Some "ana@example.org";
              Register.Form.password := Some "secret";
              Register.Form.name := Some "Ana";
              Register.Form.note := None;
              Register.Form.magicToken := Some "welcome" |} in
  exists resp db' users u,
    Register.POST (fun s _ => s) "u-1" "u-2" db f = Returned (resp, db')
    /\ Register.Tables.user db' = Returned (users ++ [u])%list
    /\ Register.User.status u = "approved"
    /\ Register.Reply.requiresApproval (Register.body resp) = Some false.
Proof.
  intros link db f.
  destruct (Register.POST (fun s _ => s) "u-1" "u-2" db f) as [[resp db']|] eqn:Hpost;
    [|discriminate Hpost].
  assert (Huniq : unique_tokens db).
  { intros rows H. injection H as <-. simpl.
    constructor; [intros []|constructor]. }
  assert (Hok : Register.status resp = 200%nat).
  { vm_compute in Hpost. injection Hpost as <- _. reflexivity. }
  destruct (registration_status_follows_magic_link (fun s _ => s) "u-1" "u-2"
              db db' f resp Huniq Hpost Hok)
    as (users & u & _ & Hdb' & Happroved & _ & _ & Hreply).
  assert (Hstatus : Register.User.status u = "approved").
  { apply Happroved. exists "welcome", [link], link.
    repeat split. left. reflexivity. }
  exists resp, db', users, u.
  split; [reflexivity|]. split; [exact Hdb'|]. split; [exact Hstatus|].
  apply Hreply. exact Hstatus.
Defined.

(** ** The quantity-only route and the checkout page *)

(** The quantity-only route takes a quantity of 0 for a missing one. *)
Lemma quantity_route_rejects_zero (db : Db.t) (b : Body.t) (q : Q) :
  Body.requestedQuantity b = Some q -> q == 0 ->
  NextResponse.status (InventoryCheckQuantity.POST db (request_of b)) = 400%nat.
Proof.
  intros Hq Hzero. unfold InventoryCheckQuantity.POST, request_of. simpl.
  rewrite Hq. unfold Js.truthy_num.
  apply Qeq_bool_iff in Hzero. rewrite Hzero. simpl.
  destruct (Js.truthy_string (Body.productId b)); reflexivity.
Qed.

(** With stock management off the checkout page finds no stock error. *)
Lemma checkout_disabled (db : Db.t) (items : list CartItem.t) :
  InventoryCheck.getStockManagementSetting db = false ->
  (forall item, In item items ->
     Js.truthy_str (Product.id (CartItem.product item)) = true) ->
  Checkout.validateStock db items = [].
Proof.
  intros Hoff Hids. unfold Checkout.validateStock.
  induction items as [|item items IH]; [reflexivity|].
  simpl. rewrite IH by (intros i Hi; apply Hids; right; exact Hi).
  rewrite app_nil_r. unfold Checkout.validateItem.
  match goal with
  | |- context [InventoryCheck.POST db {| NextRequest.json := Returned ?b |}] =>
      change {| NextRequest.json := Returned b |} with (request_of b);
      rewrite (POST_disabled db b (Product.id (CartItem.product item)))
  end.
  - reflexivity.
  - simpl. rewrite (Hids item (or_introl eq_refl)). reflexivity.
  - exact Hoff.
Qed.

(** * Further properties of the code *)

(** ** The inventory-check route *)

Lemma check_enabled_cases (db : Db.t) (b : Body.t) (productId : string) :
  let c := InventoryCheck.check_enabled db b productId in
  c = Raised
  \/ (exists e st, c = Returned (NextResponse.json_status (Json.of_error e) st)
                   /\ (st = 400%nat \/ st = 404%nat))
  \/ (exists row, productLookup db productId = Returned (Some row)
        /\ (c = Returned (NextResponse.json
                  (InventoryCheck.no_record_response b (InventoryCheck.isWeightBased row)))
            \/ exists inv,
                 c = Returned (NextResponse.json
                        (if InventoryCheck.isWeightBased row
                         then InventoryCheck.weight_response b inv
                         else InventoryCheck.quantity_response b inv)))).
Proof.
  intro c. subst c.
  destruct (productLookup db productId) as [[row|]|] eqn:Hrow.
  - destruct (requestedField (InventoryCheck.isWeightBased row) b) as [q|] eqn:Hf.
    + rewrite (check_enabled_validated db b productId row Hrow q Hf).
      destruct (inventoryLookup db productId (Body.variantId b)) as [[|inv rest]|];
        simpl.
      * right. right. exists row. split; [reflexivity|]. left. reflexivity.
      * right. right. exists row. split; [reflexivity|]. right. exists inv.
        destruct (InventoryCheck.isWeightBased row); reflexivity.
      * left. reflexivity.
    + right. left. unfold InventoryCheck.check_enabled.
      unfold productLookup in Hrow. rewrite Hrow. simpl.
      unfold requestedField in Hf.
      destruct (InventoryCheck.isWeightBased row); simpl; rewrite Hf; simpl;
        eexists _, _; (split; [reflexivity|left; reflexivity]).
  - right. left. unfold InventoryCheck.check_enabled.
    unfold productLookup in Hrow. rewrite Hrow. simpl.
    eexists _, _. split; [reflexivity|right; reflexivity].
  - left. unfold InventoryCheck.check_enabled.
    unfold productLookup in Hrow. rewrite Hrow. reflexivity.
Qed.

Lemma POST_answer_cases (db : Db.t) (req : NextRequest.t) :
  let r := InventoryCheck.POST db req in
  (NextResponse.status r = 200%nat \/ NextResponse.status r = 400%nat
   \/ NextResponse.status r = 404%nat \/ NextResponse.status r = 500%nat)
  /\ (Json.error (NextResponse.body r) = None <-> NextResponse.status r = 200%nat)
  /\ (Json.available (NextResponse.body r) <> None <-> NextResponse.status r = 200%nat).
Proof.
  intro r. subst r. destruct req as [[b|]].
  2:{ simpl. repeat split; auto; try discriminate. intro H. exfalso. apply H. reflexivity. }
  unfold InventoryCheck.POST. simpl.
  destruct (Js.truthy_string (Body.productId b)) as [pid|].
  2:{ simpl. repeat split; auto; try discriminate. intro H. exfalso. apply H. reflexivity. }
  destruct (InventoryCheck.getStockManagementSetting db); simpl.
  2:{ repeat split; auto; discriminate. }
  destruct (check_enabled_cases db b pid)
    as [-> | [(e & st & -> & Hst) | (row & _ & [-> | (inv & ->)])]]; simpl.
  - repeat split; auto; try discriminate. intro H. exfalso. apply H. reflexivity.
  - destruct Hst as [-> | ->]; repeat split; auto; try discriminate;
      intro H; exfalso; apply H; reflexivity.
  - repeat split; auto; discriminate.
  - destruct (InventoryCheck.isWeightBased row); simpl; repeat split; auto; discriminate.
Qed.

(** X1. Every answer of the inventory check has status 200, 400, 404 or
    500; it carries an error text exactly when the status is not 200, and a
    verdict [available] exactly when the status is 200. *)
Theorem inventory_check_answers (db : Db.t) (req : NextRequest.t) :
  let r := InventoryCheck.POST db req in
  (NextResponse.status r = 200%nat \/ NextResponse.status r = 400%nat
   \/ NextResponse.status r = 404%nat \/ NextResponse.status r = 500%nat)
  /\ (Json.error (NextResponse.body r) = None <-> NextResponse.status r = 200%nat)
  /\ (Json.available (NextResponse.body r) <> None <-> NextResponse.status r = 200%nat).
Proof.
  intro r. subst r. destruct req as [[b|]].
  2:{ simpl. repeat split; auto; try discriminate. intro H. exfalso. apply H. reflexivity. }
  unfold InventoryCheck.POST. simpl.
  destruct (Js.truthy_string (Body.productId b)) as [pid|].
  2:{ simpl. repeat split; auto; try discriminate. intro H. exfalso. apply H. reflexivity. }
  destruct (InventoryCheck.getStockManagementSetting db); simpl.
  2:{ repeat split; auto; discriminate. }
  destruct (check_enabled_cases db b pid)
    as [-> | [(e & st & -> & Hst) | (row & _ & [-> | (inv & ->)])]]; simpl.
  - repeat split; auto; try discriminate. intro H. exfalso. apply H. reflexivity.
  - destruct Hst as [-> | ->]; repeat split; auto; try discriminate;
      intro H; exfalso; apply H; reflexivity.
  - repeat split; auto; discriminate.
  - destruct (InventoryCheck.isWeightBased row); simpl; repeat split; auto; discriminate.
Qed.

Lemma firstn1_filter_cases {A : Type} (p : A -> bool) (rows : list A)
  (x : A) (rest : list A) :
  firstn 1 (filter p rows) = x :: rest ->
  rest = [] /\ In x rows /\ p x = true
  /\ find p rows = Some x.
Proof.
  intro H.
  assert (Hfind : find p rows = hd_error (filter p rows)).
  { clear H. induction rows as [|a rows IH]; [reflexivity|].
    simpl. destruct (p a); [reflexivity|exact IH]. }
  destruct (filter p rows) as [|y ys] eqn:Hf; [discriminate|].
  simpl in H. injection H as <- <-.
  assert (Hin : In y (filter p rows)) by (rewrite Hf; left; reflexivity).
  apply filter_In in Hin. destruct Hin as (Hin & Hp).
  repeat split; try assumption.
Qed.

(** X2. The inventory record the route evaluates is a row of the inventory
    table for the requested product, and for the requested variant when the
    request names one; the lookup hands over at most one row, the first
    that fits. Without a variant in the request any row of the product
    fits, whatever its variant. *)
Theorem inventory_record_fits_request
  (db : Db.t) (productId : string) (variantId : option string)
  (inv : Inventory.t) (found : list Inventory.t) :
  inventoryLookup db productId variantId = Returned (inv :: found) ->
  found = []
  /\ Inventory.productId inv = productId
  /\ (forall v, Js.truthy_string variantId = Some v -> Inventory.variantId inv = Some v)
  /\ exists rows,
       Db.productInventory db = Returned rows
       /\ In inv rows
       /\ find (InventoryCheck.whereConditions productId variantId) rows = Some inv
       /\ (Js.truthy_string variantId = None ->
           find (fun r => String.eqb (Inventory.productId r) productId) rows = Some inv).
Proof.
  unfold inventoryLookup, Db.select_limit1.
  destruct (Db.productInventory db) as [rows|]; [|discriminate].
  simpl. intro H. injection H as H.
  apply firstn1_filter_cases in H. destruct H as (-> & Hin & Hp & Hfind).
  unfold InventoryCheck.whereConditions in Hp.
  split; [reflexivity|].
  destruct (Js.truthy_string variantId) as [v|] eqn:Hv.
  - apply andb_true_iff in Hp. destruct Hp as (Hp & Hvar).
    apply String.eqb_eq in Hp. split; [exact Hp|]. split.
    + intros v' E. injection E as <-.
      unfold Db.eq_nullable in Hvar.
      destruct (Inventory.variantId inv) as [c|]; [|discriminate].
      apply String.eqb_eq in Hvar. subst c. reflexivity.
    + exists rows. repeat split; try assumption. discriminate.
  - apply String.eqb_eq in Hp. split; [exact Hp|]. split; [discriminate|].
    exists rows. repeat split; try assumption.
    intros _. rewrite <- Hfind. clear - Hv.
    induction rows as [|a rows IH]; [reflexivity|].
    simpl. unfold InventoryCheck.whereConditions at 1. rewrite Hv.
    destruct (String.eqb (Inventory.productId a) productId); [reflexivity|exact IH].
Qed.

Lemma inventory_record_fits_request_witness :
  let red := {| Inventory.productId := "apples"; Inventory.variantId := Some "red";
                Inventory.availableQuantity := Some 4; Inventory.availableWeight := None |} in
  let db := Shop.db Shop.enabled [Shop.stock "rice" 0 700; Shop.stock "apples" 9 0; red] in
  inventoryLookup db "apples" (Some "red") = Returned [red]
  /\ Inventory.productId red = "apples"
  /\ Inventory.variantId red = Some "red".
Proof.
  intros red db. split; [reflexivity|].
  destruct (inventory_record_fits_request db "apples" (Some "red") red [] eq_refl)
    as (_ & Hp & Hv & _).
  split; [exact Hp | exact (Hv "red" eq_refl)].
Defined.

(** X3. Availability is monotone. With stock management on, for two
    requests for the same product and variant, if the larger amount is
    available then so is the smaller one. *)
Theorem availability_is_monotone
  (db : Db.t) (b b' : Body.t) (productId : string) (row : ProductRow.t) (q q' : Q) :
  InventoryCheck.getStockManagementSetting db = true ->
  Js.truthy_string (Body.productId b) = Some productId ->
  Js.truthy_string (Body.productId b') = Some productId ->
  Body.variantId b' = Body.variantId b ->
  productLookup db productId = Returned (Some row) ->
  requestedField (InventoryCheck.isWeightBased row) b = Some q ->
  requestedField (InventoryCheck.isWeightBased row) b' = Some q' ->
  q' <= q ->
  Json.available (NextResponse.body (InventoryCheck.POST db (request_of b))) = Some true ->
  Json.available (NextResponse.body (InventoryCheck.POST db (request_of b'))) = Some true.
Proof.
  intros Hon Hid Hid' Hvar Hrow Hq Hq' Hle.
  destruct (inventoryLookup db productId (Body.variantId b)) as [[|inv rest]|] eqn:Hinv.
  - rewrite (POST_no_record db b productId Hid Hon row Hrow q Hq Hinv). discriminate.
  - rewrite (POST_record db b productId Hid Hon row Hrow q Hq inv rest Hinv).
    rewrite <- Hvar in Hinv.
    rewrite (POST_record db b' productId Hid' Hon row Hrow q' Hq' inv rest Hinv).
    cbn [NextResponse.json NextResponse.body].
    destruct (route_record_fields b inv _ q Hq) as (_ & ->).
    destruct (route_record_fields b' inv _ q' Hq') as (_ & ->).
    intro H. injection H as H. f_equal.
    apply ge_requested_iff in H. apply ge_requested_iff. lra.
  - rewrite (POST_enabled db b productId Hid Hon),
      (check_enabled_validated db b productId row Hrow q Hq), Hinv.
    discriminate.
Qed.

Lemma availability_is_monotone_witness :
  let db := Shop.db Shop.enabled [Shop.stock "apples" 10 0] in
  Json.available
    (NextResponse.body (InventoryCheck.POST db (request_of (Shop.quantity_request "apples" 4))))
  = Some true.
Proof.
  intro db.
  apply (availability_is_monotone db (Shop.quantity_request "apples" 10)
           (Shop.quantity_request "apples" 4) "apples" Shop.apples 10 4);
    try reflexivity.
  vm_compute. discriminate.
Defined.

Lemma or_num_truthy (q d : Q) : Js.truthy_num q = true -> Js.or_num (Some q) d = q.
Proof. intro H. unfold Js.or_num. rewrite H. reflexivity. Qed.

Lemma truthy_num_iff (q : Q) : Js.truthy_num q = true <-> ~ q == 0.
Proof.
  unfold Js.truthy_num. rewrite negb_true_iff. split.
  - intros H E. apply Qeq_bool_iff in E. congruence.
  - intro H. destruct (Qeq_bool q 0) eqn:E; [|reflexivity].
    apply Qeq_bool_iff in E. contradiction.
Qed.

Lemma versions_agree (db : Db.t) (b : Body.t) (q : Q) :
  Body.requestedQuantity b = Some q ->
  ~ q == 0 ->
  quantity_based db b ->
  same_answer (InventoryCheck.POST db (request_of b))
              (InventoryCheckQuantity.POST db (request_of b)).
Proof.
  intros Hq Hnz Hquantity. apply truthy_num_iff in Hnz.
  unfold InventoryCheckQuantity.POST.
  change (NextRequest.json (request_of b)) with (Returned b).
  cbn [bind]. rewrite Hq, Hnz. cbn [negb].
  change (InventoryCheckQuantity.getStockManagementSetting db)
    with (InventoryCheck.getStockManagementSetting db).
  destruct (Js.truthy_string (Body.productId b)) as [pid|] eqn:Hid.
  2:{ rewrite (POST_no_product_id db b Hid). repeat split.
      intro H. exfalso. apply H. reflexivity. }
  destruct (InventoryCheck.getStockManagementSetting db) eqn:Hon; cbn [negb].
  2:{ rewrite (POST_disabled db b pid Hid Hon). unfold same_answer. simpl.
      rewrite Hq, (or_num_truthy q 0 Hnz). repeat split. }
  unfold InventoryCheckQuantity.check_enabled.
  change (InventoryCheckQuantity.whereConditions pid (Body.variantId b))
    with (InventoryCheck.whereConditions pid (Body.variantId b)).
  destruct (productLookup db pid) as [[row|]|] eqn:Hrow.
  - pose proof (Hquantity pid row Hid Hrow) as Hmode.
    assert (Hf : requestedField (InventoryCheck.isWeightBased row) b = Some q)
      by (rewrite Hmode; exact Hq).
    rewrite (POST_enabled db b pid Hid Hon),
      (check_enabled_validated db b pid row Hrow q Hf).
    unfold productLookup in Hrow. rewrite Hrow. simpl.
    fold (inventoryLookup db pid (Body.variantId b)).
    destruct (inventoryLookup db pid (Body.variantId b)) as [[|inv rest]|]; simpl.
    + unfold same_answer. simpl. rewrite Hq, (or_num_truthy q 0 Hnz). repeat split.
    + rewrite Hmode. unfold same_answer. simpl.
      rewrite Hq, (or_num_truthy q 0 Hnz). repeat split.
    + repeat split.
  - rewrite (POST_unknown_product db b pid Hid Hon Hrow).
    unfold productLookup in Hrow. rewrite Hrow. repeat split.
  - rewrite (POST_enabled db b pid Hid Hon). unfold InventoryCheck.check_enabled.
    unfold productLookup in Hrow. rewrite Hrow. repeat split.
Qed.

(** X4. For a product that is not weight-based and a requested quantity
    other than 0, the quantity-only version of the route and the weight-aware
    version give the same status, verdict, available quantity and message,
    and the same error text but for the wording of the 400 answer, on every
    path: setting off, product unknown, no record, record found, or a lookup
    that throws. *)
Theorem route_versions_agree_on_quantities (db : Db.t) (b : Body.t) (q : Q) :
  Body.requestedQuantity b = Some q ->
  ~ q == 0 ->
  quantity_based db b ->
  same_answer (InventoryCheck.POST db (request_of b))
              (InventoryCheckQuantity.POST db (request_of b)).
Proof.
  intros Hq Hnz Hquantity. apply truthy_num_iff in Hnz.
  unfold InventoryCheckQuantity.POST.
  change (NextRequest.json (request_of b)) with (Returned b).
  cbn [bind]. rewrite Hq, Hnz. cbn [negb].
  change (InventoryCheckQuantity.getStockManagementSetting db)
    with (InventoryCheck.getStockManagementSetting db).
  destruct (Js.truthy_string (Body.productId b)) as [pid|] eqn:Hid.
  2:{ rewrite (POST_no_product_id db b Hid). repeat split.
      intro H. exfalso. apply H. reflexivity. }
  destruct (InventoryCheck.getStockManagementSetting db) eqn:Hon; cbn [negb].
  2:{ rewrite (POST_disabled db b pid Hid Hon). unfold same_answer. simpl.
      rewrite Hq, (or_num_truthy q 0 Hnz). repeat split. }
  unfold InventoryCheckQuantity.check_enabled.
  change (InventoryCheckQuantity.whereConditions pid (Body.variantId b))
    with (InventoryCheck.whereConditions pid (Body.variantId b)).
  destruct (productLookup db pid) as [[row|]|] eqn:Hrow.
  - pose proof (Hquantity pid row Hid Hrow) as Hmode.
    assert (Hf : requestedField (InventoryCheck.isWeightBased row) b = Some q)
      by (rewrite Hmode; exact Hq).
    rewrite (POST_enabled db b pid Hid Hon),
      (check_enabled_validated db b pid row Hrow q Hf).
    unfold productLookup in Hrow. rewrite Hrow. simpl.
    fold (inventoryLookup db pid (Body.variantId b)).
    destruct (inventoryLookup db pid (Body.variantId b)) as [[|inv rest]|]; simpl.
    + unfold same_answer. simpl. rewrite Hq, (or_num_truthy q 0 Hnz). repeat split.
    + rewrite Hmode. unfold same_answer. simpl.
      rewrite Hq, (or_num_truthy q 0 Hnz). repeat split.
    + repeat split.
  - rewrite (POST_unknown_product db b pid Hid Hon Hrow).
    unfold productLookup in Hrow. rewrite Hrow. repeat split.
  - rewrite (POST_enabled db b pid Hid Hon). unfold InventoryCheck.check_enabled.
    unfold productLookup in Hrow. rewrite Hrow. repeat split.
Qed.

Lemma route_versions_agree_on_quantities_witness :
  let db := Shop.db Shop.enabled [Shop.stock "apples" 3 0] in
  same_answer (InventoryCheck.POST db (request_of (Shop.quantity_request "apples" 5)))
              (InventoryCheckQuantity.POST db (request_of (Shop.quantity_request "apples" 5))).
Proof.
  intro db.
  apply (route_versions_agree_on_quantities db (Shop.quantity_request "apples" 5) 5).
  - reflexivity.
  - vm_compute. discriminate.
  - intros pid row Hid Hrow. injection Hid as <-.
    vm_compute in Hrow. injection Hrow as <-. reflexivity.
Defined.

(** ** The cart hook *)

Lemma hook_request (db : Db.t) (items : list CartItem.t) (product : Product.t)
  (quantity_arg weightInGrams : option Q) :
  let r := InventoryCheck.POST db
             (request_of (UseCart.request product (quantity_of quantity_arg) weightInGrams)) in
  UseCart.addToCartWithToast db items product quantity_arg weightInGrams
  = if negb (NextResponse.ok r)
    then rejected "Error"
           (Plain (Js.or_str (Json.error (NextResponse.body r)) "Failed to check inventory"))
           3000
    else if negb (Js.truthy_bool (Json.available (NextResponse.body r)))
    then rejected "Insufficient stock"
           (Message
              (if strict_eq_str (Product.stockManagementType product) "weight"
               then or_msg (Json.message (NextResponse.body r))
                      (OnlyGramsAvailable (Json.availableWeight (NextResponse.body r)))
               else or_msg (Json.message (NextResponse.body r))
                      (OnlyUnitsAvailable (Json.availableQuantity (NextResponse.body r)))))
           3000
    else UseCart.checkTotal items product (quantity_of quantity_arg) weightInGrams
           (NextResponse.body r).
Proof. reflexivity. Qed.

Lemma ok_iff_200 (db : Db.t) (req : NextRequest.t) :
  NextResponse.ok (InventoryCheck.POST db req) = true
  <-> NextResponse.status (InventoryCheck.POST db req) = 200%nat.
Proof.
  destruct (POST_answer_cases db req) as (Hst & _). unfold NextResponse.ok.
  destruct Hst as [-> | [-> | [-> | ->]]]; split; try reflexivity; discriminate.
Qed.

(** X5. The hook calls [cart.addToCart] only after the route has answered
    with status 200 and [available = true]: on an input error, an unknown
    product, a lookup that throws or an unavailable amount nothing is added
    to the cart. *)
Theorem hook_adds_only_when_available
  (db : Db.t) (items : list CartItem.t) (product : Product.t)
  (quantity_arg weightInGrams : option Q) :
  Outcome.addToCart
    (UseCart.addToCartWithToast db items product quantity_arg weightInGrams) <> None ->
  let r := InventoryCheck.POST db
             (request_of (UseCart.request product (quantity_of quantity_arg) weightInGrams)) in
  NextResponse.status r = 200%nat
  /\ Json.available (NextResponse.body r) = Some true.
Proof.
  rewrite hook_request. intros H r. fold r in H.
  destruct (NextResponse.ok r) eqn:Hok; simpl in H; [|exfalso; apply H; reflexivity].
  split; [apply ok_iff_200; exact Hok|].
  destruct (Json.available (NextResponse.body r)) as [[|]|]; simpl in H;
    [reflexivity | exfalso; apply H; reflexivity | exfalso; apply H; reflexivity].
Qed.

Lemma hook_adds_only_when_available_witness :
  let db := Shop.db Shop.enabled [Shop.stock "apples" 10 0] in
  NextResponse.status
    (InventoryCheck.POST db
       (request_of (UseCart.request Shop.apples_client (quantity_of (Some 2)) None)))
  = 200%nat.
Proof.
  intro db.
  refine (proj1 (hook_adds_only_when_available db [] Shop.apples_client (Some 2) None _)).
  vm_compute. discriminate.
Defined.

Lemma hook_lookup_fails
  (db : Db.t) (items : list CartItem.t) (product : Product.t)
  (quantity_arg weightInGrams : option Q) (row : ProductRow.t) :
  InventoryCheck.getStockManagementSetting db = true ->
  same_product db product row ->
  recordsOf db product = Raised ->
  UseCart.addToCartWithToast db items product quantity_arg weightInGrams
  = rejected "Error" (Plain "Failed to check inventory") 3000.
Proof.
  intros Hon Hsame Hrec. pose proof Hsame as (Hid & Hrow & Hmode).
  rewrite hook_request.
  set (req := UseCart.request product (quantity_of quantity_arg) weightInGrams).
  assert (Hpid : Js.truthy_string (Body.productId req) = Some (Product.id product)).
  { unfold req. simpl. rewrite Hid. reflexivity. }
  rewrite (POST_enabled db req _ Hpid Hon).
  rewrite (check_enabled_validated db req _ row Hrow _
             (hook_field db product quantity_arg weightInGrams row Hsame)).
  change (inventoryLookup db (Product.id product) (Body.variantId req))
    with (recordsOf db product).
  rewrite Hrec. reflexivity.
Qed.

(** X6. With stock management on and a product the client and the products
    table agree on, the hook adds to the cart exactly when an inventory
    record is found and both the requested amount and the total (already in
    the cart plus requested) are at most the available amount: it never
    adds beyond the stock it was told of. *)
Theorem hook_adds_iff_total_within_stock
  (db : Db.t) (items : list CartItem.t) (product : Product.t)
  (quantity_arg weightInGrams : option Q) (row : ProductRow.t) :
  InventoryCheck.getStockManagementSetting db = true ->
  same_product db product row ->
  let weight := InventoryCheck.isWeightBased row in
  let requested := requestedAmount weight (quantity_of quantity_arg) weightInGrams in
  let existing := existingCommitment weight items product in
  Outcome.addToCart
    (UseCart.addToCartWithToast db items product quantity_arg weightInGrams) <> None
  <-> exists inv rest,
        recordsOf db product = Returned (inv :: rest)
        /\ requested <= availableAmount weight inv
        /\ existing + requested <= availableAmount weight inv.
Proof.
  intros Hon Hsame weight requested existing.
  destruct (recordsOf db product) as [[|inv rest]|] eqn:Hrec.
  - rewrite (hook_no_record db items product quantity_arg weightInGrams row Hon Hsame Hrec).
    split; [intro H; exfalso; apply H; reflexivity|].
    intros (i & r & H & _). discriminate.
  - rewrite (hook_record db items product quantity_arg weightInGrams row Hon Hsame
               inv rest Hrec).
    fold weight. fold requested. fold existing.
    set (available := availableAmount weight inv).
    destruct (Js.ge available (Js.or_num (Some requested) 0)) eqn:Hge; simpl.
    + apply ge_requested_iff in Hge.
      destruct (Js.gt (existing + requested) available) eqn:Hgt.
      * apply gt_iff in Hgt. split.
        -- destruct (Js.gt (available - existing) 0); simpl;
             intro H; exfalso; apply H; reflexivity.
        -- intros (i & r & E & _ & Htot). injection E as <- <-.
           fold available in Htot. exfalso. apply (Qlt_not_le _ _ Hgt Htot).
      * apply gt_false_iff in Hgt. split.
        -- intros _. exists inv, rest. repeat split; assumption.
        -- intros _. simpl. discriminate.
    + apply ge_requested_false_iff in Hge. split.
      * intro H. exfalso. apply H. reflexivity.
      * intros (i & r & E & Hle & _). injection E as <- <-.
        fold available in Hle. exfalso. apply (Qlt_not_le _ _ Hge Hle).
  - rewrite (hook_lookup_fails db items product quantity_arg weightInGrams row Hon Hsame Hrec).
    split; [intro H; exfalso; apply H; reflexivity|].
    intros (i & r & H & _). discriminate.
Qed.

Lemma hook_adds_iff_total_within_stock_witness :
  Outcome.addToCart
    (UseCart.addToCartWithToast (Shop.db Shop.enabled [Shop.stock "rice" 0 1000])
       [Shop.line Shop.rice_client 2 (Some 200)] Shop.rice_client (Some 1) (Some 500))
  <> None.
Proof.
  apply (hook_adds_iff_total_within_stock
           (Shop.db Shop.enabled [Shop.stock "rice" 0 1000])
           [Shop.line Shop.rice_client 2 (Some 200)] Shop.rice_client
           (Some 1) (Some 500) Shop.rice eq_refl).
  - repeat split.
  - exists (Shop.stock "rice" 0 1000), []. split; [reflexivity|].
    split; vm_compute; discriminate.
Defined.

(** X7. When the client holds a product under the other mode than the
    products table does (weight-based on one side, quantity-based on the
    other), the request lacks the field the route asks for: with stock
    management on the route answers 400 and the hook shows the error and
    adds nothing. *)
Theorem hook_with_stale_mode_is_refused
  (db : Db.t) (items : list CartItem.t) (product : Product.t)
  (quantity_arg weightInGrams : option Q) (row : ProductRow.t) :
  InventoryCheck.getStockManagementSetting db = true ->
  Js.truthy_str (Product.id product) = true ->
  productLookup db (Product.id product) = Returned (Some row) ->
  strict_eq_str (Product.stockManagementType product) "weight"
  = negb (InventoryCheck.isWeightBased row) ->
  UseCart.addToCartWithToast db items product quantity_arg weightInGrams
  = rejected "Error"
      (Plain (if InventoryCheck.isWeightBased row
              then "Requested weight is required for weight-based products"
              else "Requested quantity is required for quantity-based products"))
      3000.
Proof.
  intros Hon Hid Hrow Hmode. rewrite hook_request.
  set (req := UseCart.request product (quantity_of quantity_arg) weightInGrams).
  assert (Hpid : Js.truthy_string (Body.productId req) = Some (Product.id product)).
  { unfold req. simpl. rewrite Hid. reflexivity. }
  rewrite (POST_enabled db req _ Hpid Hon).
  unfold InventoryCheck.check_enabled.
  unfold productLookup in Hrow. rewrite Hrow. cbn [bind].
  unfold req, UseCart.request. rewrite Hmode.
  destruct (InventoryCheck.isWeightBased row); reflexivity.
Qed.

Lemma hook_with_stale_mode_is_refused_witness :
  let stale := {| Product.id := "rice"; Product.name := "Rice";
                  Product.variantId := None;
                  Product.stockManagementType := Some "quantity" |} in
  Outcome.addToCart
    (UseCart.addToCartWithToast (Shop.db Shop.enabled [Shop.stock "rice" 0 1000])
       [] stale (Some 1) None) = None.
Proof.
  intro stale.
  rewrite (hook_with_stale_mode_is_refused
             (Shop.db Shop.enabled [Shop.stock "rice" 0 1000]) [] stale (Some 1) None
             Shop.rice eq_refl eq_refl eq_refl eq_refl).
  reflexivity.
Defined.

(** X8. For a product with an identifier that is not weight-based on
    either side and a quantity other than 0, the quantity-only hook (with its route) and the
    weight-aware hook (with its route) do the same: same toast, same call of
    [cart.addToCart]. *)
Theorem hook_versions_agree_on_quantities
  (db : Db.t) (items : list CartItem.t) (product : Product.t) (quantity_arg : option Q) :
  Js.truthy_str (Product.id product) = true ->
  strict_eq_str (Product.stockManagementType product) "weight" = false ->
  ~ quantity_of quantity_arg == 0 ->
  quantity_based db (UseCartQuantity.request product (quantity_of quantity_arg)) ->
  UseCartQuantity.addToCartWithToast db items product quantity_arg
  = UseCart.addToCartWithToast db items product quantity_arg None.
Proof.
  intros Hid Hmode Hnz Hquantity.
  rewrite hook_request. unfold UseCartQuantity.addToCartWithToast.
  assert (Hreq : UseCart.request product (quantity_of quantity_arg) None
                 = UseCartQuantity.request product (quantity_of quantity_arg)).
  { unfold UseCart.request, UseCartQuantity.request. rewrite Hmode. reflexivity. }
  rewrite Hreq.
  set (b := UseCartQuantity.request product (quantity_of quantity_arg)) in *.
  change {| NextRequest.json := Returned b |} with (request_of b).
  destruct (versions_agree db b (quantity_of quantity_arg) eq_refl Hnz Hquantity)
    as (Hst & Herr & _ & Hav & Hen & Hq & _ & Hmsg).
  unfold NextResponse.ok. rewrite <- Hst.
  fold (NextResponse.ok (InventoryCheck.POST db (request_of b))).
  destruct (NextResponse.ok (InventoryCheck.POST db (request_of b))) eqn:Hok; simpl.
  - rewrite <- Hav, <- Hmsg, <- Hq, Hmode.
    destruct (Js.truthy_bool _); simpl; [|reflexivity].
    unfold UseCart.checkTotal, UseCartQuantity.checkTotal.
    rewrite Hmode, <- Hq, <- Hen. reflexivity.
  - rewrite <- Herr; [reflexivity|].
    intro H400. apply POST_400_iff in H400.
    destruct H400 as [Hnone | (pid & row & Hp & _ & Hr & Hmiss)].
    + unfold b in Hnone. simpl in Hnone. rewrite Hid in Hnone. discriminate.
    + rewrite (Hquantity pid row Hp Hr) in Hmiss. discriminate.
Qed.

Lemma hook_versions_agree_on_quantities_witness :
  let db := Shop.db Shop.enabled [Shop.stock "apples" 10 0] in
  UseCartQuantity.addToCartWithToast db [Shop.line Shop.apples_client 8 None]
    Shop.apples_client (Some 5)
  = UseCart.addToCartWithToast db [Shop.line Shop.apples_client 8 None]
      Shop.apples_client (Some 5) None.
Proof.
  intro db.
  apply (hook_versions_agree_on_quantities db [Shop.line Shop.apples_client 8 None]
           Shop.apples_client (Some 5)).
  - reflexivity.
  - reflexivity.
  - vm_compute. discriminate.
  - intros pid row Hid Hrow. injection Hid as <-.
    vm_compute in Hrow. injection Hrow as <-. reflexivity.
Defined.

(** ** The checkout page *)

Lemma validateItem_request (db : Db.t) (item : CartItem.t) :
  let product := CartItem.product item in
  let weight := strict_eq_str (Product.stockManagementType product) "weight" in
  let b := UseCart.request product (Js.or_num (Some (CartItem.quantity item)) 0)
             (CartItem.numericValue item) in
  let r := InventoryCheck.POST db (request_of b) in
  Checkout.validateItem db item
  = if negb (NextResponse.ok r) || negb (Js.truthy_bool (Json.available (NextResponse.body r)))
    then if weight
         then Some (Checkout.InsufficientWeight
                      (Js.or_str (Some (Product.name product)) "Unknown Product")
                      (lineAmount true item)
                      (Js.or_num (Json.availableWeight (NextResponse.body r)) 0))
         else Some (Checkout.InsufficientQuantity
                      (Js.or_str (Some (Product.name product)) "Unknown Product")
                      (lineAmount false item)
                      (Js.or_num (Json.availableQuantity (NextResponse.body r)) 0))
    else None.
Proof. reflexivity. Qed.

(** X9. With stock management on, a product the client and the products
    table agree on and an inventory record found, the checkout page passes a
    cart line exactly when the amount it asks about is at most the available
    amount. For a weight-based line that amount is the weight of one unit
    ([numericValue], when it is set and not 0), whatever the count of the
    line: the count is not multiplied in. *)
Theorem checkout_passes_line_iff_within_stock
  (db : Db.t) (item : CartItem.t) (row : ProductRow.t)
  (inv : Inventory.t) (rest : list Inventory.t) :
  InventoryCheck.getStockManagementSetting db = true ->
  same_product db (CartItem.product item) row ->
  recordsOf db (CartItem.product item) = Returned (inv :: rest) ->
  let weight := InventoryCheck.isWeightBased row in
  (Checkout.validateItem db item = None
   <-> lineAmount weight item <= availableAmount weight inv)
  /\ (forall w, weight = true -> CartItem.numericValue item = Some w -> ~ w == 0 ->
        (Checkout.validateItem db item = None <-> w <= availableAmount true inv)).
Proof.
  intros Hon Hsame Hrec weight. pose proof Hsame as (Hid & Hrow & Hmode).
  assert (Hmain : Checkout.validateItem db item = None
                  <-> lineAmount weight item <= availableAmount weight inv).
  { rewrite validateItem_request.
    set (b := UseCart.request (CartItem.product item)
                (Js.or_num (Some (CartItem.quantity item)) 0) (CartItem.numericValue item)).
    assert (Hpid : Js.truthy_string (Body.productId b)
                   = Some (Product.id (CartItem.product item))).
    { unfold b. simpl. rewrite Hid. reflexivity. }
    assert (Hf : requestedField weight b = Some (lineAmount weight item)).
    { unfold weight, b, UseCart.request, requestedField, lineAmount.
      rewrite Hmode. destruct (InventoryCheck.isWeightBased row); reflexivity. }
    rewrite (POST_record db b _ Hpid Hon row Hrow _ Hf inv rest Hrec).
    cbn [NextResponse.json NextResponse.body NextResponse.ok NextResponse.status
         Nat.leb andb negb orb].
    destruct (route_record_fields b inv weight _ Hf) as (_ & Hav).
    fold weight. rewrite Hav. rewrite <- ge_requested_iff.
    cbn [Js.truthy_bool].
    destruct (Js.ge (availableAmount weight inv) (Js.or_num (Some (lineAmount weight item)) 0));
      simpl.
    - split; reflexivity.
    - rewrite Hmode. fold weight. destruct weight; split; discriminate. }
  split; [exact Hmain|].
  intros w Hw Hnum Hnz. rewrite Hmain, Hw. unfold lineAmount. rewrite Hnum.
  rewrite (or_num_truthy w _ (proj2 (truthy_num_iff w) Hnz)). reflexivity.
Qed.

Lemma checkout_passes_line_iff_within_stock_witness :
  Checkout.validateItem (Shop.db Shop.enabled [Shop.stock "rice" 0 500])
    (Shop.line Shop.rice_client 3 (Some 400)) = None.
Proof.
  apply (proj2 (checkout_passes_line_iff_within_stock
                  (Shop.db Shop.enabled [Shop.stock "rice" 0 500])
                  (Shop.line Shop.rice_client 3 (Some 400)) Shop.rice
                  (Shop.stock "rice" 0 500) [] eq_refl
                  (conj eq_refl (conj eq_refl eq_refl)) eq_refl)
           400 eq_refl eq_refl).
  - vm_compute. discriminate.
  - vm_compute. discriminate.
Defined.

Lemma validateStock_nil_iff (db : Db.t) (items : list CartItem.t) :
  Checkout.validateStock db items = []
  <-> forall item, In item items -> Checkout.validateItem db item = None.
Proof.
  unfold Checkout.validateStock. induction items as [|item items IH]; simpl.
  - split; [intros _ i []|reflexivity].
  - destruct (Checkout.validateItem db item) as [e|] eqn:He; simpl.
    + split; [discriminate|]. intro H. specialize (H item (or_introl eq_refl)). congruence.
    + rewrite IH. split.
      * intros H i [<- | Hi]; [exact He | apply H; exact Hi].
      * intros H i Hi. apply H. right. exact Hi.
Qed.

(** X10. The checkout cannot be submitted while a line of the cart fails
    the stock validation: before the validation has run the submission only
    asks to wait; once it has run, the submission is refused exactly when
    some line was flagged, and in that case [processCheckout] is not called;
    otherwise the form is handed to [processCheckout]. *)
Theorem checkout_submission_is_gated
  (processCheckout :
     CheckoutPage.FormData.t -> CheckoutPage.CheckoutResult.t + option string)
  (orderSettings : CheckoutPage.OrderSettings.t)
  (db : Db.t) (items : list CartItem.t) (subtotal : Q)
  (data : CheckoutPage.CheckoutData.t) :
  let submit := CheckoutPage.handleCheckoutSubmit processCheckout orderSettings
                  items subtotal in
  let validated := fst (CheckoutPage.validateStockEffect db items CheckoutPage.initial) in
  submit CheckoutPage.initial data = CheckoutPage.PleaseWait
  /\ (submit validated data = CheckoutPage.CannotCompleteCheckout
      <-> exists item, In item items /\ Checkout.validateItem db item <> None)
  /\ ((forall item, In item items -> Checkout.validateItem db item = None) ->
      let form := CheckoutPage.formData orderSettings items subtotal data in
      (exists saved, submit validated data = CheckoutPage.OrderPlaced form saved
                     /\ exists result, processCheckout form = inl result
                          /\ CheckoutPage.CheckoutResult.success result = true)
      \/ (exists message, submit validated data = CheckoutPage.OrderFailed form message)).
Proof.
  intros submit validated. split; [reflexivity|].
  assert (Herrors : CheckoutPage.State.stockValidationErrors validated
                    = Checkout.validateStock db items)
    by (unfold validated; destruct items; reflexivity).
  assert (Hdone : CheckoutPage.State.isValidatingStock validated = false)
    by (unfold validated; destruct items; reflexivity).
  assert (Hsubmit : submit validated data
                    = CheckoutPage.handleCheckoutSubmit processCheckout orderSettings
                        items subtotal validated data) by reflexivity.
  unfold CheckoutPage.handleCheckoutSubmit in Hsubmit.
  rewrite Herrors, Hdone in Hsubmit.
  destruct (Checkout.validateStock db items) as [|e errors] eqn:Herr.
  - pose proof (proj1 (validateStock_nil_iff db items) Herr) as Hall.
    cbn [List.length Nat.ltb Nat.leb] in Hsubmit.
    split.
    + split.
      * rewrite Hsubmit. destruct (processCheckout _) as [result|message];
          [destruct (CheckoutPage.CheckoutResult.success result)|]; discriminate.
      * intros (item & Hin & Hflag). exfalso. apply Hflag. apply Hall. exact Hin.
    + intros _ form. fold form in Hsubmit.
      destruct (processCheckout form) as [result|message] eqn:Hpc.
      * destruct (CheckoutPage.CheckoutResult.success result) eqn:Hs.
        -- left. eexists. split; [exact Hsubmit|].
           exists result. split; [reflexivity | exact Hs].
        -- right. eexists. exact Hsubmit.
      * right. eexists. exact Hsubmit.
  - cbn [List.length Nat.ltb Nat.leb] in Hsubmit. split.
    + split; [intros _ | intros _; exact Hsubmit].
      clear - Herr. unfold Checkout.validateStock in Herr.
      induction items as [|i items' IH]; [discriminate|].
      simpl in Herr.
      destruct (Checkout.validateItem db i) as [e'|] eqn:Hi.
      * exists i. split; [left; reflexivity|]. rewrite Hi. discriminate.
      * simpl in Herr. destruct (IH Herr) as (item & Hin & Hflag).
        exists item. split; [right; exact Hin | exact Hflag].
    + intro Hall. apply validateStock_nil_iff in Hall. congruence.
Qed.

Lemma checkout_submission_is_gated_witness :
  let db := Shop.db Shop.enabled [Shop.stock "apples" 10 0] in
  let items := [Shop.line Shop.apples_client 3 None] in
  let settings := {| CheckoutPage.OrderSettings.minimumOrderValue := 0;
                     CheckoutPage.OrderSettings.deliveryFee := 4;
                     CheckoutPage.OrderSettings.shippingFee := 9 |} in
  let data := {| CheckoutPage.CheckoutData.paymentMethod := "cod";
                 CheckoutPage.CheckoutData.orderType := CheckoutPage.Delivery;
                 CheckoutPage.CheckoutData.customerInfo :=
                   {| CheckoutPage.CustomerInfo.name := "Ana";
                      CheckoutPage.CustomerInfo.email := "ana@example.org";
                      CheckoutPage.CustomerInfo.phone := "555" |};
                 CheckoutPage.CheckoutData.deliveryAddress := None;
                 CheckoutPage.CheckoutData.pickupLocationId := None;
                 CheckoutPage.CheckoutData.orderNotes := EmptyString;
                 CheckoutPage.CheckoutData.pointsToRedeem := None;
                 CheckoutPage.CheckoutData.pointsDiscountAmount := Some 2;
                 CheckoutPage.CheckoutData.useAllPoints := None |} in
  let validated := fst (CheckoutPage.validateStockEffect db items CheckoutPage.initial) in
  let form := CheckoutPage.formData settings items 30 data in
  let processCheckout : CheckoutPage.FormData.t
                        -> CheckoutPage.CheckoutResult.t + option string :=
    fun _ => inr None in
  let submit := CheckoutPage.handleCheckoutSubmit processCheckout settings items 30 in
  (exists saved, submit validated data = CheckoutPage.OrderPlaced form saved
                 /\ exists result, processCheckout form = inl result
                      /\ CheckoutPage.CheckoutResult.success result = true)
  \/ (exists message, submit validated data = CheckoutPage.OrderFailed form message).
Proof.
  intros db items settings data validated form processCheckout submit.
  apply (proj2 (proj2 (checkout_submission_is_gated processCheckout settings db
                         items 30 data))).
  intros item [<- | []]. reflexivity.
Defined.

(** X11. The total the checkout sends is the subtotal plus the fee of the
    order type (the delivery fee for a delivery, the shipping fee for a
    shipping, nothing for a pickup) minus the points discount; no tax is
    added, and the delivery fee and the shipping fee are never charged
    together. *)
Theorem checkout_total_sent
  (orderSettings : CheckoutPage.OrderSettings.t) (items : list CartItem.t)
  (subtotal : Q) (data : CheckoutPage.CheckoutData.t) :
  let form := CheckoutPage.formData orderSettings items subtotal data in
  CheckoutPage.FormData.total form
  == subtotal + feeOf orderSettings (CheckoutPage.CheckoutData.orderType data)
     - CheckoutPage.FormData.pointsDiscountAmount form
  /\ CheckoutPage.FormData.deliveryFee form + CheckoutPage.FormData.shippingFee form
     == feeOf orderSettings (CheckoutPage.CheckoutData.orderType data)
  /\ (CheckoutPage.FormData.deliveryFee form = 0
      \/ CheckoutPage.FormData.shippingFee form = 0).
Proof.
  intro form. subst form. unfold CheckoutPage.formData, feeOf. simpl.
  destruct (CheckoutPage.CheckoutData.orderType data); simpl;
    (split; [lra|]); (split; [lra|]); auto.
Qed.

(** X12. With stock management off, the checkout page flags no line of
    the cart, whatever the inventory holds, provided every line names its
    product. *)
Theorem checkout_flags_nothing_when_disabled (db : Db.t) (items : list CartItem.t) :
  InventoryCheck.getStockManagementSetting db = false ->
  (forall item, In item items ->
     Js.truthy_str (Product.id (CartItem.product item)) = true) ->
  Checkout.validateStock db items = [].
Proof.
  intros Hoff Hids. unfold Checkout.validateStock.
  induction items as [|item items IH]; [reflexivity|].
  simpl. rewrite IH by (intros i Hi; apply Hids; right; exact Hi).
  rewrite app_nil_r. unfold Checkout.validateItem.
  match goal with
  | |- context [InventoryCheck.POST db {| NextRequest.json := Returned ?b |}] =>
      change {| NextRequest.json := Returned b |} with (request_of b);
      rewrite (POST_disabled db b (Product.id (CartItem.product item)))
  end.
  - reflexivity.
  - simpl. rewrite (Hids item (or_introl eq_refl)). reflexivity.
  - exact Hoff.
Qed.

Lemma checkout_flags_nothing_when_disabled_witness :
  Checkout.validateStock (Shop.db [] [Shop.stock "apples" 1 0])
    [Shop.line Shop.apples_client 50 None; Shop.line Shop.rice_client 1 (Some 900)] = [].
Proof.
  apply (checkout_flags_nothing_when_disabled (Shop.db [] [Shop.stock "apples" 1 0])).
  - reflexivity.
  - intros item [<- | [<- | []]]; reflexivity.
Defined.

(** ** The other functions of the cart hook *)

Lemma findItem_none_iff (items : list CartItem.t) (productId : string) :
  CartTools.findItem items productId = None
  <-> CartTools.isInCart items productId = false.
Proof.
  unfold CartTools.findItem, CartTools.isInCart.
  induction items as [|item items IH]; simpl; [split; reflexivity|].
  destruct (String.eqb (Product.id (CartItem.product item)) productId); simpl.
  - split; discriminate.
  - exact IH.
Qed.

(** X13. A product that is not in the cart counts for nothing:
    [getItemQuantity] and [getItemSubtotal] are 0 for it; conversely a
    quantity or a subtotal other than 0 means the product is in the cart, and
    [isInCart] holds exactly when some line has the product's identifier. *)
Theorem absent_product_counts_zero
  (price : Product.t -> Q) (items : list CartItem.t) (productId : string) :
  (CartTools.isInCart items productId = false ->
   CartTools.getItemQuantity items productId = 0
   /\ CartTools.getItemSubtotal price items productId = 0)
  /\ (~ CartTools.getItemQuantity items productId == 0 ->
      CartTools.isInCart items productId = true)
  /\ (~ CartTools.getItemSubtotal price items productId == 0 ->
      CartTools.isInCart items productId = true)
  /\ (CartTools.isInCart items productId = true
      <-> exists item, In item items
                       /\ Product.id (CartItem.product item) = productId).
Proof.
  assert (Habsent : CartTools.isInCart items productId = false ->
                    CartTools.getItemQuantity items productId = 0
                    /\ CartTools.getItemSubtotal price items productId = 0).
  { intro H. apply findItem_none_iff in H.
    unfold CartTools.getItemQuantity, CartTools.getItemSubtotal. rewrite H.
    split; reflexivity. }
  split; [exact Habsent|]. split; [|split].
  - intro H. destruct (CartTools.isInCart items productId) eqn:E; [reflexivity|].
    exfalso. apply H. rewrite (proj1 (Habsent eq_refl)). reflexivity.
  - intro H. destruct (CartTools.isInCart items productId) eqn:E; [reflexivity|].
    exfalso. apply H. rewrite (proj2 (Habsent eq_refl)). reflexivity.
  - unfold CartTools.isInCart. rewrite existsb_exists. split.
    + intros (item & Hin & Hid). apply String.eqb_eq in Hid. exists item. tauto.
    + intros (item & Hin & Hid). exists item. split; [exact Hin|].
      apply String.eqb_eq. exact Hid.
Qed.

Lemma absent_product_counts_zero_witness :
  CartTools.getItemQuantity [Shop.line Shop.apples_client 3 None] "rice" = 0
  /\ CartTools.getItemSubtotal (fun _ => 2) [Shop.line Shop.apples_client 3 None] "rice" = 0.
Proof.
  apply (proj1 (absent_product_counts_zero (fun _ => 2)
                  [Shop.line Shop.apples_client 3 None] "rice")).
  reflexivity.
Defined.

(** X14. For a product without variant, the quantity [getItemQuantity]
    reports is the quantity [addToCartWithToast] takes as already in the
    cart. For a product with a variant the two may differ: [getItemQuantity]
    looks at the identifier only. *)
Theorem item_quantity_is_cart_commitment (items : list CartItem.t) (product : Product.t) :
  Js.truthy_string (Product.variantId product) = None ->
  currentQuantityInCart items product
  = CartTools.getItemQuantity items (Product.id product).
Proof.
  intro Hv. unfold currentQuantityInCart, CartTools.getItemQuantity, existingItem,
    CartTools.findItem.
  rewrite Hv. f_equal. f_equal. clear.
  induction items as [|item items IH]; [reflexivity|].
  simpl. rewrite andb_true_r.
  destruct (String.eqb _ _); [reflexivity|exact IH].
Qed.

Lemma item_quantity_is_cart_commitment_witness :
  currentQuantityInCart [Shop.line Shop.rice_client 1 (Some 200);
                         Shop.line Shop.apples_client 3 None] Shop.apples_client
  = CartTools.getItemQuantity [Shop.line Shop.rice_client 1 (Some 200);
                               Shop.line Shop.apples_client 3 None] "apples".
Proof.
  apply (item_quantity_is_cart_commitment
           [Shop.line Shop.rice_client 1 (Some 200); Shop.line Shop.apples_client 3 None]
           Shop.apples_client).
  reflexivity.
Defined.

(** X15. The cart summary charges the delivery fee of 5.99 exactly when
    the subtotal is positive, and 8 percent tax on the subtotal: the total is
    1.08 times the subtotal plus the fee. An empty cart (subtotal 0) totals
    0, and a positive subtotal totals more than the subtotal plus 5.99. *)
Theorem cart_summary_total (state : CartState.t) :
  let s := CartTools.getCartSummary state in
  let subtotal := CartState.total state in
  (0 < subtotal ->
   CartTools.Summary.deliveryFee s = 5.99
   /\ CartTools.Summary.total s == 1.08 * subtotal + 5.99
   /\ subtotal + 5.99 < CartTools.Summary.total s)
  /\ (subtotal <= 0 ->
      CartTools.Summary.deliveryFee s = 0
      /\ CartTools.Summary.total s == 1.08 * subtotal)
  /\ (subtotal == 0 -> CartTools.Summary.total s == 0)
  /\ CartTools.Summary.tax s == 0.08 * subtotal.
Proof.
  intros s subtotal. subst s. unfold CartTools.getCartSummary. simpl.
  fold subtotal. split; [|split; [|split]].
  - intro Hpos. apply gt_iff in Hpos. rewrite Hpos.
    apply gt_iff in Hpos. split; [reflexivity|]. split; lra.
  - intro Hle. apply gt_false_iff in Hle. rewrite Hle.
    split; [reflexivity|]. lra.
  - intro Hz. assert (Hle : Js.gt subtotal 0 = false) by (apply gt_false_iff; lra).
    rewrite Hle. lra.
  - lra.
Qed.

Lemma cart_summary_total_witness :
  CartTools.Summary.total
    (CartTools.getCartSummary
       {| CartState.items := []; CartState.total := 50; CartState.itemCount := 2 |})
  == 59.99.
Proof.
  destruct (cart_summary_total
              {| CartState.items := []; CartState.total := 50; CartState.itemCount := 2 |})
    as (Hpos & _).
  destruct Hpos as (_ & Htotal & _); [reflexivity|].
  rewrite Htotal. reflexivity.
Defined.

(** X16. [updateQuantityWithToast] always passes the new quantity on to
    the cart. It shows no toast exactly when the new quantity is not 0 and
    equals the quantity the cart holds (0 for a product that is not in the
    cart); a new quantity of 0 is always reported as a removal, also when the
    product was not in the cart. *)
Theorem update_quantity_notice
  (items : list CartItem.t) (productId : string) (quantity : Q)
  (productName : option string) :
  let r := CartTools.updateQuantityWithToast items productId quantity productName in
  fst r = CartTools.UpdateQuantity productId quantity
  /\ (snd r = None
      <-> ~ quantity == 0 /\ quantity == CartTools.getItemQuantity items productId)
  /\ (quantity == 0 -> snd r = Some (CartTools.removed_notice productName)).
Proof.
  intro r. subst r. unfold CartTools.updateQuantityWithToast. simpl.
  fold (CartTools.getItemQuantity items productId).
  set (old := CartTools.getItemQuantity items productId).
  split; [reflexivity|].
  destruct (Qeq_bool quantity 0) eqn:Hz.
  - apply Qeq_bool_iff in Hz. split; [|reflexivity].
    split; [discriminate|]. intros (H & _). contradiction.
  - assert (Hnz : ~ quantity == 0).
    { intro E. apply Qeq_bool_iff in E. congruence. }
    split; [|intro E; contradiction].
    destruct (Js.gt quantity old) eqn:Hup.
    + apply gt_iff in Hup. split; [discriminate|]. intros (_ & E). lra.
    + destruct (Js.gt old quantity) eqn:Hdown.
      * apply gt_iff in Hdown. split; [discriminate|]. intros (_ & E). lra.
      * apply gt_false_iff in Hup. apply gt_false_iff in Hdown.
        split; [|reflexivity]. intros _. split; [exact Hnz|]. lra.
Qed.

Lemma update_quantity_notice_witness :
  snd (CartTools.updateQuantityWithToast [Shop.line Shop.apples_client 3 None]
         "rice" 0 None)
  = Some (CartTools.removed_notice None).
Proof.
  apply (proj2 (proj2 (update_quantity_notice [Shop.line Shop.apples_client 3 None]
                         "rice" 0 None))).
  reflexivity.
Defined.

(** ** The registration route *)

Section RegisterPaths.

Variable bcrypt_hash : string -> nat -> string.
Variable uuid_user uuid_usage : string.

Let POST := Register.POST bcrypt_hash uuid_user uuid_usage.
Let userData := Register.userData bcrypt_hash uuid_user.

(** The route, path by path. *)
Lemma register_cases (db : Register.Tables.t) (f : Register.Form.t) :
  POST db f = Raised
  \/ ((Js.truthy_string (Register.Form.email f) = None
       \/ Js.truthy_string (Register.Form.password f) = None)
      /\ POST db f = Returned (Register.bad_request
                                 "Email or phone number and password are required.", db))
  \/ (Js.truthy_string (Register.Form.name f) = None
      /\ POST db f = Returned (Register.bad_request "Name is required.", db))
  \/ exists email password name users,
       Js.truthy_string (Register.Form.email f) = Some email
       /\ Js.truthy_string (Register.Form.password f) = Some password
       /\ Js.truthy_string (Register.Form.name f) = Some name
       /\ Register.Tables.user db = Returned users
       /\ ((existingUser users email <> None
            /\ POST db f
               = Returned (Register.bad_request
                   "An account with this email or phone number already exists.", db))
           \/ (existingUser users email = None
               /\ ((exists l usages,
                      Register.magicLinkData db (Register.Form.magicToken f)
                      = Returned (Some l)
                      /\ Register.Tables.magicLinkUsage db = Returned usages
                      /\ POST db f
                         = Returned
                             (approved_response,
                              tables_with db users (userData f email password true)
                                (Returned (usages ++
                                   [{| Register.Usage.id := uuid_usage;
                                       Register.Usage.userId := uuid_user;
                                       Register.Usage.magicLinkId :=
                                         Register.MagicLink.id l |}])%list)))
                   \/ (Register.magicLinkData db (Register.Form.magicToken f)
                       = Returned None
                       /\ POST db f
                          = Returned
                              (pending_response,
                               tables_with db users (userData f email password false)
                                 (Register.Tables.magicLinkUsage db)))))).
Proof.
  unfold POST, Register.POST.
  destruct (Js.truthy_string (Register.Form.email f)) as [email|];
    [|right; left; split; [left|]; reflexivity].
  destruct (Js.truthy_string (Register.Form.password f)) as [password|];
    [|right; left; split; [right|]; reflexivity].
  destruct (Js.truthy_string (Register.Form.name f)) as [name|];
    [|right; right; left; split; reflexivity].
  destruct (Register.Tables.user db) as [users|] eqn:Husers; [|left; reflexivity].
  cbn [bind]. fold (existingUser users email).
  destruct (existingUser users email) as [u|] eqn:Hex.
  { right. right. right. exists email, password, name, users.
    repeat split. left. split; [rewrite Hex; discriminate|reflexivity]. }
  destruct (Register.magicLinkData db (Register.Form.magicToken f)) as [link|] eqn:Hlink;
    [|left; reflexivity].
  cbn [bind]. unfold Register.insert. cbn [bind].
  destruct link as [l|].
  - destruct (Register.Tables.magicLinkUsage db) as [usages|] eqn:Hu; [|left; reflexivity].
    right. right. right. exists email, password, name, users.
    repeat split. right. split; [exact Hex|]. left.
    exists l, usages. repeat split.
  - right. right. right. exists email, password, name, users.
    repeat split. right. split; [exact Hex|]. right. split; reflexivity.
Qed.

(** X17. A registration answers with status 200 or 400. When it refuses
    (400) it leaves every table as it was; and it never changes the
    magic-link table, so that a magic link is not used up by a registration. *)
Theorem refused_registration_writes_nothing
  (db db' : Register.Tables.t) (f : Register.Form.t) (resp : Register.Response) :
  Register.POST bcrypt_hash uuid_user uuid_usage db f = Returned (resp, db') ->
  (Register.status resp = 200%nat \/ Register.status resp = 400%nat)
  /\ (Register.status resp = 400%nat -> db' = db)
  /\ (Register.status resp = 400%nat <-> Register.Reply.error (Register.body resp) <> None)
  /\ Register.Tables.globalMagicLink db' = Register.Tables.globalMagicLink db.
Proof.
  intro H. fold POST in H.
  destruct (register_cases db f)
    as [E | [(_ & E) | [(_ & E) | (email & password & name & users & _ & _ & _ & _ & Hc)]]];
    try (rewrite E in H; try discriminate H; injection H as <- <-;
         repeat split; auto; try discriminate).
  destruct Hc as [(_ & E) | (_ & [(l & usages & _ & _ & E) | (_ & E)])];
    rewrite E in H; injection H as <- <-; simpl;
    repeat split; auto; try discriminate; intro C; exfalso; apply C; reflexivity.
Qed.

(** X18. A registration that creates a user gives it the identifier drawn
    for the call. When the user is approved, one row is appended to the
    usage table, linking that identifier to the magic link the token
    belongs to; when the user is pending, the usage table is left as it
    was. *)
Theorem magic_link_usage_tracks_approval
  (db db' : Register.Tables.t) (f : Register.Form.t) (resp : Register.Response) :
  Register.POST bcrypt_hash uuid_user uuid_usage db f = Returned (resp, db') ->
  Register.status resp = 200%nat ->
  exists users u,
    Register.Tables.user db = Returned users
    /\ Register.Tables.user db' = Returned (users ++ [u])%list
    /\ Register.User.id u = uuid_user
    /\ ((Register.User.status u = "approved"
         /\ exists l usages,
              Register.magicLinkData db (Register.Form.magicToken f) = Returned (Some l)
              /\ Register.Tables.magicLinkUsage db = Returned usages
              /\ Register.Tables.magicLinkUsage db'
                 = Returned (usages ++
                     [{| Register.Usage.id := uuid_usage;
                         Register.Usage.userId := uuid_user;
                         Register.Usage.magicLinkId := Register.MagicLink.id l |}])%list)
        \/ (Register.User.status u = "pending"
            /\ Register.Tables.magicLinkUsage db' = Register.Tables.magicLinkUsage db)).
Proof.
  intros H Hok. fold POST in H.
  destruct (register_cases db f)
    as [E | [(_ & E) | [(_ & E) | (email & password & name & users & _ & _ & _ & Hu & Hc)]]];
    try (rewrite E in H; try discriminate H; injection H as <- <-; discriminate Hok).
  destruct Hc as [(_ & E) | (_ & [(l & usages & Hl & Hus & E) | (_ & E)])];
    rewrite E in H; injection H as <- <-; try discriminate Hok.
  - exists users, (userData f email password true).
    repeat split; try assumption. left. split; [reflexivity|].
    exists l, usages. repeat split; assumption.
  - exists users, (userData f email password false).
    repeat split; try assumption. right. split; reflexivity.
Qed.

End RegisterPaths.

Lemma hd_error_app_new {A : Type} (l : list A) (a : A) :
  hd_error (l ++ [a])%list <> None.
Proof. destruct l; discriminate. Qed.

Lemma existingUser_new_row
  (bcrypt_hash : string -> nat -> string) (uuid_user : string)
  (f : Register.Form.t) (email password : string) (approved : bool)
  (users : list Register.User.t) :
  existingUser (users ++ [Register.userData bcrypt_hash uuid_user f email password approved])
    email <> None.
Proof.
  unfold existingUser.
  destruct (Register.includes_at email) eqn:Hat; rewrite filter_app; simpl;
    rewrite Hat; simpl; rewrite String.eqb_refl; apply hd_error_app_new.
Qed.

Lemma created_tables
  (bcrypt_hash : string -> nat -> string) (uuid_user uuid_usage : string)
  (db db' : Register.Tables.t) (f : Register.Form.t) (resp : Register.Response) :
  Register.POST bcrypt_hash uuid_user uuid_usage db f = Returned (resp, db') ->
  Register.status resp = 200%nat ->
  exists email password name users (approved : bool) usage,
    Js.truthy_string (Register.Form.email f) = Some email
    /\ Js.truthy_string (Register.Form.password f) = Some password
    /\ Js.truthy_string (Register.Form.name f) = Some name
    /\ Register.Tables.user db = Returned users
    /\ existingUser users email = None
    /\ resp = (if approved then approved_response else pending_response)
    /\ db' = tables_with db users
               (Register.userData bcrypt_hash uuid_user f email password approved) usage
    /\ (approved = true ->
        exists l, Register.magicLinkData db (Register.Form.magicToken f)
                  = Returned (Some l))
    /\ (approved = false ->
        Register.magicLinkData db (Register.Form.magicToken f) = Returned None
        /\ usage = Register.Tables.magicLinkUsage db).
Proof.
  intros H Hok.
  destruct (register_cases bcrypt_hash uuid_user uuid_usage db f)
    as [E | [(_ & E) | [(_ & E) | (email & password & name & users & He & Hp & Hn & Hu & Hc)]]];
    try (rewrite E in H; try discriminate H; injection H as <- <-; discriminate Hok).
  destruct Hc as [(_ & E) | (Hex & [(l & usages & Hl & Hus & E) | (Hl & E)])];
    rewrite E in H; injection H as <- <-; try discriminate Hok.
  - exists email, password, name, users, true. eexists.
    repeat split; try eassumption; try reflexivity.
    + intros _. exists l. exact Hl.
    + discriminate.
    + discriminate.
  - exists email, password, name, users, false. eexists.
    repeat split; try eassumption; try reflexivity. discriminate.
Qed.

(** X19. Once a registration has created a user, a second registration
    with the same e-mail address or phone number is refused with status 400,
    whatever its password, name and token, and writes nothing. *)
Theorem registered_address_is_taken
  (bcrypt_hash bcrypt_hash' : string -> nat -> string)
  (uuid_user uuid_usage uuid_user' uuid_usage' : string)
  (db db' : Register.Tables.t) (f f' : Register.Form.t) (resp : Register.Response) :
  Register.POST bcrypt_hash uuid_user uuid_usage db f = Returned (resp, db') ->
  Register.status resp = 200%nat ->
  Js.truthy_string (Register.Form.email f') = Js.truthy_string (Register.Form.email f) ->
  Js.truthy_string (Register.Form.password f') <> None ->
  Js.truthy_string (Register.Form.name f') <> None ->
  Register.POST bcrypt_hash' uuid_user' uuid_usage' db' f'
  = Returned (Register.bad_request
                "An account with this email or phone number already exists.", db').
Proof.
  intros H Hok Hsame Hpw Hname.
  destruct (created_tables _ _ _ _ _ _ _ H Hok)
    as (email & password & name & users & approved & usage
        & He & _ & _ & _ & _ & _ & -> & _).
  unfold Register.POST. rewrite Hsame, He.
  destruct (Js.truthy_string (Register.Form.password f')) as [password'|];
    [|contradiction].
  destruct (Js.truthy_string (Register.Form.name f')) as [name'|]; [|contradiction].
  cbn [tables_with Register.Tables.user bind].
  fold (existingUser
          (users ++ [Register.userData bcrypt_hash uuid_user f email password approved])
          email).
  pose proof (existingUser_new_row bcrypt_hash uuid_user f email password approved users)
    as Hnew.
  destruct (existingUser _ email); [reflexivity|contradiction].
Qed.

Lemma magicLinkData_same_links (db db' : Register.Tables.t) (magicToken : option string) :
  Register.Tables.globalMagicLink db' = Register.Tables.globalMagicLink db ->
  Register.magicLinkData db' magicToken = Register.magicLinkData db magicToken.
Proof. intro H. unfold Register.magicLinkData. rewrite H. reflexivity. Qed.

(** X20. A magic link is not used up: after a registration that was
    approved through a token, any later registration with the same token
    that creates a user is approved as well. *)
Theorem magic_link_is_reusable
  (bcrypt_hash bcrypt_hash' : string -> nat -> string)
  (uuid_user uuid_usage uuid_user' uuid_usage' : string)
  (db db' db'' : Register.Tables.t) (f f' : Register.Form.t)
  (resp resp' : Register.Response) :
  Register.POST bcrypt_hash uuid_user uuid_usage db f = Returned (resp, db') ->
  Register.Reply.autoApproved (Register.body resp) = Some true ->
  Register.Form.magicToken f' = Register.Form.magicToken f ->
  Register.POST bcrypt_hash' uuid_user' uuid_usage' db' f' = Returned (resp', db'') ->
  Register.status resp' = 200%nat ->
  resp' = approved_response
  /\ exists users u,
       Register.Tables.user db'' = Returned (users ++ [u])%list
       /\ Register.User.status u = "approved".
Proof.
  intros H Hauto Htok H' Hok'.
  assert (Hok : Register.status resp = 200%nat).
  { destruct (register_cases bcrypt_hash uuid_user uuid_usage db f)
      as [E | [(_ & E) | [(_ & E) | (e & p & n & us & _ & _ & _ & _ & Hc)]]];
      try (rewrite E in H; try discriminate H; injection H as <- <-; discriminate Hauto).
    destruct Hc as [(_ & E) | (_ & [(l & usages & _ & _ & E) | (_ & E)])];
      rewrite E in H; injection H as <- <-; try discriminate Hauto. reflexivity. }
  destruct (created_tables _ _ _ _ _ _ _ H Hok)
    as (email & password & name & users & approved & usage
        & _ & _ & _ & _ & _ & -> & -> & Hyes & _).
  destruct approved; [|discriminate Hauto].
  destruct (Hyes eq_refl) as (l & Hl).
  destruct (created_tables _ _ _ _ _ _ _ H' Hok')
    as (email' & password' & name' & users' & approved' & usage'
        & _ & _ & _ & _ & _ & -> & -> & _ & Hno).
  destruct approved'.
  - split; [reflexivity|]. eexists _, _. split; reflexivity.
  - exfalso. destruct (Hno eq_refl) as (Hnone & _).
    rewrite Htok in Hnone.
    rewrite (magicLinkData_same_links db (tables_with db users _ usage) _ eq_refl)
      in Hnone.
    congruence.
Qed.

Lemma refused_registration_writes_nothing_witness :
  let db := Club.tables Club.uninvited in
  let again := Register.POST Club.hash "u-2" "g-2" db (Club.form "ana@example.org" None) in
  Register.status (Club.answer again) = 400%nat
  /\ Club.tables again = db.
Proof.
  intros db again.
  destruct (refused_registration_writes_nothing Club.hash "u-2" "g-2" db
              (Club.tables again) (Club.form "ana@example.org" None)
              (Club.answer again) eq_refl)
    as (_ & Hsame & _).
  split; [reflexivity|]. apply Hsame. reflexivity.
Defined.

Lemma magic_link_usage_tracks_approval_witness :
  exists users u,
    Register.Tables.user (Club.tables Club.invited) = Returned (users ++ [u])%list
    /\ Register.User.id u = "u-1"
    /\ Register.Tables.magicLinkUsage (Club.tables Club.invited)
       = Returned [{| Register.Usage.id := "g-1"; Register.Usage.userId := "u-1";
                      Register.Usage.magicLinkId := "link-1" |}].
Proof.
  destruct (magic_link_usage_tracks_approval Club.hash "u-1" "g-1" Club.empty
              (Club.tables Club.invited) (Club.form "ana@example.org" (Some "welcome"))
              (Club.answer Club.invited) eq_refl eq_refl)
    as (users & u & _ & Hu & Hid & _).
  exists users, u. split; [exact Hu|]. split; [exact Hid|]. reflexivity.
Defined.

Lemma registered_address_is_taken_witness :
  Register.POST Club.hash "u-2" "g-2" (Club.tables Club.invited)
    (Club.form "ana@example.org" None)
  = Returned (Register.bad_request
                "An account with this email or phone number already exists.",
              Club.tables Club.invited).
Proof.
  apply (registered_address_is_taken Club.hash Club.hash "u-1" "g-1" "u-2" "g-2"
           Club.empty (Club.tables Club.invited)
           (Club.form "ana@example.org" (Some "welcome"))
           (Club.form "ana@example.org" None) (Club.answer Club.invited)).
  - reflexivity.
  - reflexivity.
  - reflexivity.
  - discriminate.
  - discriminate.
Defined.

Lemma magic_link_is_reusable_witness :
  let second := Register.POST Club.hash "u-2" "g-2" (Club.tables Club.invited)
                  (Club.form "ben@example.org" (Some "welcome")) in
  Club.answer second = approved_response.
Proof.
  intro second.
  apply (magic_link_is_reusable Club.hash Club.hash "u-1" "g-1" "u-2" "g-2"
           Club.empty (Club.tables Club.invited) (Club.tables second)
           (Club.form "ana@example.org" (Some "welcome"))
           (Club.form "ben@example.org" (Some "welcome"))
           (Club.answer Club.invited) (Club.answer second));
    reflexivity.
Defined.

Lemma register_pending
  (bcrypt_hash : string -> nat -> string) (uuid_user uuid_usage : string)
  (db : Register.Tables.t) (f : Register.Form.t) (email password name : string)
  (users : list Register.User.t) :
  Js.truthy_string (Register.Form.email f) = Some email ->
  Js.truthy_string (Register.Form.password f) = Some password ->
  Js.truthy_string (Register.Form.name f) = Some name ->
  Register.Tables.user db = Returned users ->
  existingUser users email = None ->
  Js.truthy_string (Register.Form.magicToken f) = None ->
  Register.POST bcrypt_hash uuid_user uuid_usage db f
  = Returned (pending_response,
              tables_with db users
                (Register.userData bcrypt_hash uuid_user f email password false)
                (Register.Tables.magicLinkUsage db)).
Proof.
  intros He Hp Hn Hu Hex Htok.
  unfold Register.POST. rewrite He, Hp, Hn, Hu. cbn [bind].
  fold (existingUser users email). rewrite Hex.
  unfold Register.magicLinkData. rewrite Htok. cbn [bind].
  reflexivity.
Qed.

(** X21. The route tells phone numbers apart by their exact text but
    derives the placeholder e-mail from the digits alone: two numbers that
    differ only in other characters are both registered, and the two rows
    get the same placeholder e-mail. *)
Theorem phone_formats_share_placeholder
  (bcrypt_hash bcrypt_hash' : string -> nat -> string)
  (uuid_user uuid_usage uuid_user' uuid_usage' : string)
  (db : Register.Tables.t) (f f' : Register.Form.t)
  (phone phone' password password' name name' : string)
  (users : list Register.User.t) :
  Js.truthy_string (Register.Form.email f) = Some phone ->
  Js.truthy_string (Register.Form.email f') = Some phone' ->
  Register.includes_at phone = false ->
  Register.includes_at phone' = false ->
  phone <> phone' ->
  Register.digits_only phone = Register.digits_only phone' ->
  Js.truthy_string (Register.Form.password f) = Some password ->
  Js.truthy_string (Register.Form.password f') = Some password' ->
  Js.truthy_string (Register.Form.name f) = Some name ->
  Js.truthy_string (Register.Form.name f') = Some name' ->
  Js.truthy_string (Register.Form.magicToken f) = None ->
  Js.truthy_string (Register.Form.magicToken f') = None ->
  Register.Tables.user db = Returned users ->
  existingUser users phone = None ->
  existingUser users phone' = None ->
  exists db1 db2 u u',
    Register.POST bcrypt_hash uuid_user uuid_usage db f = Returned (pending_response, db1)
    /\ Register.POST bcrypt_hash' uuid_user' uuid_usage' db1 f'
       = Returned (pending_response, db2)
    /\ Register.Tables.user db2 = Returned (users ++ [u; u'])%list
    /\ Register.User.phone u = Some phone
    /\ Register.User.phone u' = Some phone'
    /\ Register.User.email u = Register.User.email u'
    /\ Register.User.email u
       = Some (Register.digits_only phone ++ "@phone.placeholder")%string.
Proof.
  intros He He' Hat Hat' Hdiff Hdigits Hp Hp' Hn Hn' Ht Ht' Hu Hex Hex'.
  set (u := Register.userData bcrypt_hash uuid_user f phone password false).
  set (db1 := tables_with db users u (Register.Tables.magicLinkUsage db)).
  set (u' := Register.userData bcrypt_hash' uuid_user' f' phone' password' false).
  assert (Hex1 : existingUser (users ++ [u]) phone' = None).
  { unfold existingUser in Hex'. rewrite Hat' in Hex'.
    unfold existingUser. rewrite Hat', filter_app.
    destruct (filter (fun r => Db.eq_nullable (Register.User.phone r) phone') users)
      as [|x xs]; [|discriminate Hex'].
    simpl. unfold u, Register.userData. simpl. rewrite Hat. simpl.
    destruct (String.eqb_spec phone phone'); [contradiction|reflexivity]. }
  exists db1, (tables_with db1 (users ++ [u]) u' (Register.Tables.magicLinkUsage db1)), u, u'.
  split; [apply (register_pending _ _ _ db f phone password name users); assumption|].
  split; [apply (register_pending _ _ _ db1 f' phone' password' name' (users ++ [u]));
          try assumption; reflexivity|].
  split; [simpl; rewrite <- app_assoc; reflexivity|].
  unfold u, u', Register.userData. simpl. rewrite Hat, Hat', Hdigits.
  repeat split.
Qed.

Lemma phone_formats_share_placeholder_witness :
  exists db1 db2 u u',
    Register.POST Club.hash "u-1" "g-1" Club.empty (Club.form "555-0100" None)
    = Returned (pending_response, db1)
    /\ Register.POST Club.hash "u-2" "g-2" db1 (Club.form "555 0100" None)
       = Returned (pending_response, db2)
    /\ Register.Tables.user db2 = Returned ([] ++ [u; u'])%list
    /\ Register.User.email u = Register.User.email u'.
Proof.
  destruct (phone_formats_share_placeholder Club.hash Club.hash "u-1" "g-1" "u-2" "g-2"
              Club.empty (Club.form "555-0100" None) (Club.form "555 0100" None)
              "555-0100" "555 0100" "secret" "secret" "Ana" "Ana" []
              eq_refl eq_refl eq_refl eq_refl)
    as (db1 & db2 & u & u' & H1 & H2 & H3 & _ & _ & H4 & _);
    try reflexivity; try discriminate.
  exists db1, db2, u, u'. repeat split; assumption.
Defined.

(** ** The register page *)

Lemma accepted_of_link (db : Register.Tables.t) (magicToken : option string)
  (l : Register.MagicLink.t) :
  Register.magicLinkData db magicToken = Returned (Some l) ->
  token_accepted db magicToken.
Proof.
  unfold Register.magicLinkData, token_accepted.
  destruct (Js.truthy_string magicToken) as [tok|]; [|discriminate].
  unfold Db.select_limit1.
  destruct (Register.Tables.globalMagicLink db) as [rows|]; [|discriminate].
  simpl. intro H. injection H as H.
  destruct (filter _ rows) as [|row rest] eqn:Hf; [discriminate|].
  simpl in H. destruct (Register.MagicLink.isEnabled row) eqn:He; [|discriminate].
  assert (Hin : In row (filter (fun r => String.eqb (Register.MagicLink.token r) tok) rows)).
  { rewrite Hf. left. reflexivity. }
  apply filter_In in Hin. destruct Hin as (Hin & Htok). apply String.eqb_eq in Htok.
  exists tok, rows, row. repeat split; assumption.
Qed.

Section RegisterPagePaths.

Variable bcrypt_hash : string -> nat -> string.
Variable uuid_user uuid_usage : string.
Variable db : Register.Tables.t.
Variable signIn : string -> string -> Thrown (option RegisterPage.SignIn.t).
Variable st : RegisterPage.State.t.

Let served := RegisterPage.served bcrypt_hash uuid_user uuid_usage db.
Let pending := RegisterPage.State.accountPending st.

Hypothesis Hname : Js.truthy_str (RegisterPage.State.name st) = true.
Hypothesis Hemail : Js.truthy_str (RegisterPage.State.email st) = true.
Hypothesis Hpassword : Js.truthy_str (RegisterPage.State.password st) = true.

(** The page against the route, path by path. *)
Lemma page_register_cases :
  let r := RegisterPage.handleRegister served signIn st in
  r = (RegisterPage.with_result st "An error occurred. Please try again."
         EmptyString pending, None)
  \/ r = (RegisterPage.with_result st
            "An account with this email or phone number already exists."
            EmptyString pending, None)
  \/ (Register.magicLinkData db (RegisterPage.State.magicToken st) = Returned None
      /\ r = (RegisterPage.with_result st EmptyString
                "Account created successfully! Your account is pending approval. You will be able to login once an admin approves your account."
                true, None))
  \/ ((exists l, Register.magicLinkData db (RegisterPage.State.magicToken st)
                 = Returned (Some l))
      /\ exists error nav,
           r = (RegisterPage.with_result st error
                  "Account created and automatically approved via magic link! You can now login."
                  pending, nav)
           /\ ((nav = Some "/dashboard" /\ error = EmptyString
                /\ exists s, signIn (RegisterPage.State.email st)
                               (RegisterPage.State.password st) = Returned (Some s)
                             /\ RegisterPage.SignIn.ok s = true)
               \/ (nav = None /\ error <> EmptyString))).
Proof.
  intro r. subst r. unfold RegisterPage.handleRegister.
  rewrite Hname, Hemail, Hpassword. cbn [negb orb].
  unfold served, RegisterPage.served.
  destruct (register_cases bcrypt_hash uuid_user uuid_usage db (RegisterPage.form st))
    as [E | [(Hmiss & _) | [(Hmiss & _) | (e & p & n & users & _ & _ & _ & _ & Hc)]]].
  - rewrite E. left. reflexivity.
  - exfalso. simpl in Hmiss. rewrite Hemail, Hpassword in Hmiss.
    destruct Hmiss; discriminate.
  - exfalso. simpl in Hmiss. rewrite Hname in Hmiss. discriminate.
  - destruct Hc as [(_ & E) | (_ & [(l & usages & Hl & _ & E) | (Hl & E)])]; rewrite E.
    + right. left. reflexivity.
    + right. right. right. split; [exists l; exact Hl|].
      cbn [bind fst RegisterPage.ok approved_response Register.status Register.body
           Nat.leb andb negb Js.truthy_bool Register.Reply.requiresApproval
           Register.Reply.autoApproved Register.Reply.message Js.or_str Js.truthy_str].
      destruct (signIn (RegisterPage.State.email st) (RegisterPage.State.password st))
        as [[s|]|] eqn:Hs.
      * destruct (RegisterPage.SignIn.ok s) eqn:Hok.
        -- eexists _, _. split; [reflexivity|]. left.
           repeat split. exists s. split; [reflexivity|exact Hok].
        -- eexists _, _. split; [reflexivity|]. right. split; [reflexivity|discriminate].
      * eexists _, _. split; [reflexivity|]. right. split; [reflexivity|discriminate].
      * eexists _, _. split; [reflexivity|]. right. split; [reflexivity|discriminate].
    + right. right. left. split; [exact Hl|]. reflexivity.
Qed.

End RegisterPagePaths.

Lemma page_skips_route
  (register : Register.Form.t -> Thrown Register.Response)
  (signIn : string -> string -> Thrown (option RegisterPage.SignIn.t))
  (st : RegisterPage.State.t) :
  Js.truthy_str (RegisterPage.State.name st)
  && Js.truthy_str (RegisterPage.State.email st)
  && Js.truthy_str (RegisterPage.State.password st) = false ->
  RegisterPage.handleRegister register signIn st
  = (RegisterPage.with_result st "Please fill in all required fields" EmptyString
       (RegisterPage.State.accountPending st), None).
Proof.
  intro Hreq. unfold RegisterPage.handleRegister.
  destruct (Js.truthy_str (RegisterPage.State.name st));
    destruct (Js.truthy_str (RegisterPage.State.email st));
    destruct (Js.truthy_str (RegisterPage.State.password st));
    try discriminate Hreq; reflexivity.
Qed.

(** X22. The register page checks the required fields itself: with an
    empty name, address or password it shows its own message and neither the
    route nor [signIn] is called; with all three filled in, the refusals of
    the route for a missing field never reach the page, and the only refusal
    it can show from the route is that the account already exists. After
    the handler the page is never left loading. *)
Theorem register_page_validates_first
  (bcrypt_hash : string -> nat -> string) (uuid_user uuid_usage : string)
  (db : Register.Tables.t)
  (signIn : string -> string -> Thrown (option RegisterPage.SignIn.t))
  (st : RegisterPage.State.t) :
  let served := RegisterPage.served bcrypt_hash uuid_user uuid_usage db in
  let required := Js.truthy_str (RegisterPage.State.name st)
                  && Js.truthy_str (RegisterPage.State.email st)
                  && Js.truthy_str (RegisterPage.State.password st) in
  (required = false ->
   forall register signIn',
     RegisterPage.handleRegister register signIn' st
     = (RegisterPage.with_result st "Please fill in all required fields" EmptyString
          (RegisterPage.State.accountPending st), None))
  /\ (required = true ->
      let error := RegisterPage.State.error
                     (fst (RegisterPage.handleRegister served signIn st)) in
      error <> "Email or phone number and password are required."
      /\ error <> "Name is required."
      /\ error <> "Please fill in all required fields"
      /\ error <> "Registration failed")
  /\ RegisterPage.State.loading (fst (RegisterPage.handleRegister served signIn st))
     = false.
Proof.
  intros served required. split; [|split].
  - intros Hreq register signIn'. apply page_skips_route. exact Hreq.
  - intro Hreq. unfold required in Hreq.
    apply andb_true_iff in Hreq. destruct Hreq as (Hreq & Hp).
    apply andb_true_iff in Hreq. destruct Hreq as (Hn & He).
    destruct (page_register_cases bcrypt_hash uuid_user uuid_usage db signIn st Hn He Hp)
      as [E | [E | [(_ & E) | (_ & error & nav & E & Hnav)]]];
      fold served in E; rewrite E; simpl; try (repeat split; discriminate).
    destruct Hnav as [(_ & -> & _) | (-> & Herr)]; [repeat split; discriminate|].
    unfold RegisterPage.handleRegister in E.
    rewrite Hn, He, Hp in E. cbn [negb orb] in E.
    destruct (served (RegisterPage.form st)) as [res|]; [|injection E as <-;
      repeat split; discriminate].
    destruct (negb (RegisterPage.ok res)); [injection E as _ E'; discriminate E'|].
    destruct (Js.truthy_bool (Register.Reply.requiresApproval (Register.body res)));
      [injection E as <-; contradiction|].
    destruct (Js.truthy_bool (Register.Reply.autoApproved (Register.body res)));
      [|injection E as <-; contradiction].
    destruct (signIn _ _) as [login|]; [|injection E as <-; repeat split; discriminate].
    destruct (match login with Some l => RegisterPage.SignIn.ok l | None => false end);
      injection E as <-; try contradiction; repeat split; discriminate.
  - unfold RegisterPage.handleRegister.
    destruct (negb _ || negb _ || negb _); [reflexivity|].
    destruct (served (RegisterPage.form st)) as [res|]; [|reflexivity].
    destruct (negb (RegisterPage.ok res)); [reflexivity|].
    destruct (Js.truthy_bool _); [reflexivity|].
    destruct (Js.truthy_bool _); [|reflexivity].
    destruct (signIn _ _) as [login|]; [|reflexivity].
    destruct (match login with Some l => RegisterPage.SignIn.ok l | None => false end);
      reflexivity.
Qed.

Lemma register_page_validates_first_witness :
  let st := {| RegisterPage.State.email := "ana@example.org";
               RegisterPage.State.password := "secret";
               RegisterPage.State.name := EmptyString;
               RegisterPage.State.note := EmptyString;
               RegisterPage.State.error := EmptyString;
               RegisterPage.State.loading := false;
               RegisterPage.State.success := EmptyString;
               RegisterPage.State.accountPending := false;
               RegisterPage.State.magicToken := None |} in
  RegisterPage.State.error
    (fst (RegisterPage.handleRegister (fun _ => Raised) (fun _ _ => Raised) st))
  = "Please fill in all required fields".
Proof.
  intro st.
  rewrite (proj1 (register_page_validates_first Club.hash "u-1" "g-1" Club.empty
                    (fun _ _ => Raised) st) eq_refl (fun _ => Raised) (fun _ _ => Raised)).
  reflexivity.
Defined.

(** X23. Through the register page, only a registration whose token is
    accepted as a magic link is logged in: the page navigates (to the
    dashboard) only if the token matches an enabled magic link and [signIn]
    answered ok. A registration marked as pending by the page is never
    followed by a navigation, and with unique tokens its token was not
    accepted. *)
Theorem auto_login_needs_magic_link
  (bcrypt_hash : string -> nat -> string) (uuid_user uuid_usage : string)
  (db : Register.Tables.t)
  (signIn : string -> string -> Thrown (option RegisterPage.SignIn.t))
  (st : RegisterPage.State.t) :
  let r := RegisterPage.handleRegister
             (RegisterPage.served bcrypt_hash uuid_user uuid_usage db) signIn st in
  (forall path, snd r = Some path ->
     path = "/dashboard"
     /\ token_accepted db (RegisterPage.State.magicToken st)
     /\ exists s, signIn (RegisterPage.State.email st) (RegisterPage.State.password st)
                  = Returned (Some s)
                  /\ RegisterPage.SignIn.ok s = true)
  /\ (RegisterPage.State.accountPending st = false ->
      RegisterPage.State.accountPending (fst r) = true ->
      snd r = None
      /\ (unique_tokens db -> ~ token_accepted db (RegisterPage.State.magicToken st))).
Proof.
  intro r.
  destruct (Js.truthy_str (RegisterPage.State.name st)
            && Js.truthy_str (RegisterPage.State.email st)
            && Js.truthy_str (RegisterPage.State.password st)) eqn:Hreq.
  - apply andb_true_iff in Hreq. destruct Hreq as (Hreq & Hp).
    apply andb_true_iff in Hreq. destruct Hreq as (Hn & He).
    destruct (page_register_cases bcrypt_hash uuid_user uuid_usage db signIn st Hn He Hp)
      as [E | [E | [(Hl & E) | ((l & Hl) & error & nav & E & Hnav)]]];
      fold r in E; rewrite E; simpl.
    + split; [discriminate|]. intros H1 H2. congruence.
    + split; [discriminate|]. intros H1 H2. congruence.
    + split; [discriminate|]. intros _ _. split; [reflexivity|].
      intros Huniq Hacc.
      apply (magicLinkData_accepts db _ None Huniq Hl) in Hacc. congruence.
    + split.
      * intros path Hpath. destruct Hnav as [(-> & _ & Hs) | (-> & _)]; [|discriminate].
        injection Hpath as <-. split; [reflexivity|].
        split; [exact (accepted_of_link db _ l Hl) | exact Hs].
      * intros H1 H2. congruence.
  - pose proof (page_skips_route
                  (RegisterPage.served bcrypt_hash uuid_user uuid_usage db) signIn st
                  Hreq) as E.
    fold r in E. rewrite E. simpl. split; [discriminate|]. intros H1 H2. congruence.
Qed.

Lemma auto_login_needs_magic_link_witness :
  let st := {| RegisterPage.State.email := "ana@example.org";
               RegisterPage.State.password := "secret";
               RegisterPage.State.name := "Ana";
               RegisterPage.State.note := EmptyString;
               RegisterPage.State.error := EmptyString;
               RegisterPage.State.loading := false;
               RegisterPage.State.success := EmptyString;
               RegisterPage.State.accountPending := false;
               RegisterPage.State.magicToken := Some "welcome" |} in
  token_accepted Club.empty (RegisterPage.State.magicToken st).
Proof.
  intro st.
  destruct (auto_login_needs_magic_link Club.hash "u-1" "g-1" Club.empty
              (fun _ _ => Returned (Some {| RegisterPage.SignIn.ok := true;
                                            RegisterPage.SignIn.error := None |}))
              st) as (Hnav & _).
  destruct (Hnav "/dashboard" eq_refl) as (_ & Hacc & _).
  exact Hacc.
Defined.

(** ** The weight label *)

Lemma fetchWeightLabel_cases (fetch : Thrown WeightLabel.Response)
  (st : WeightLabel.State.t) :
  let st' := WeightLabel.fetchWeightLabel fetch st in
  WeightLabel.State.loading st' = false
  /\ ((exists response,
         fetch = Returned response
         /\ WeightLabel.Data.success (WeightLabel.body response) = true
         /\ Js.truthy_str (WeightLabel.Data.weightLabel (WeightLabel.body response)) = true
         /\ WeightLabel.State.weightLabel st'
            = WeightLabel.Data.weightLabel (WeightLabel.body response))
      \/ ((forall response,
             fetch = Returned response ->
             WeightLabel.Data.success (WeightLabel.body response) = false
             \/ WeightLabel.Data.weightLabel (WeightLabel.body response) = EmptyString)
          /\ WeightLabel.State.weightLabel st' = WeightLabel.State.weightLabel st)).
Proof.
  intro st'. subst st'. unfold WeightLabel.fetchWeightLabel.
  split; [reflexivity|].
  destruct fetch as [response|]; simpl.
  - destruct (WeightLabel.Data.success (WeightLabel.body response)) eqn:Hs; simpl.
    + destruct (Js.truthy_str (WeightLabel.Data.weightLabel (WeightLabel.body response)))
        eqn:Ht.
      * left. exists response. repeat split; assumption.
      * right. split; [|reflexivity]. intros r E. injection E as <-. right.
        destruct (WeightLabel.Data.weightLabel (WeightLabel.body response));
          [reflexivity|discriminate].
    + right. split; [|reflexivity]. intros r E. injection E as <-. left. exact Hs.
  - right. split; [|reflexivity]. intros r E. discriminate.
Qed.

(** X24. Whatever the request for the weight label answers or throws, the
    provider ends not loading, and its label is either the non-empty label
    of a successful answer or the label it had: a failed answer, an answer
    with an empty label and an exception all leave the label as it was, so
    a label that was not empty never becomes empty. *)
Theorem weight_label_survives_failures
  (fetch : Thrown WeightLabel.Response) (st : WeightLabel.State.t) :
  let st' := WeightLabel.fetchWeightLabel fetch st in
  WeightLabel.State.loading st' = false
  /\ (fetch = Raised -> WeightLabel.State.weightLabel st' = WeightLabel.State.weightLabel st)
  /\ (forall response,
        fetch = Returned response ->
        WeightLabel.Data.success (WeightLabel.body response) = false ->
        WeightLabel.State.weightLabel st' = WeightLabel.State.weightLabel st)
  /\ (forall response,
        fetch = Returned response ->
        WeightLabel.Data.success (WeightLabel.body response) = true ->
        Js.truthy_str (WeightLabel.Data.weightLabel (WeightLabel.body response)) = true ->
        WeightLabel.State.weightLabel st'
        = WeightLabel.Data.weightLabel (WeightLabel.body response))
  /\ (Js.truthy_str (WeightLabel.State.weightLabel st) = true ->
      Js.truthy_str (WeightLabel.State.weightLabel st') = true).
Proof.
  intro st'.
  destruct (fetchWeightLabel_cases fetch st) as (Hload & Hcases). fold st' in Hload, Hcases.
  split; [exact Hload|].
  destruct Hcases as [(response & -> & Hs & Ht & Hl) | (Hfail & Hl)].
  - split; [discriminate|]. split; [|split].
    + intros r E Hf. injection E as <-. congruence.
    + intros r E _ _. injection E as <-. exact Hl.
    + intros _. rewrite Hl. exact Ht.
  - split; [intros _; exact Hl|]. split; [intros; exact Hl|]. split.
    + intros r E Hs Ht. destruct (Hfail r E) as [Hf | He]; [congruence|].
      rewrite He in Ht. discriminate.
    + rewrite Hl. auto.
Qed.

Lemma weight_label_survives_failures_witness :
  WeightLabel.State.weightLabel
    (WeightLabel.fetchWeightLabel Raised
       {| WeightLabel.State.weightLabel := "kg"; WeightLabel.State.loading := true |})
  = "kg".
Proof.
  apply (proj1 (proj2 (weight_label_survives_failures Raised
                         {| WeightLabel.State.weightLabel := "kg";
                            WeightLabel.State.loading := true |}))).
  reflexivity.
Defined.

(** X25. Once the provider has asked the route, its label is the value of
    the first [weight_label] row of the settings when that value is not
    empty, and ["g"] in every other case: no such row, an empty value, or a
    settings table that cannot be read (which the route answers with status
    500). The label is therefore never empty, and it is whatever text the
    row holds, also outside the four units. *)
Theorem weight_label_after_mount (db : Db.t) :
  let st := WeightLabel.mounted db in
  let setting rows := find (fun r => String.eqb (Setting.key r) "weight_label") rows in
  WeightLabel.State.loading st = false
  /\ Js.truthy_str (WeightLabel.State.weightLabel st) = true
  /\ (Db.settings db = Raised ->
      WeightLabel.status (WeightLabel.GET db) = 500%nat
      /\ WeightLabel.State.weightLabel st = "g")
  /\ (forall rows,
        Db.settings db = Returned rows ->
        WeightLabel.status (WeightLabel.GET db) = 200%nat
        /\ WeightLabel.State.weightLabel st
           = match setting rows with
             | Some row => if Js.truthy_str (Setting.value row)
                           then Setting.value row else "g"
             | None => "g"
             end).
Proof.
  intros st setting. subst st. unfold WeightLabel.mounted.
  assert (Hrows : forall rows,
            Db.settings db = Returned rows ->
            WeightLabel.status (WeightLabel.GET db) = 200%nat
            /\ WeightLabel.State.weightLabel
                 (WeightLabel.fetchWeightLabel (Returned (WeightLabel.GET db))
                    WeightLabel.initial)
               = match setting rows with
                 | Some row => if Js.truthy_str (Setting.value row)
                               then Setting.value row else "g"
                 | None => "g"
                 end).
  { intros rows Hr. unfold WeightLabel.GET, Db.select_limit1. rewrite Hr.
    cbn [bind try_catch]. split; [reflexivity|].
    assert (Hfind : forall rs : list Setting.t,
              firstn 1 (filter (fun r => String.eqb (Setting.key r) "weight_label") rs)
              = match setting rs with Some row => [row] | None => [] end).
    { induction rs as [|a rs IH]; [reflexivity|].
      unfold setting in *. simpl.
      destruct (String.eqb (Setting.key a) "weight_label"); [reflexivity|exact IH]. }
    rewrite Hfind. unfold WeightLabel.fetchWeightLabel.
    destruct (setting rows) as [row|]; simpl; [|reflexivity].
    destruct (Js.truthy_str (Setting.value row)); reflexivity. }
  split; [reflexivity|]. split; [|split; [|exact Hrows]].
  - destruct (Db.settings db) as [rows|] eqn:Hs.
    + rewrite (proj2 (Hrows rows eq_refl)).
      destruct (setting rows) as [row|]; [|reflexivity].
      destruct (Js.truthy_str (Setting.value row)) eqn:E; [exact E|reflexivity].
    + unfold WeightLabel.GET, Db.select_limit1. rewrite Hs. reflexivity.
  - intro Hs. unfold WeightLabel.GET, Db.select_limit1. rewrite Hs.
    split; reflexivity.
Qed.

Lemma weight_label_after_mount_witness :
  let db := Shop.db [ {| Setting.key := "stock_management_enabled"; Setting.value := "true" |};
                      {| Setting.key := "weight_label"; Setting.value := "stone" |} ] [] in
  WeightLabel.State.weightLabel (WeightLabel.mounted db) = "stone".
Proof.
  intro db.
  destruct (weight_label_after_mount db) as (_ & _ & _ & Hrows).
  destruct (Hrows _ eq_refl) as (_ & Hlabel).
  rewrite Hlabel. reflexivity.
Defined.

(** ** The stock-management setting *)

Lemma firstn1_filter_find {A : Type} (p : A -> bool) (rows : list A) :
  firstn 1 (filter p rows) = match find p rows with Some x => [x] | None => [] end.
Proof.
  induction rows as [|a rows IH]; [reflexivity|].
  simpl. destruct (p a); [reflexivity|exact IH].
Qed.

(** X26. Stock management reads as on exactly when the settings table can
    be read and the first row with the key [stock_management_enabled] holds
    the exact text ["true"]; any other text in that row (another case, a
    digit) reads as off, and later rows with the key are not looked at. *)
Theorem stock_setting_enabled_iff (db : Db.t) :
  InventoryCheck.getStockManagementSetting db = true
  <-> exists rows row,
        Db.settings db = Returned rows
        /\ find (fun r => String.eqb (Setting.key r) "stock_management_enabled") rows
           = Some row
        /\ Setting.value row = "true".
Proof.
  unfold InventoryCheck.getStockManagementSetting, Db.select_limit1.
  destruct (Db.settings db) as [rows|]; cbn [bind try_catch].
  - rewrite firstn1_filter_find.
    destruct (find _ rows) as [row|] eqn:Hf.
    + split.
      * intro H. apply String.eqb_eq in H. exists rows, row. repeat split; assumption.
      * intros (rows' & row' & E & Hf' & Hv). injection E as <-.
        rewrite Hf in Hf'. injection Hf' as <-. apply String.eqb_eq. exact Hv.
    + split; [discriminate|].
      intros (rows' & row' & E & Hf' & _). injection E as <-. congruence.
  - split; [discriminate|]. intros (rows & row & E & _). discriminate.
Qed.
